(** * Site generation and scoring engine (src/lib/types.ts, scoring-engine part)

    A shallow embedding of the scoring engine.  JavaScript numbers are IEEE
    binary64 values: they are modelled by Rocq's primitive floats, whose
    operations are the IEEE operations with rounding to nearest even.
    [Math.sin], [Math.cos] and [Math.atan2] are implementation-approximated
    in ECMA-262: the engine is parametric in them.  [Math.random] is an
    ambient source of draws: the engine reads a tape of draws at a position
    that it advances. *)

From Stdlib Require Import ZArith List String Ascii Bool Lia.
From Stdlib Require Import Floats Uint63.
From Stdlib Require Import DecimalString Decimal DecimalNat.
From Stdlib Require Import Sorting.Sorted Sorting.Permutation.
From stdpp Require Import base decidable countable list gmap.

Set Warnings "-inexact-float,-register-all".
Set Default Proof Using "Type".

(** ** JavaScript [Math] on binary64 *)

Module JS.

Local Open Scope float_scope.

(** An integer of magnitude below 2^53 as the double of the same value. *)
Definition of_Z (z : Z) : float :=
  if (z <? 0)%Z then PrimFloat.opp (PrimFloat.of_uint63 (Uint63.of_Z (- z)))
  else PrimFloat.of_uint63 (Uint63.of_Z z).

Definition of_nat (n : nat) : float := of_Z (Z.of_nat n).

(** [Math.round]: the integer nearest to [x], ties towards +Infinity; NaN,
    the infinities and the zeros are returned as they are, and a result that
    is zero keeps the sign of [x].  A finite double is [±m * 2^e]: when
    [0 <= e] it is an integer already, otherwise [floor (x + 1/2)] is taken
    on the exact value. *)
Definition Math_round (x : float) : float :=
  match Prim2SF x with
  | S754_finite s m e =>
      if (0 <=? e)%Z then x
      else
        let z := ((cond_Zopp s (Zpos m) + 2 ^ (- e - 1)) / 2 ^ (- e))%Z in
        if (z =? 0)%Z then (if s then (-0) else 0) else of_Z z
  | _ => x
  end.

Definition Math_abs (x : float) : float := PrimFloat.abs x.

Definition Math_sqrt (x : float) : float := PrimFloat.sqrt x.

Definition Math_PI : float := 3.141592653589793.

(** [Math.min] and [Math.max] of two arguments: NaN if either is NaN, and
    -0 is smaller than +0. *)
Definition Math_min (a b : float) : float :=
  if PrimFloat.is_nan a || PrimFloat.is_nan b then nan
  else if a <? b then a
  else if b <? a then b
  else match PrimFloat.classify a with NZero => a | _ => b end.

Definition Math_max (a b : float) : float :=
  if PrimFloat.is_nan a || PrimFloat.is_nan b then nan
  else if b <? a then a
  else if a <? b then b
  else match PrimFloat.classify a with PZero => a | _ => b end.

End JS.

Import JS.

Local Open Scope float_scope.

(** ** Data model *)

Inductive OperationalStatus := active | inactive | planned.

Inductive FacilityType := petrochemical | refinery | steel | cement | power.

#[global] Instance FacilityType_eq_dec : EqDecision FacilityType.
Proof. solve_decision. Defined.

Definition FacilityType_code (t : FacilityType) : nat :=
  match t with
  | petrochemical => 0 | refinery => 1 | steel => 2 | cement => 3 | power => 4
  end.

Definition FacilityType_of_code (n : nat) : FacilityType :=
  match n with
  | 0 => petrochemical | 1 => refinery | 2 => steel | 3 => cement | _ => power
  end.

#[global] Instance FacilityType_countable : Countable FacilityType.
Proof.
  apply (inj_countable' FacilityType_code FacilityType_of_code).
  intros []; reflexivity.
Defined.

Module Acetic.
Record t := mk {
    id : string;
    name : string;
    latitude : float;
    longitude : float;
    capacity : float;
    operationalStatus : OperationalStatus;
    lastUpdated : string
  }.
End Acetic.
Abbreviation AceticAcidFacility := Acetic.t.

Module CO2.
Record t := mk {
    id : string;
    name : string;
    latitude : float;
    longitude : float;
    co2EmissionRate : float;
    facilityType : FacilityType;
    operationalStatus : OperationalStatus;
    lastUpdated : string
  }.
End CO2.
Abbreviation CO2EmitterFacility := CO2.t.

Module Site.
Record t := mk {
    id : string;
    latitude : float;
    longitude : float;
    aceticAcidFacilities : list string;
    co2EmitterFacilities : list string;
    distance : float;
    governmentalScore : float;
    logisticsScore : float;
    policyIncentivesScore : float;
    communityReadinessScore : float;
    overallScore : float
  }.
End Site.
Abbreviation OverlapSite := Site.t.

(** ** Scoring tables *)

Module Weights.
Record t := mk {
    governmental : float;
    logistics : float;
    policyIncentives : float;
    communityReadiness : float
  }.
End Weights.

Definition SCORING_WEIGHTS : Weights.t :=
  {| Weights.governmental := 0.3;
     Weights.logistics := 0.25;
     Weights.policyIncentives := 0.25;
     Weights.communityReadiness := 0.2 |}.

Inductive Region := gulf_coast | midwest | northeast | west_coast | southeast.

Module Zone.
Record t := mk { governmental : float; logistics : float; policy : float }.
End Zone.

Definition REGULATORY_ZONES (r : Region) : Zone.t :=
  match r with
  | gulf_coast => Zone.mk 85 90 75
  | midwest => Zone.mk 70 85 60
  | northeast => Zone.mk 60 70 80
  | west_coast => Zone.mk 65 75 90
  | southeast => Zone.mk 80 80 70
  end.

Module Infra.
Record t := mk { logistics : float; governmental : float }.
End Infra.

Module INFRASTRUCTURE_FACTORS.
Definition port := Infra.mk 25 5.
Definition highway := Infra.mk 15 0.
Definition rail := Infra.mk 20 0.
Definition pipeline := Infra.mk 30 10.
Definition powerGrid := Infra.mk 10 5.
End INFRASTRUCTURE_FACTORS.

Module Factors.
Record t := mk {
    governmental : float;
    logistics : float;
    policyIncentives : float;
    communityReadiness : float
  }.
End Factors.
Abbreviation ScoringFactors := Factors.t.

Inductive Density := low | medium | high.

Module Ctx.
Record t := mk {
    region : Region;
    nearPort : bool;
    nearHighway : bool;
    nearRail : bool;
    nearPipeline : bool;
    nearPowerGrid : bool;
    populationDensity : Density;
    industrialZoning : bool
  }.
End Ctx.
Abbreviation GeographicContext := Ctx.t.

(** The context without its region, as [getInfrastructureContext] returns it. *)
Module InfraCtx.
Record t := mk {
    nearPort : bool;
    nearHighway : bool;
    nearRail : bool;
    nearPipeline : bool;
    nearPowerGrid : bool;
    populationDensity : Density;
    industrialZoning : bool
  }.
End InfraCtx.

(** ** Regional classifier *)

Definition getGeographicRegion (lat lon : float) : Region :=
  if (25 <=? lat) && (lat <=? 32) && (-97 <=? lon) && (lon <=? -87) then gulf_coast
  else if (38 <=? lat) && (lat <=? 47) && (-90 <=? lon) && (lon <=? -80) then midwest
  else if (39 <=? lat) && (lat <=? 45) && (-80 <=? lon) && (lon <=? -69) then northeast
  else if (32 <=? lat) && (lat <=? 49) && (-125 <=? lon) && (lon <=? -114) then west_coast
  else southeast.

(** ** Scoring model *)

Definition calculateGovernmentalScore (context : GeographicContext) : float :=
  let score := Zone.governmental (REGULATORY_ZONES (Ctx.region context)) in
  let score := if Ctx.industrialZoning context then score + 10 else score - 15 in
  let score :=
    match Ctx.populationDensity context with
    | low => score + 5
    | medium => score - 5
    | high => score - 15
    end in
  let score :=
    if Ctx.nearPort context
    then score + Infra.governmental INFRASTRUCTURE_FACTORS.port else score in
  let score :=
    if Ctx.nearPipeline context
    then score + Infra.governmental INFRASTRUCTURE_FACTORS.pipeline else score in
  let score :=
    if Ctx.nearPowerGrid context
    then score + Infra.governmental INFRASTRUCTURE_FACTORS.powerGrid else score in
  Math_max 0 (Math_min 100 score).

Definition calculateLogisticsScore (context : GeographicContext) : float :=
  let score := Zone.logistics (REGULATORY_ZONES (Ctx.region context)) in
  let score :=
    if Ctx.nearPort context
    then score + Infra.logistics INFRASTRUCTURE_FACTORS.port else score in
  let score :=
    if Ctx.nearHighway context
    then score + Infra.logistics INFRASTRUCTURE_FACTORS.highway else score in
  let score :=
    if Ctx.nearRail context
    then score + Infra.logistics INFRASTRUCTURE_FACTORS.rail else score in
  let score :=
    if Ctx.nearPipeline context
    then score + Infra.logistics INFRASTRUCTURE_FACTORS.pipeline else score in
  let score :=
    if Ctx.nearPowerGrid context
    then score + Infra.logistics INFRASTRUCTURE_FACTORS.powerGrid else score in
  let score :=
    match Ctx.populationDensity context with
    | high => score - 10
    | _ => score
    end in
  Math_max 0 (Math_min 100 score).

Definition calculatePolicyIncentivesScore (context : GeographicContext) : float :=
  let score := Zone.policy (REGULATORY_ZONES (Ctx.region context)) in
  let score := if Ctx.industrialZoning context then score + 15 else score in
  let score :=
    match Ctx.populationDensity context with
    | low => score + 10
    | medium => score + 5
    | high => score - 5
    end in
  Math_max 0 (Math_min 100 score).

Definition calculateCommunityReadinessScore (context : GeographicContext) : float :=
  let score := 50 in
  let score := if Ctx.industrialZoning context then score + 20 else score in
  let score :=
    match Ctx.populationDensity context with
    | low => score + 15
    | medium => score + 5
    | high => score - 20
    end in
  let score :=
    if Ctx.nearPort context || Ctx.nearRail context || Ctx.nearPipeline context
    then score + 10 else score in
  Math_max 0 (Math_min 100 score).

(** The weighted overall score under a weight table [w]; the engine uses the
    module constant [SCORING_WEIGHTS]. *)
Definition weightedOverallScore (w : Weights.t) (scores : ScoringFactors) : float :=
  Math_round
    (Factors.governmental scores * Weights.governmental w +
     Factors.logistics scores * Weights.logistics w +
     Factors.policyIncentives scores * Weights.policyIncentives w +
     Factors.communityReadiness scores * Weights.communityReadiness w).

Definition calculateOverallScore (scores : ScoringFactors) : float :=
  weightedOverallScore SCORING_WEIGHTS scores.

(** ** Synergy analyzer *)

Definition analyzeFacilitySynergies
    (aceticFacilities : list AceticAcidFacility)
    (co2Facilities : list CO2EmitterFacility) : float :=
  let synergyScore := 0 in
  let totalAceticCapacity :=
    fold_left (fun sum f => sum + Acetic.capacity f) aceticFacilities 0 in
  let synergyScore :=
    if 400000 <? totalAceticCapacity then synergyScore + 10 else synergyScore in
  let totalCO2Emissions :=
    fold_left (fun sum f => sum + CO2.co2EmissionRate f) co2Facilities 0 in
  let synergyScore :=
    if 2000000 <? totalCO2Emissions then synergyScore + 10 else synergyScore in
  let facilityTypes : gset FacilityType :=
    list_to_set (map CO2.facilityType co2Facilities) in
  let synergyScore :=
    synergyScore + Math_min (of_nat (size facilityTypes) * 3) 15 in
  Math_min synergyScore 25.

(** ** [Array.prototype.sort]

    ECMA-262 requires the sort to be stable; with a consistent comparator
    every stable sort returns the same array.  The model is the stable
    insertion sort: an element moves past exactly those elements that the
    comparator places strictly before it ([comparefn x y > 0]). *)

Fixpoint sort_insert {A : Type} (comparefn : A -> A -> float) (x : A) (l : list A)
  : list A :=
  match l with
  | [] => [x]
  | y :: l' =>
      if 0 <? comparefn x y then y :: sort_insert comparefn x l' else x :: l
  end.

Fixpoint Array_sort {A : Type} (comparefn : A -> A -> float) (l : list A) : list A :=
  match l with
  | [] => []
  | x :: l' => sort_insert comparefn x (Array_sort comparefn l')
  end.

(** ** Draws of [Math.random]

    A computation that draws reads the tape at the current position and
    moves one place on. *)

Definition Rand (A : Type) : Type := nat -> A * nat.

Definition ret {A : Type} (a : A) : Rand A := fun n => (a, n).

Definition bind {A B : Type} (c : Rand A) (k : A -> Rand B) : Rand B :=
  fun n => let (a, n') := c n in k a n'.

Notation "x <- c ;; k" := (bind c (fun x => k))
  (at level 100, c at next level, right associativity).

(** Two tapes agree on the [m] positions from [n]. *)
Definition agree_on (t1 t2 : nat -> float) (n m : nat) : Prop :=
  forall i, (n <= i < n + m)%nat -> t1 i = t2 i.

(** ** A concrete [Math] for closed examples

    Truncated Maclaurin series on binary64.  They return the values that
    ECMA-262 prescribes exactly ([sin (+0) = +0], [cos (+0) = 1],
    [atan2 (+0, x) = +0] for [x > 0]) and approximate the functions
    elsewhere; they are used only to evaluate the engine on given inputs. *)

Module Series.

Definition sin (x : float) : float :=
  let x2 := x * x in
  x * (1 - x2 / 6 * (1 - x2 / 20 * (1 - x2 / 42 * (1 - x2 / 72 * (1 - x2 / 110))))).

Definition cos (x : float) : float :=
  let x2 := x * x in
  1 - x2 / 2 * (1 - x2 / 12 * (1 - x2 / 30 * (1 - x2 / 56 * (1 - x2 / 90 * (1 - x2 / 132))))).

Fixpoint atan_terms (n : nat) (k : float) (u2 : float) : float :=
  match n with
  | O => 1 / k
  | S n' => 1 / k - u2 * atan_terms n' (k + 2) u2
  end.

(** [atan t] for [0 <= t <= 1], through [atan t = 2 atan (t / (1 + sqrt (1 + t^2)))]. *)
Definition atan (t : float) : float :=
  let u := t / (1 + Math_sqrt (1 + t * t)) in
  2 * (u * atan_terms 16 1 (u * u)).

Definition atan2 (y x : float) : float :=
  let ay := Math_abs y in
  let ax := Math_abs x in
  let r :=
    if ay <=? ax then atan (ay / ax) else Math_PI / 2 - atan (ax / ay) in
  let r := if x <? 0 then Math_PI - r else r in
  if y <? 0 then - r else r.

(** A tape that returns the same draw at every position. *)
Definition constant_tape (r : float) : nat -> float := fun _ => r.

(** A tape that returns the draws of a list, then [r] for ever. *)
Definition list_tape (l : list float) (r : float) : nat -> float :=
  fun n => nth n l r.

End Series.

(** ** Inputs of the examples *)

Module Examples.

Local Open Scope string_scope.

(** The scenario of the specification: both facilities at the same point. *)
Definition scenario_acetic : AceticAcidFacility :=
  Acetic.mk "acetic-1" "Houston Acetic" 29.7604 (-95.3698) 500000 active "2024-01-01".

Definition scenario_co2 : CO2EmitterFacility :=
  CO2.mk "co2-1" "Houston Petrochemical" 29.7604 (-95.3698) 2500000 petrochemical
    active "2024-01-01".

(** Two facilities on the equator, 0.00005 degrees of longitude (5.56 m) apart. *)
Definition near_acetic : AceticAcidFacility :=
  Acetic.mk "acetic-2" "Equator Acetic" 0 0 500000 active "2024-01-01".

Definition near_co2 : CO2EmitterFacility :=
  CO2.mk "co2-2" "Equator Refinery" 0 0.00005 2500000 refinery active "2024-01-01".

(** Two facilities at the same point, latitude 30 and longitude -95. *)
Definition shared_acetic : AceticAcidFacility :=
  Acetic.mk "acetic-3" "Shared Acetic" 30 (-95) 450000 active "2024-01-01".

Definition shared_co2 : CO2EmitterFacility :=
  CO2.mk "co2-3" "Shared Steel" 30 (-95) 1800000 steel active "2024-01-01".


(** Two facilities at one point, with capacity 0 and emission rate 0. *)
Definition idle_acetic : AceticAcidFacility :=
  Acetic.mk "acetic-4" "Idle Acetic" 30 (-95) 0 inactive "2024-01-01".

Definition idle_co2 : CO2EmitterFacility :=
  CO2.mk "co2-4" "Idle Steel" 30 (-95) 0 steel inactive "2024-01-01".

(** The weight table of the specification's scenario: it sums to 0.99. *)
Definition weights_099 : Weights.t :=
  {| Weights.governmental := 0.3;
     Weights.logistics := 0.25;
     Weights.policyIncentives := 0.25;
     Weights.communityReadiness := 0.19 |}.

(** The site that the engine returns for the scenario when every draw is 0.5. *)
Definition scenario_site : OverlapSite :=
  {| Site.id := "site-1";
     Site.latitude := 29.7604;
     Site.longitude := -95.3698;
     Site.aceticAcidFacilities := ["acetic-1"];
     Site.co2EmitterFacilities := ["co2-1"];
     Site.distance := 0;
     Site.governmentalScore := 100;
     Site.logisticsScore := 100;
     Site.policyIncentivesScore := 100;
     Site.communityReadinessScore := 95;
     Site.overallScore := 99 |}.

End Examples.

(** ** The specification's words

    Integer readings of the synergy bonus and of the adjustment table, to
    compare the binary64 functions with. *)

(** *** The synergy bonus

    +10 if the summed capacity exceeds 400,000; +10 if the summed emission
    rate exceeds 2,000,000; min (3 * number of distinct CO2 facility types,
    15); the total capped at 25.  The sums are sums of doubles, taken in the
    order of the lists. *)

Definition summedCapacity (aceticList : list AceticAcidFacility) : float :=
  fold_left (fun sum f => sum + Acetic.capacity f) aceticList 0.

Definition summedEmissionRate (co2List : list CO2EmitterFacility) : float :=
  fold_left (fun sum f => sum + CO2.co2EmissionRate f) co2List 0.

Definition distinctFacilityTypeCount (co2List : list CO2EmitterFacility) : nat :=
  size (list_to_set (map CO2.facilityType co2List) : gset FacilityType).

Definition synergyBonus (aceticList : list AceticAcidFacility)
    (co2List : list CO2EmitterFacility) : Z :=
  Z.min
    ((if 400000 <? summedCapacity aceticList then 10 else 0) +
     (if 2000000 <? summedEmissionRate co2List then 10 else 0) +
     Z.min (3 * Z.of_nat (distinctFacilityTypeCount co2List)) 15)
    25.

(** *** The adjustment table of the specification, on integers *)

Definition zoneGovernmental (r : Region) : Z :=
  match r with
  | gulf_coast => 85 | midwest => 70 | northeast => 60 | west_coast => 65
  | southeast => 80
  end.

Definition zoneLogistics (r : Region) : Z :=
  match r with
  | gulf_coast => 90 | midwest => 85 | northeast => 70 | west_coast => 75
  | southeast => 80
  end.

Definition zonePolicy (r : Region) : Z :=
  match r with
  | gulf_coast => 75 | midwest => 60 | northeast => 80 | west_coast => 90
  | southeast => 70
  end.

Definition when (b : bool) (z : Z) : Z := if b then z else 0%Z.

Definition byDensity (d : Density) (ifLow ifMedium ifHigh : Z) : Z :=
  match d with low => ifLow | medium => ifMedium | high => ifHigh end.

Definition clampScore (z : Z) : Z := Z.max 0 (Z.min 100 z).

Definition governmentalAdjustments (context : GeographicContext) : Z :=
  (if Ctx.industrialZoning context then 10 else -15) +
  byDensity (Ctx.populationDensity context) 5 (-5) (-15) +
  when (Ctx.nearPort context) 5 +
  when (Ctx.nearPipeline context) 10 +
  when (Ctx.nearPowerGrid context) 5.

Definition logisticsAdjustments (context : GeographicContext) : Z :=
  when (Ctx.nearPort context) 25 +
  when (Ctx.nearHighway context) 15 +
  when (Ctx.nearRail context) 20 +
  when (Ctx.nearPipeline context) 30 +
  when (Ctx.nearPowerGrid context) 10 +
  byDensity (Ctx.populationDensity context) 0 0 (-10).

Definition policyIncentivesAdjustments (context : GeographicContext) : Z :=
  when (Ctx.industrialZoning context) 15 +
  byDensity (Ctx.populationDensity context) 10 5 (-5).

Definition communityReadinessAdjustments (context : GeographicContext) : Z :=
  when (Ctx.industrialZoning context) 20 +
  byDensity (Ctx.populationDensity context) 15 5 (-20) +
  when (Ctx.nearPort context || Ctx.nearRail context || Ctx.nearPipeline context) 10.

(** *** Decidable checks on scores *)

Definition in_range (x : float) : bool := (0 <=? x) && (x <=? 100).

(** [o] is one of the doubles 0, 1, ..., 100. *)
Definition is_score (o : float) : bool :=
  existsb (fun k => Leibniz.eqb o (of_nat k)) (seq 0 101).

Definition scores_ok (s : ScoringFactors) : bool :=
  in_range (Factors.governmental s) && in_range (Factors.logistics s) &&
  in_range (Factors.policyIncentives s) && in_range (Factors.communityReadiness s) &&
  is_score (weightedOverallScore SCORING_WEIGHTS s).

(** The comparisons of the doubles [i] and [j] agree with those of the
    naturals. *)
Definition score_table (i j : nat) : bool :=
  Bool.eqb (0 <? of_nat j - of_nat i) (i <? j)%nat &&
  Bool.eqb (of_nat i <=? of_nat j) (i <=? j)%nat &&
  Bool.eqb (Leibniz.eqb (of_nat i) (of_nat j)) (i =? j)%nat.

(** ** The dashboard (src/app/page.tsx and the components)

    The pure parts of the components that display the sites of the engine:
    values computed from the props, and the state updates of the handlers. *)

(** [a.slice(-n)]: the last [n] elements of [a]. *)
Definition slice_last {A : Type} (n : nat) (l : list A) : list A :=
  skipn (length l - n) l.

Module Page.

(** The update of [selectedSites] in [handleSiteSelect]: a site whose id is
    selected is removed, another one is appended and the last three are
    kept. *)
Definition handleSiteSelect (site : OverlapSite) (prev : list OverlapSite)
  : list OverlapSite :=
  let exists_ := List.find (fun s => String.eqb (Site.id s) (Site.id site)) prev in
  match exists_ with
  | Some _ => List.filter (fun s => negb (String.eqb (Site.id s) (Site.id site))) prev
  | None => slice_last 3 (prev ++ [site])
  end.

(** The selection after a sequence of clicks, from the initial state. *)
Definition selectedAfter (clicks : list OverlapSite) : list OverlapSite :=
  fold_left (fun prev site => handleSiteSelect site prev) clicks [].

End Page.

Module AnalyticsPanel.

Definition totalCapacity (aceticFacilities : list AceticAcidFacility) : float :=
  fold_left (fun sum f => sum + Acetic.capacity f) aceticFacilities 0.

Definition totalEmissions (co2Facilities : list CO2EmitterFacility) : float :=
  fold_left (fun sum f => sum + CO2.co2EmissionRate f) co2Facilities 0.

Definition avgScore (overlapSites : list OverlapSite) : float :=
  if (0 <? length overlapSites)%nat
  then fold_left (fun sum s => sum + Site.overallScore s) overlapSites 0 /
       of_nat (length overlapSites)
  else 0.

Definition excellentSites (overlapSites : list OverlapSite) : nat :=
  length (List.filter (fun s => 80 <=? Site.overallScore s) overlapSites).

Definition goodSites (overlapSites : list OverlapSite) : nat :=
  length (List.filter
            (fun s => (60 <=? Site.overallScore s) && (Site.overallScore s <? 80))
            overlapSites).

Definition fairSites (overlapSites : list OverlapSite) : nat :=
  length (List.filter
            (fun s => (40 <=? Site.overallScore s) && (Site.overallScore s <? 60))
            overlapSites).

(** [overlapSites.length > 0 ? overlapSites[0] : null] *)
Definition topSite (overlapSites : list OverlapSite) : option OverlapSite :=
  if (0 <? length overlapSites)%nat then List.nth_error overlapSites 0 else None.

End AnalyticsPanel.

Module SiteComparison.

(** [bestSite]: the component returns before it when no site is selected;
    [reduce] without an initial value starts from the first site. *)
Definition bestSite (sites : list OverlapSite) : option OverlapSite :=
  match sites with
  | [] => None
  | first :: rest =>
      Some (fold_left
              (fun best current =>
                 if Site.overallScore best <? Site.overallScore current
                 then current else best)
              rest first)
  end.

End SiteComparison.

Module SiteRankingTable.

Inductive SortField :=
  | overallScore | governmentalScore | logisticsScore | policyIncentivesScore
  | communityReadinessScore | distance.

Inductive SortDirection := asc | desc.

(** [site[sortField]] *)
Definition field (sortField : SortField) (site : OverlapSite) : float :=
  match sortField with
  | overallScore => Site.overallScore site
  | governmentalScore => Site.governmentalScore site
  | logisticsScore => Site.logisticsScore site
  | policyIncentivesScore => Site.policyIncentivesScore site
  | communityReadinessScore => Site.communityReadinessScore site
  | distance => Site.distance site
  end.

(** The comparator of the [sort] of [filteredAndSortedSites]. *)
Definition compareSites (sortField : SortField) (sortDirection : SortDirection)
    (a b : OverlapSite) : float :=
  let aValue := field sortField a in
  let bValue := field sortField b in
  match sortDirection with
  | asc => aValue - bValue
  | desc => bValue - aValue
  end.

(** The [sort] of [filteredAndSortedSites], on the sites that its filter kept. *)
Definition sortSites (sortField : SortField) (sortDirection : SortDirection)
    (sites : list OverlapSite) : list OverlapSite :=
  Array_sort (compareSites sortField sortDirection) sites.

End SiteRankingTable.

(** ** Data processing (src/lib/data-processing) *)

(** A number in a condition: 0, -0 and NaN are false. *)
Definition truthyNumber (x : float) : bool := negb (x =? 0) && negb (PrimFloat.is_nan x).

Definition statusName (s : OperationalStatus) : string :=
  match s with
  | active => "active" | inactive => "inactive" | planned => "planned"
  end.

Definition typeName (t : FacilityType) : string :=
  match t with
  | petrochemical => "petrochemical" | refinery => "refinery" | steel => "steel"
  | cement => "cement" | power => "power"
  end.

#[global] Instance OperationalStatus_eq_dec : EqDecision OperationalStatus.
Proof. solve_decision. Defined.

Definition OperationalStatus_code (s : OperationalStatus) : nat :=
  match s with active => 0 | inactive => 1 | planned => 2 end.

Definition OperationalStatus_of_code (n : nat) : OperationalStatus :=
  match n with 0 => active | 1 => inactive | _ => planned end.

#[global] Instance OperationalStatus_countable : Countable OperationalStatus.
Proof.
  apply (inj_countable' OperationalStatus_code OperationalStatus_of_code).
  intros []; reflexivity.
Defined.

Module DataFilter.

(** [maxCapacity?: number]: the argument may be left out. *)
Definition filterAceticByCapacity (facilities : list AceticAcidFacility)
    (minCapacity : float) (maxCapacity : option float) : list AceticAcidFacility :=
  List.filter
    (fun f =>
       match maxCapacity with
       | Some maxCapacity =>
           if truthyNumber maxCapacity
           then (minCapacity <=? Acetic.capacity f) && (Acetic.capacity f <=? maxCapacity)
           else minCapacity <=? Acetic.capacity f
       | None => minCapacity <=? Acetic.capacity f
       end)
    facilities.

Definition filterCO2ByEmissions (facilities : list CO2EmitterFacility)
    (minEmissions : float) (maxEmissions : option float) : list CO2EmitterFacility :=
  List.filter
    (fun f =>
       match maxEmissions with
       | Some maxEmissions =>
           if truthyNumber maxEmissions
           then (minEmissions <=? CO2.co2EmissionRate f) &&
                (CO2.co2EmissionRate f <=? maxEmissions)
           else minEmissions <=? CO2.co2EmissionRate f
       | None => minEmissions <=? CO2.co2EmissionRate f
       end)
    facilities.

Definition filterCO2ByType (facilities : list CO2EmitterFacility) (types : list string)
  : list CO2EmitterFacility :=
  List.filter (fun f => existsb (String.eqb (typeName (CO2.facilityType f))) types)
    facilities.

Module Criteria.
Record t := mk {
    minOverall : option float;
    minGovernmental : option float;
    minLogistics : option float;
    minPolicyIncentives : option float;
    minCommunityReadiness : option float
  }.
End Criteria.

(** [criterion && score < criterion] *)
Definition below (criterion : option float) (score : float) : bool :=
  match criterion with
  | Some criterion => truthyNumber criterion && (score <? criterion)
  | None => false
  end.

Definition filterSitesByScore (sites : list OverlapSite) (criteria : Criteria.t)
  : list OverlapSite :=
  List.filter
    (fun site =>
       if below (Criteria.minOverall criteria) (Site.overallScore site) then false
       else if below (Criteria.minGovernmental criteria) (Site.governmentalScore site)
       then false
       else if below (Criteria.minLogistics criteria) (Site.logisticsScore site)
       then false
       else if below (Criteria.minPolicyIncentives criteria)
                 (Site.policyIncentivesScore site)
       then false
       else if below (Criteria.minCommunityReadiness criteria)
                 (Site.communityReadinessScore site)
       then false
       else true)
    sites.

End DataFilter.

Module DataAggregator.

(** [Math.max(...values)] and [Math.min(...values)] *)
Definition maxOf (values : list float) : float := fold_left Math_max values neg_infinity.

Definition minOf (values : list float) : float := fold_left Math_min values infinity.

(** [acc[key] || 0]: a count that is missing, or 0, reads as 0. *)
Definition orZero (count : option nat) : nat :=
  match count with
  | Some (S n) => S n
  | _ => 0%nat
  end.

(** The counting [reduce]: [acc[key] = (acc[key] || 0) + 1] for each item,
    from the empty object. *)
Definition tally {A K : Type} `{Countable K} (key : A -> K) (items : list A)
  : gmap K nat :=
  fold_left (fun acc f => <[key f := (orZero (acc !! key f) + 1)%nat]> acc) items ∅.

Module FacilityStats.
Record t := mk {
    totalFacilities : nat;
    totalCapacity : float;
    avgCapacity : float;
    maxCapacity : float;
    minCapacity : float;
    statusDistribution : gmap OperationalStatus nat
  }.
End FacilityStats.

Definition calculateFacilityStats (facilities : list AceticAcidFacility)
  : option FacilityStats.t :=
  if (length facilities =? 0)%nat then None
  else
    let capacities := map Acetic.capacity facilities in
    let totalCapacity := fold_left (fun sum cap => sum + cap) capacities 0 in
    let avgCapacity := totalCapacity / of_nat (length facilities) in
    let maxCapacity := maxOf capacities in
    let minCapacity := minOf capacities in
    let statusCounts := tally Acetic.operationalStatus facilities in
    Some {| FacilityStats.totalFacilities := length facilities;
            FacilityStats.totalCapacity := totalCapacity;
            FacilityStats.avgCapacity := Math_round avgCapacity;
            FacilityStats.maxCapacity := maxCapacity;
            FacilityStats.minCapacity := minCapacity;
            FacilityStats.statusDistribution := statusCounts |}.

Module EmissionStats.
Record t := mk {
    totalFacilities : nat;
    totalEmissions : float;
    avgEmissions : float;
    maxEmissions : float;
    minEmissions : float;
    typeDistribution : gmap FacilityType nat;
    statusDistribution : gmap OperationalStatus nat
  }.
End EmissionStats.

Definition calculateEmissionStats (facilities : list CO2EmitterFacility)
  : option EmissionStats.t :=
  if (length facilities =? 0)%nat then None
  else
    let emissions := map CO2.co2EmissionRate facilities in
    let totalEmissions := fold_left (fun sum em => sum + em) emissions 0 in
    let avgEmissions := totalEmissions / of_nat (length facilities) in
    let maxEmissions := maxOf emissions in
    let minEmissions := minOf emissions in
    let typeCounts := tally CO2.facilityType facilities in
    let statusCounts := tally CO2.operationalStatus facilities in
    Some {| EmissionStats.totalFacilities := length facilities;
            EmissionStats.totalEmissions := totalEmissions;
            EmissionStats.avgEmissions := Math_round avgEmissions;
            EmissionStats.maxEmissions := maxEmissions;
            EmissionStats.minEmissions := minEmissions;
            EmissionStats.typeDistribution := typeCounts;
            EmissionStats.statusDistribution := statusCounts |}.

Module Stats.
Record t := mk { avg : float; max : float; min : float }.
End Stats.

Module ScoreStats.
Record t := mk {
    governmental : Stats.t;
    logistics : Stats.t;
    policyIncentives : Stats.t;
    communityReadiness : Stats.t;
    overall : Stats.t
  }.
End ScoreStats.

Module SiteStats.
Record t := mk { totalSites : nat; scoreStats : ScoreStats.t; avgDistance : float }.
End SiteStats.

Definition calculateStats (values : list float) : Stats.t :=
  {| Stats.avg :=
       Math_round (fold_left (fun sum v => sum + v) values 0 / of_nat (length values));
     Stats.max := maxOf values;
     Stats.min := minOf values |}.

Definition calculateSiteStats (sites : list OverlapSite) : option SiteStats.t :=
  if (length sites =? 0)%nat then None
  else
    Some {| SiteStats.totalSites := length sites;
            SiteStats.scoreStats :=
              {| ScoreStats.governmental :=
                   calculateStats (map Site.governmentalScore sites);
                 ScoreStats.logistics := calculateStats (map Site.logisticsScore sites);
                 ScoreStats.policyIncentives :=
                   calculateStats (map Site.policyIncentivesScore sites);
                 ScoreStats.communityReadiness :=
                   calculateStats (map Site.communityReadinessScore sites);
                 ScoreStats.overall := calculateStats (map Site.overallScore sites) |};
            SiteStats.avgDistance :=
              Math_round
                (fold_left (fun sum s => sum + Site.distance s) sites 0 /
                 of_nat (length sites) * 100) / 100 |}.

End DataAggregator.

(** *** Values of type [any]

    The validators take what the upstream services sent: a value of JSON.
    An object lists each of its properties once. *)

Inductive JsValue :=
  | JsUndefined
  | JsNull
  | JsBoolean (b : bool)
  | JsNumber (x : float)
  | JsString (s : string)
  | JsArray (items : list JsValue)
  | JsObject (properties : list (string * JsValue)).

(** A value in a condition. *)
Definition truthy (v : JsValue) : bool :=
  match v with
  | JsUndefined | JsNull => false
  | JsBoolean b => b
  | JsNumber x => truthyNumber x
  | JsString s => negb (String.eqb s EmptyString)
  | JsArray _ | JsObject _ => true
  end.

Fixpoint lookupProperty (key : string) (properties : list (string * JsValue)) : JsValue :=
  match properties with
  | [] => JsUndefined
  | (k, v) :: rest => if String.eqb k key then v else lookupProperty key rest
  end.

(** [v.key] for the keys that this code reads (names of data properties,
    none of them a property of a prototype): a TypeError ([None]) on
    [undefined] and [null], [undefined] on the other values that are not
    objects and on an object without the property. *)
Definition getProperty (v : JsValue) (key : string) : option JsValue :=
  match v with
  | JsUndefined | JsNull => None
  | JsObject properties => Some (lookupProperty key properties)
  | JsBoolean _ | JsNumber _ | JsString _ | JsArray _ => Some JsUndefined
  end.

(** [names.includes(v)] for an array of strings. *)
Definition includes (names : list string) (v : JsValue) : bool :=
  match v with
  | JsString s => existsb (String.eqb s) names
  | _ => false
  end.

Module DataValidator.

Definition validateCoordinates (lat lon : float) : bool :=
  (-90 <=? lat) && (lat <=? 90) && (-180 <=? lon) && (lon <=? 180).

(** The conjunction of the source reads the properties of one and the same
    value, so all reads raise, or none does; [typeof x === "string"] is the
    match on [JsString], [typeof x === "number"] the match on [JsNumber].
    [None] is the TypeError of a read on [undefined] or [null]. *)
Definition validateAceticFacility (facility : JsValue) : option bool :=
  id ← getProperty facility "id";
  name ← getProperty facility "name";
  latitude ← getProperty facility "latitude";
  longitude ← getProperty facility "longitude";
  capacity ← getProperty facility "capacity";
  operationalStatus ← getProperty facility "operationalStatus";
  Some
    match id, name, latitude, longitude, capacity with
    | JsString _, JsString _, JsNumber latitude, JsNumber longitude, JsNumber capacity =>
        includes ["active"; "inactive"; "planned"]%string operationalStatus &&
        validateCoordinates latitude longitude &&
        (0 <? capacity)
    | _, _, _, _, _ => false
    end.

Definition validateCO2Facility (facility : JsValue) : option bool :=
  id ← getProperty facility "id";
  name ← getProperty facility "name";
  latitude ← getProperty facility "latitude";
  longitude ← getProperty facility "longitude";
  co2EmissionRate ← getProperty facility "co2EmissionRate";
  facilityType ← getProperty facility "facilityType";
  operationalStatus ← getProperty facility "operationalStatus";
  Some
    match id, name, latitude, longitude, co2EmissionRate with
    | JsString _, JsString _, JsNumber latitude, JsNumber longitude,
      JsNumber co2EmissionRate =>
        includes ["petrochemical"; "refinery"; "steel"; "cement"; "power"]%string
          facilityType &&
        includes ["active"; "inactive"; "planned"]%string operationalStatus &&
        validateCoordinates latitude longitude &&
        (0 <? co2EmissionRate)
    | _, _, _, _, _ => false
    end.

End DataValidator.

(** *** The export *)

Module DataExporter.

Module Geometry.
Record t := mk { type : string; coordinates : list float }.
End Geometry.

Module Properties.
Record t := mk {
    id : string;
    distance : float;
    governmentalScore : float;
    logisticsScore : float;
    policyIncentivesScore : float;
    communityReadinessScore : float;
    overallScore : float;
    aceticAcidFacilities : list string;
    co2EmitterFacilities : list string
  }.
End Properties.

Module Feature.
Record t := mk { type : string; geometry : Geometry.t; properties : Properties.t }.
End Feature.

Module FeatureCollection.
Record t := mk { type : string; features : list Feature.t }.
End FeatureCollection.

Definition toGeoJSON (sites : list OverlapSite) : FeatureCollection.t :=
  {| FeatureCollection.type := "FeatureCollection";
     FeatureCollection.features :=
       map (fun site =>
              {| Feature.type := "Feature";
                 Feature.geometry :=
                   {| Geometry.type := "Point";
                      Geometry.coordinates := [Site.longitude site; Site.latitude site] |};
                 Feature.properties :=
                   {| Properties.id := Site.id site;
                      Properties.distance := Site.distance site;
                      Properties.governmentalScore := Site.governmentalScore site;
                      Properties.logisticsScore := Site.logisticsScore site;
                      Properties.policyIncentivesScore := Site.policyIncentivesScore site;
                      Properties.communityReadinessScore :=
                        Site.communityReadinessScore site;
                      Properties.overallScore := Site.overallScore site;
                      Properties.aceticAcidFacilities := Site.aceticAcidFacilities site;
                      Properties.co2EmitterFacilities := Site.co2EmitterFacilities site |}
              |})
         sites |}.

End DataExporter.

(** ** The admin panel (src/app/admin/page.tsx) *)

Module AdminPanel.

Module ScoringWeights.
Record t := mk {
    governmental : float;
    logistics : float;
    policyIncentives : float;
    communityReadiness : float
  }.
End ScoringWeights.

(** The weights of the initial configuration: those of the engine, in
    percent. *)
Definition initialScoringWeights : ScoringWeights.t :=
  {| ScoringWeights.governmental := Weights.governmental SCORING_WEIGHTS * 100;
     ScoringWeights.logistics := Weights.logistics SCORING_WEIGHTS * 100;
     ScoringWeights.policyIncentives := Weights.policyIncentives SCORING_WEIGHTS * 100;
     ScoringWeights.communityReadiness :=
       Weights.communityReadiness SCORING_WEIGHTS * 100 |}.

Inductive SaveStatus := idle | saving | saved | error.

(** The save status that [saveConfiguration] sets after its validation
    (the status returns to [idle] on a timer). *)
Definition saveConfiguration (scoringWeights : ScoringWeights.t) : SaveStatus :=
  let totalWeight :=
    fold_left (fun sum weight => sum + weight)
      [ScoringWeights.governmental scoringWeights;
       ScoringWeights.logistics scoringWeights;
       ScoringWeights.policyIncentives scoringWeights;
       ScoringWeights.communityReadiness scoringWeights] 0 in
  if 0.1 <? Math_abs (totalWeight - 100) then error else saved.

End AdminPanel.

(** ** The facility endpoints (src/app/api/facilities) *)

Module AceticAcidRoute.

(** The mock facilities; [clock i] is the time that the [i]-th
    [new Date().toISOString()] of the request returns. *)
Definition mockFacilities (clock : nat -> string) : list AceticAcidFacility :=
  [ Acetic.mk "aa-001" "Gulf Coast Acetic Acid Plant" 29.7604 (-95.3698) 500000
      active (clock 0%nat);
    Acetic.mk "aa-002" "Midwest Chemical Complex" 41.8781 (-87.6298) 350000
      active (clock 1%nat);
    Acetic.mk "aa-003" "East Coast Production Facility" 40.7128 (-74.006) 275000
      planned (clock 2%nat) ].

Module Response.
Record t := mk {
    success : bool;
    data : list AceticAcidFacility;
    count : nat;
    timestamp : string
  }.
End Response.

(** [GET]: [region] and [status] are the results of [searchParams.get],
    [None] for a parameter that is not in the query. *)
Definition GET (region status : option string) (clock : nat -> string) : Response.t :=
  let filteredFacilities := mockFacilities clock in
  let filteredFacilities :=
    match region with
    | Some region =>
        if negb (String.eqb region EmptyString) then filteredFacilities
        else filteredFacilities
    | None => filteredFacilities
    end in
  let filteredFacilities :=
    match status with
    | Some status =>
        if negb (String.eqb status EmptyString)
        then List.filter
               (fun f => String.eqb (statusName (Acetic.operationalStatus f)) status)
               filteredFacilities
        else filteredFacilities
    | None => filteredFacilities
    end in
  {| Response.success := true;
     Response.data := filteredFacilities;
     Response.count := length filteredFacilities;
     Response.timestamp := clock 3%nat |}.

End AceticAcidRoute.

Module CO2EmittersRoute.

Definition mockFacilities (clock : nat -> string) : list CO2EmitterFacility :=
  [ CO2.mk "co2-001" "Houston Petrochemical Complex" 29.7604 (-95.3698) 2500000
      petrochemical active (clock 0%nat);
    CO2.mk "co2-002" "Chicago Steel Works" 41.8781 (-87.6298) 1800000
      steel active (clock 1%nat);
    CO2.mk "co2-003" "Newark Refinery" 40.7128 (-74.006) 3200000
      refinery active (clock 2%nat);
    CO2.mk "co2-004" "Louisiana Chemical Plant" 30.2241 (-92.0198) 1500000
      petrochemical active (clock 3%nat) ].

End CO2EmittersRoute.

(** ** The overlap endpoint (src/app/api/site-analysis/overlap/route.ts) *)

(** The typed reading of a value of JSON.  On a value that passed its
    validator, every field that the validator tests has the type of the
    interface, and the reading returns it. *)
Definition property (v : JsValue) (key : string) : JsValue :=
  match getProperty v key with
  | Some x => x
  | None => JsUndefined
  end.

Definition stringOf (v : JsValue) : string :=
  match v with JsString s => s | _ => EmptyString end.

Definition numberOf (v : JsValue) : float :=
  match v with JsNumber x => x | _ => nan end.

Definition statusOf (v : JsValue) : OperationalStatus :=
  if String.eqb (stringOf v) "inactive" then inactive
  else if String.eqb (stringOf v) "planned" then planned
  else active.

Definition facilityTypeOf (v : JsValue) : FacilityType :=
  if String.eqb (stringOf v) "refinery" then refinery
  else if String.eqb (stringOf v) "steel" then steel
  else if String.eqb (stringOf v) "cement" then cement
  else if String.eqb (stringOf v) "power" then power
  else petrochemical.

Definition asAceticFacility (v : JsValue) : AceticAcidFacility :=
  {| Acetic.id := stringOf (property v "id");
     Acetic.name := stringOf (property v "name");
     Acetic.latitude := numberOf (property v "latitude");
     Acetic.longitude := numberOf (property v "longitude");
     Acetic.capacity := numberOf (property v "capacity");
     Acetic.operationalStatus := statusOf (property v "operationalStatus");
     Acetic.lastUpdated := stringOf (property v "lastUpdated") |}.

Definition asCO2Facility (v : JsValue) : CO2EmitterFacility :=
  {| CO2.id := stringOf (property v "id");
     CO2.name := stringOf (property v "name");
     CO2.latitude := numberOf (property v "latitude");
     CO2.longitude := numberOf (property v "longitude");
     CO2.co2EmissionRate := numberOf (property v "co2EmissionRate");
     CO2.facilityType := facilityTypeOf (property v "facilityType");
     CO2.operationalStatus := statusOf (property v "operationalStatus");
     CO2.lastUpdated := stringOf (property v "lastUpdated") |}.

(** [items.filter(callback)] with a callback that may raise: the elements
    are tested in order, and the first TypeError ends the call. *)
Fixpoint Array_filter {A : Type} (callback : A -> option bool) (items : list A)
  : option (list A) :=
  match items with
  | [] => Some []
  | x :: rest =>
      keep ← callback x;
      kept ← Array_filter callback rest;
      Some (if keep : bool then x :: kept else kept)
  end.

(** [(body.data || []).filter(validate)]: reading [data] of [undefined] or
    [null] raises, and so does the call of [filter] on a value that is not
    an array. *)
Definition validFacilities (validate : JsValue -> option bool) (body : JsValue)
  : option (list JsValue) :=
  data ← getProperty body "data";
  match (if truthy data then data else JsArray []) with
  | JsArray items => Array_filter validate items
  | _ => None
  end.

Module OverlapRoute.

Module Statistics.
Record t := mk {
    aceticFacilities : option DataAggregator.FacilityStats.t;
    co2Facilities : option DataAggregator.EmissionStats.t;
    sites : option DataAggregator.SiteStats.t
  }.
End Statistics.

Module Parameters.
Record t := mk {
    maxDistance : float;
    minScore : float;
    aceticFacilitiesCount : nat;
    co2FacilitiesCount : nat
  }.
End Parameters.

(** The body of the answer, without its timestamp. *)
Module Body.
Record t := mk {
    success : bool;
    data : list OverlapSite;
    count : nat;
    statistics : Statistics.t;
    parameters : Parameters.t
  }.
End Body.

(** The answer: the body, or the error message with its HTTP status. *)
Inductive Response :=
  | json (body : Body.t)
  | failure (error : string) (status : nat).

End OverlapRoute.

(** The bodies that [GET] processes without a TypeError: [data] is read
    from a value that is not [undefined] or [null], it is missing, false in
    a condition, or an array, and no element of the array is [undefined] or
    [null]. *)
Definition readable (body : JsValue) : bool :=
  match getProperty body "data" with
  | None => false
  | Some data =>
      if truthy data then
        match data with
        | JsArray items =>
            forallb (fun v => match v with JsUndefined | JsNull => false | _ => true end)
              items
        | _ => false
        end
      else true
  end.

(** The entries of a readable body that pass a validator. *)
Definition validated (validate : JsValue -> option bool) (body : JsValue)
  : list JsValue :=
  match property body "data" with
  | JsArray items =>
      List.filter (fun v => match validate v with Some true => true | _ => false end)
        items
  | _ => []
  end.

(** *** Bodies of the facility endpoints, for the examples *)

Module Bodies.

Local Open Scope string_scope.

(** The JSON of a facility of the mock data. *)
Definition aceticJson (f : AceticAcidFacility) : JsValue :=
  JsObject
    [("id", JsString (Acetic.id f));
     ("name", JsString (Acetic.name f));
     ("latitude", JsNumber (Acetic.latitude f));
     ("longitude", JsNumber (Acetic.longitude f));
     ("capacity", JsNumber (Acetic.capacity f));
     ("operationalStatus", JsString (statusName (Acetic.operationalStatus f)));
     ("lastUpdated", JsString (Acetic.lastUpdated f))].

Definition co2Json (f : CO2EmitterFacility) : JsValue :=
  JsObject
    [("id", JsString (CO2.id f));
     ("name", JsString (CO2.name f));
     ("latitude", JsNumber (CO2.latitude f));
     ("longitude", JsNumber (CO2.longitude f));
     ("co2EmissionRate", JsNumber (CO2.co2EmissionRate f));
     ("facilityType", JsString (typeName (CO2.facilityType f)));
     ("operationalStatus", JsString (statusName (CO2.operationalStatus f)));
     ("lastUpdated", JsString (CO2.lastUpdated f))].

(** A clock that stands still. *)
Definition noon : nat -> string := fun _ => "2024-01-01T12:00:00.000Z".

(** The answers of the two facility endpoints to a request without
    parameters. *)
Definition aceticBody : JsValue :=
  JsObject
    [("success", JsBoolean true);
     ("data", JsArray (map aceticJson (AceticAcidRoute.mockFacilities noon)));
     ("count", JsNumber 3);
     ("timestamp", JsString (noon 0%nat))].

Definition co2Body : JsValue :=
  JsObject
    [("success", JsBoolean true);
     ("data", JsArray (map co2Json (CO2EmittersRoute.mockFacilities noon)));
     ("count", JsNumber 4);
     ("timestamp", JsString (noon 0%nat))].

(** The site of the two facilities at Houston when every draw is 0.5. *)
Definition houston_site : OverlapSite :=
  {| Site.id := "site-1";
     Site.latitude := 29.7604;
     Site.longitude := -95.3698;
     Site.aceticAcidFacilities := ["aa-001"];
     Site.co2EmitterFacilities := ["co2-001"];
     Site.distance := 0;
     Site.governmentalScore := 100;
     Site.logisticsScore := 100;
     Site.policyIncentivesScore := 100;
     Site.communityReadinessScore := 95;
     Site.overallScore := 99 |}.

End Bodies.

(** ** The engine

    The state of one generation run: the sites pushed so far, the next site
    number, and the number of draws made. *)
Module Gen.
Record t := mk { sites : list OverlapSite; siteId : nat; drawn : nat }.
End Gen.

Definition site_name (n : nat) : string :=
  ("site-" ++ NilEmpty.string_of_uint (Nat.to_uint n))%string.

Section Engine.

Variables Math_sin Math_cos : float -> float.
Variable Math_atan2 : float -> float -> float.
Variable tape : nat -> float.

Definition Math_random : Rand float := fun n => (tape n, S n).

(** *** Geodesy *)

Definition calculateDistance (lat1 lon1 lat2 lon2 : float) : float :=
  let R := 6371 in
  let dLat := ((lat2 - lat1) * Math_PI) / 180 in
  let dLon := ((lon2 - lon1) * Math_PI) / 180 in
  let a :=
    Math_sin (dLat / 2) * Math_sin (dLat / 2) +
    Math_cos ((lat1 * Math_PI) / 180) * Math_cos ((lat2 * Math_PI) / 180) *
      Math_sin (dLon / 2) * Math_sin (dLon / 2) in
  let c := 2 * Math_atan2 (Math_sqrt a) (Math_sqrt (1 - a)) in
  R * c.

(** *** Mock infrastructure context: the draws are made in evaluation order,
    and the two guarded draws ([nearPort], the density tier) are made only
    when their guard lets them. *)

Definition getInfrastructureContext (lat lon : float) : Rand InfraCtx.t :=
  let isCoastal := (80 <? Math_abs lon) && ((lat <? 35) || (45 <? lat)) in
  r <- Math_random ;;
  let isUrban := 0.6 <? r in
  nearPort <- (if isCoastal then r <- Math_random ;; ret (0.4 <? r) else ret false) ;;
  r <- Math_random ;;
  let nearHighway := 0.3 <? r in
  r <- Math_random ;;
  let nearRail := 0.5 <? r in
  r <- Math_random ;;
  let nearPipeline := 0.4 <? r in
  r <- Math_random ;;
  let nearPowerGrid := 0.2 <? r in
  populationDensity <-
    (if isUrban then ret high
     else r <- Math_random ;; ret (if 0.5 <? r then medium else low)) ;;
  r <- Math_random ;;
  let industrialZoning := 0.4 <? r in
  ret (InfraCtx.mk nearPort nearHighway nearRail nearPipeline nearPowerGrid
         populationDensity industrialZoning).

Definition withRegion (region : Region) (i : InfraCtx.t) : GeographicContext :=
  {| Ctx.region := region;
     Ctx.nearPort := InfraCtx.nearPort i;
     Ctx.nearHighway := InfraCtx.nearHighway i;
     Ctx.nearRail := InfraCtx.nearRail i;
     Ctx.nearPipeline := InfraCtx.nearPipeline i;
     Ctx.nearPowerGrid := InfraCtx.nearPowerGrid i;
     Ctx.populationDensity := InfraCtx.populationDensity i;
     Ctx.industrialZoning := InfraCtx.industrialZoning i |}.

Definition calculateSiteScores (lat lon : float) : Rand ScoringFactors :=
  let region := getGeographicRegion lat lon in
  infraContext <- getInfrastructureContext lat lon ;;
  let context := withRegion region infraContext in
  ret {| Factors.governmental := calculateGovernmentalScore context;
         Factors.logistics := calculateLogisticsScore context;
         Factors.policyIncentives := calculatePolicyIncentivesScore context;
         Factors.communityReadiness := calculateCommunityReadinessScore context |}.

(** *** Site generator *)

Section Run.

Variable weights : Weights.t.
Variables maxDistance minScore : float.

(** The body of the inner [forEach]. *)
Definition pairStep (aceticFacility : AceticAcidFacility)
    (co2Facility : CO2EmitterFacility) (st : Gen.t) : Gen.t :=
  let distance :=
    calculateDistance
      (Acetic.latitude aceticFacility) (Acetic.longitude aceticFacility)
      (CO2.latitude co2Facility) (CO2.longitude co2Facility) in
  if distance <=? maxDistance then
    let aceticWeight := Acetic.capacity aceticFacility / 1000000 in
    let co2Weight := CO2.co2EmissionRate co2Facility / 10000000 in
    let totalWeight := aceticWeight + co2Weight in
    let optimalLat :=
      (Acetic.latitude aceticFacility * aceticWeight +
       CO2.latitude co2Facility * co2Weight) / totalWeight in
    let optimalLon :=
      (Acetic.longitude aceticFacility * aceticWeight +
       CO2.longitude co2Facility * co2Weight) / totalWeight in
    let (scores, drawn') := calculateSiteScores optimalLat optimalLon (Gen.drawn st) in
    let synergyBonus := analyzeFacilitySynergies [aceticFacility] [co2Facility] in
    let adjustedScores :=
      {| Factors.governmental :=
           Math_min 100 (Factors.governmental scores + synergyBonus * 0.3);
         Factors.logistics :=
           Math_min 100 (Factors.logistics scores + synergyBonus * 0.4);
         Factors.policyIncentives := Factors.policyIncentives scores;
         Factors.communityReadiness := Factors.communityReadiness scores |} in
    let overallScore := weightedOverallScore weights adjustedScores in
    if minScore <=? overallScore then
      {| Gen.sites :=
           Gen.sites st ++
           [ {| Site.id := site_name (Gen.siteId st);
                Site.latitude := optimalLat;
                Site.longitude := optimalLon;
                Site.aceticAcidFacilities := [Acetic.id aceticFacility];
                Site.co2EmitterFacilities := [CO2.id co2Facility];
                Site.distance := Math_round (distance * 100) / 100;
                Site.governmentalScore := Factors.governmental adjustedScores;
                Site.logisticsScore := Factors.logistics adjustedScores;
                Site.policyIncentivesScore := Factors.policyIncentives adjustedScores;
                Site.communityReadinessScore := Factors.communityReadiness adjustedScores;
                Site.overallScore := overallScore |} ];
         Gen.siteId := S (Gen.siteId st);
         Gen.drawn := drawn' |}
    else {| Gen.sites := Gen.sites st; Gen.siteId := Gen.siteId st; Gen.drawn := drawn' |}
  else st.

(** The two nested [forEach] loops, from the empty array and site number 1. *)
Definition enumeratePairs (aceticFacilities : list AceticAcidFacility)
    (co2Facilities : list CO2EmitterFacility) : Gen.t :=
  fold_left
    (fun st aceticFacility =>
       fold_left (fun st co2Facility => pairStep aceticFacility co2Facility st)
         co2Facilities st)
    aceticFacilities
    {| Gen.sites := []; Gen.siteId := 1; Gen.drawn := 0 |}.

Definition byOverallScore (a b : OverlapSite) : float :=
  Site.overallScore b - Site.overallScore a.

Definition generateSites (aceticFacilities : list AceticAcidFacility)
    (co2Facilities : list CO2EmitterFacility) : list OverlapSite :=
  Array_sort byOverallScore (Gen.sites (enumeratePairs aceticFacilities co2Facilities)).

End Run.

(** [generateSiteRecommendations]: the engine as the source has it, with the
    weights of [SCORING_WEIGHTS].  A call that leaves out the thresholds runs
    with [maxDistance = 50] and [minScore = 0]. *)
Definition generateSiteRecommendations (aceticFacilities : list AceticAcidFacility)
    (co2Facilities : list CO2EmitterFacility) (maxDistance minScore : float)
  : list OverlapSite :=
  generateSites SCORING_WEIGHTS maxDistance minScore aceticFacilities co2Facilities.

(** *** The site of a pair, as a function

    What the body of the inner loop pushes for a pair that passes both
    tests, given the site number [k] and the position [n] on the tape; and
    the position after the draws of its context. *)

Definition siteContext (lat lon : float) (n : nat) : GeographicContext :=
  withRegion (getGeographicRegion lat lon) (fst (getInfrastructureContext lat lon n)).

Definition contextScores (context : GeographicContext) : ScoringFactors :=
  {| Factors.governmental := calculateGovernmentalScore context;
     Factors.logistics := calculateLogisticsScore context;
     Factors.policyIncentives := calculatePolicyIncentivesScore context;
     Factors.communityReadiness := calculateCommunityReadinessScore context |}.

Definition pairDistance (a : AceticAcidFacility) (c : CO2EmitterFacility) : float :=
  calculateDistance (Acetic.latitude a) (Acetic.longitude a)
    (CO2.latitude c) (CO2.longitude c).

Definition weightedMidpoint (xa xc : float) (a : AceticAcidFacility)
    (c : CO2EmitterFacility) : float :=
  (xa * (Acetic.capacity a / 1000000) + xc * (CO2.co2EmissionRate c / 10000000)) /
  (Acetic.capacity a / 1000000 + CO2.co2EmissionRate c / 10000000).

Definition optimalLat (a : AceticAcidFacility) (c : CO2EmitterFacility) : float :=
  weightedMidpoint (Acetic.latitude a) (CO2.latitude c) a c.

Definition optimalLon (a : AceticAcidFacility) (c : CO2EmitterFacility) : float :=
  weightedMidpoint (Acetic.longitude a) (CO2.longitude c) a c.

Definition pairContext (a : AceticAcidFacility) (c : CO2EmitterFacility) (n : nat)
  : GeographicContext :=
  siteContext (optimalLat a c) (optimalLon a c) n.

Definition drawnAfter (a : AceticAcidFacility) (c : CO2EmitterFacility) (n : nat) : nat :=
  snd (getInfrastructureContext (optimalLat a c) (optimalLon a c) n).

Definition boostedScores (synergyBonus : float) (scores : ScoringFactors)
  : ScoringFactors :=
  {| Factors.governmental :=
       Math_min 100 (Factors.governmental scores + synergyBonus * 0.3);
     Factors.logistics :=
       Math_min 100 (Factors.logistics scores + synergyBonus * 0.4);
     Factors.policyIncentives := Factors.policyIncentives scores;
     Factors.communityReadiness := Factors.communityReadiness scores |}.

Definition candidateSite (w : Weights.t) (a : AceticAcidFacility)
    (c : CO2EmitterFacility) (k n : nat) : OverlapSite :=
  let adjustedScores :=
    boostedScores (analyzeFacilitySynergies [a] [c])
      (contextScores (pairContext a c n)) in
  {| Site.id := site_name k;
     Site.latitude := optimalLat a c;
     Site.longitude := optimalLon a c;
     Site.aceticAcidFacilities := [Acetic.id a];
     Site.co2EmitterFacilities := [CO2.id c];
     Site.distance := Math_round (pairDistance a c * 100) / 100;
     Site.governmentalScore := Factors.governmental adjustedScores;
     Site.logisticsScore := Factors.logistics adjustedScores;
     Site.policyIncentivesScore := Factors.policyIncentives adjustedScores;
     Site.communityReadinessScore := Factors.communityReadiness adjustedScores;
     Site.overallScore := weightedOverallScore w adjustedScores |}.

(** The pairs in enumeration order: outer loop over the acetic facilities,
    inner loop over the CO2 facilities. *)
Definition pairsInOrder (aceticFacilities : list AceticAcidFacility)
    (co2Facilities : list CO2EmitterFacility)
  : list (AceticAcidFacility * CO2EmitterFacility) :=
  flat_map (fun a => map (fun c => (a, c)) co2Facilities) aceticFacilities.

(** An emission: the pair, the site number and the tape position of a site
    that was pushed. *)
Definition Emission : Type :=
  AceticAcidFacility * CO2EmitterFacility * nat * nat.

Definition emissionPair (e : Emission) : AceticAcidFacility * CO2EmitterFacility :=
  (e.1.1.1, e.1.1.2).

Definition emissionNumber (e : Emission) : nat := e.1.2.

Definition emissionSite (w : Weights.t) (e : Emission) : OverlapSite :=
  candidateSite w e.1.1.1 e.1.1.2 e.1.2 e.2.

(** Both tests of the inner loop hold for the pair of [e]. *)
Definition qualifies (w : Weights.t) (maxDistance minScore : float) (e : Emission)
  : Prop :=
  (pairDistance e.1.1.1 e.1.1.2 <=? maxDistance) = true /\
  (minScore <=? Site.overallScore (emissionSite w e)) = true.

(** What a run from [st] adds: the sites of the emissions [es], numbered
    from the site number of [st], for qualifying pairs taken in order from
    [pairs]. *)
Definition extends (w : Weights.t) (maxDistance minScore : float) (st st' : Gen.t)
    (pairs : list (AceticAcidFacility * CO2EmitterFacility)) (es : list Emission)
  : Prop :=
  Gen.sites st' = Gen.sites st ++ map (emissionSite w) es /\
  Gen.siteId st' = (Gen.siteId st + length es)%nat /\
  map emissionNumber es = seq (Gen.siteId st) (length es) /\
  sublist (map emissionPair es) pairs /\
  Forall (qualifies w maxDistance minScore) es.

(** The two tests of the inner loop, as boolean functions of a pair and of
    a scored pair. *)
Definition withinDistance (maxDistance : float)
    (p : AceticAcidFacility * CO2EmitterFacility) : bool :=
  pairDistance p.1 p.2 <=? maxDistance.

Definition passesScore (w : Weights.t) (minScore : float) (e : Emission) : bool :=
  minScore <=? Site.overallScore (emissionSite w e).

(** What a run from [st] does with [pairs]: it scores the pairs within
    [maxDistance], in order ([vs], each with the site number and the tape
    position of its turn), and pushes the sites of those that pass
    [minScore]. *)
Definition visits (w : Weights.t) (maxDistance minScore : float) (st st' : Gen.t)
    (pairs : list (AceticAcidFacility * CO2EmitterFacility)) (vs : list Emission)
  : Prop :=
  map emissionPair vs = List.filter (withinDistance maxDistance) pairs /\
  Gen.sites st' =
    Gen.sites st ++ map (emissionSite w) (List.filter (passesScore w minScore) vs).

(** *** Checks used in the properties of the engine *)

(** The test of one bounding box of [getGeographicRegion]. *)
Definition inBox (south north west east lat lon : float) : bool :=
  (south <=? lat) && (lat <=? north) && (west <=? lon) && (lon <=? east).

Definition between (lo hi x : float) : bool := (lo <=? x) && (x <=? hi).

(** Each of the four sub-scores and the overall score of [c1] is at most
    that of [c2]. *)
Definition allScoresLeq (c1 c2 : GeographicContext) : bool :=
  (calculateGovernmentalScore c1 <=? calculateGovernmentalScore c2) &&
  (calculateLogisticsScore c1 <=? calculateLogisticsScore c2) &&
  (calculatePolicyIncentivesScore c1 <=? calculatePolicyIncentivesScore c2) &&
  (calculateCommunityReadinessScore c1 <=? calculateCommunityReadinessScore c2) &&
  (calculateOverallScore (contextScores c1) <=? calculateOverallScore (contextScores c2)).

(** [x] is an integer: [Math.round] leaves it as it is. *)
Definition isInteger (x : float) : bool := Leibniz.eqb (Math_round x) x.

(** A site with its [id] replaced. *)
Definition withId (id : string) (s : OverlapSite) : OverlapSite :=
  {| Site.id := id;
     Site.latitude := Site.latitude s;
     Site.longitude := Site.longitude s;
     Site.aceticAcidFacilities := Site.aceticAcidFacilities s;
     Site.co2EmitterFacilities := Site.co2EmitterFacilities s;
     Site.distance := Site.distance s;
     Site.governmentalScore := Site.governmentalScore s;
     Site.logisticsScore := Site.logisticsScore s;
     Site.policyIncentivesScore := Site.policyIncentivesScore s;
     Site.communityReadinessScore := Site.communityReadinessScore s;
     Site.overallScore := Site.overallScore s |}.

(** The two contributor lists of a site. *)
Definition contributors (s : OverlapSite) : list string * list string :=
  (Site.aceticAcidFacilities s, Site.co2EmitterFacilities s).

(** Two runs that differ in [minScore] only: the second has made the same
    draws, and holds the sites of the first that pass [minScore'], under
    other site numbers. *)
Definition raised (minScore' : float) (st st' : Gen.t) : Prop :=
  Gen.drawn st' = Gen.drawn st /\
  map (withId EmptyString) (Gen.sites st') =
    List.filter (fun s => minScore' <=? Site.overallScore s)
      (map (withId EmptyString) (Gen.sites st)).

(** [GET] of the overlap endpoint, from the parsed thresholds and the
    bodies that the two facility endpoints answered: the facilities are
    validated, the engine runs, the statistics are taken.  An exception on
    the way gives the error answer. *)
Definition GET (maxDistance minScore : float) (aceticData co2Data : JsValue)
  : OverlapRoute.Response :=
  let answer :=
    validAceticFacilities ←
      validFacilities DataValidator.validateAceticFacility aceticData;
    validCO2Facilities ← validFacilities DataValidator.validateCO2Facility co2Data;
    let aceticFacilities := map asAceticFacility validAceticFacilities in
    let co2Facilities := map asCO2Facility validCO2Facilities in
    let overlapSites :=
      generateSiteRecommendations aceticFacilities co2Facilities maxDistance minScore in
    let aceticStats := DataAggregator.calculateFacilityStats aceticFacilities in
    let co2Stats := DataAggregator.calculateEmissionStats co2Facilities in
    let siteStats := DataAggregator.calculateSiteStats overlapSites in
    Some {| OverlapRoute.Body.success := true;
            OverlapRoute.Body.data := overlapSites;
            OverlapRoute.Body.count := length overlapSites;
            OverlapRoute.Body.statistics :=
              {| OverlapRoute.Statistics.aceticFacilities := aceticStats;
                 OverlapRoute.Statistics.co2Facilities := co2Stats;
                 OverlapRoute.Statistics.sites := siteStats |};
            OverlapRoute.Body.parameters :=
              {| OverlapRoute.Parameters.maxDistance := maxDistance;
                 OverlapRoute.Parameters.minScore := minScore;
                 OverlapRoute.Parameters.aceticFacilitiesCount :=
                   length validAceticFacilities;
                 OverlapRoute.Parameters.co2FacilitiesCount :=
                   length validCO2Facilities |} |} in
  match answer with
  | Some body => OverlapRoute.json body
  | None => OverlapRoute.failure "Failed to analyze site overlaps" 500
  end.

(** The fields of a facility that the engine reads. *)
Definition sameAceticInputs (a a' : AceticAcidFacility) : Prop :=
  Acetic.id a = Acetic.id a' /\
  Acetic.latitude a = Acetic.latitude a' /\
  Acetic.longitude a = Acetic.longitude a' /\
  Acetic.capacity a = Acetic.capacity a'.

Definition sameCO2Inputs (c c' : CO2EmitterFacility) : Prop :=
  CO2.id c = CO2.id c' /\
  CO2.latitude c = CO2.latitude c' /\
  CO2.longitude c = CO2.longitude c' /\
  CO2.co2EmissionRate c = CO2.co2EmissionRate c'.

(** ** Facts about the engine *)

Lemma calculateSiteScores_eq (lat lon : float) (n : nat) :
  calculateSiteScores lat lon n =
  (contextScores (siteContext lat lon n), snd (getInfrastructureContext lat lon n)).
Proof.
  unfold calculateSiteScores, siteContext, contextScores, bind, ret.
  destruct (getInfrastructureContext lat lon n) as [i n']; reflexivity.
Qed.

Lemma pairStep_eq (w : Weights.t) (maxDistance minScore : float)
    (a : AceticAcidFacility) (c : CO2EmitterFacility) (st : Gen.t) :
  pairStep w maxDistance minScore a c st =
  if pairDistance a c <=? maxDistance then
    let s := candidateSite w a c (Gen.siteId st) (Gen.drawn st) in
    if minScore <=? Site.overallScore s then
      {| Gen.sites := Gen.sites st ++ [s];
         Gen.siteId := S (Gen.siteId st);
         Gen.drawn := drawnAfter a c (Gen.drawn st) |}
    else
      {| Gen.sites := Gen.sites st;
         Gen.siteId := Gen.siteId st;
         Gen.drawn := drawnAfter a c (Gen.drawn st) |}
  else st.
Proof.
  unfold pairStep.
  change (calculateDistance _ _ _ _) with (pairDistance a c).
  destruct (pairDistance a c <=? maxDistance); [|reflexivity].
  change ((Acetic.latitude a * _ + _) / _) with (optimalLat a c).
  change ((Acetic.longitude a * _ + _) / _) with (optimalLon a c).
  rewrite calculateSiteScores_eq.
  cbv zeta. unfold candidateSite, drawnAfter, pairContext.
  cbn [Site.overallScore].
  reflexivity.
Qed.

Section Trace.

Variable w : Weights.t.
Variables maxDistance minScore : float.

Local Abbreviation ext := (extends w maxDistance minScore).

Lemma extends_trans (st1 st2 st3 : Gen.t) pairs1 pairs2 es1 es2 :
  ext st1 st2 pairs1 es1 -> ext st2 st3 pairs2 es2 ->
  ext st1 st3 (pairs1 ++ pairs2) (es1 ++ es2).
Proof.
  intros (Hs1 & Hk1 & Hn1 & Hp1 & Hq1) (Hs2 & Hk2 & Hn2 & Hp2 & Hq2).
  unfold extends. rewrite !map_app, length_app, seq_app.
  repeat split.
  - rewrite Hs2, Hs1, <- app_assoc. reflexivity.
  - lia.
  - rewrite Hn1, Hn2, Hk1. reflexivity.
  - apply sublist_app; assumption.
  - apply Forall_app; split; assumption.
Qed.

Lemma pairStep_extends (a : AceticAcidFacility) (c : CO2EmitterFacility) (st : Gen.t) :
  exists es, ext st (pairStep w maxDistance minScore a c st) [(a, c)] es.
Proof.
  rewrite pairStep_eq.
  destruct (pairDistance a c <=? maxDistance) eqn:Hd.
  - cbv zeta.
    destruct (minScore <=? Site.overallScore
                (candidateSite w a c (Gen.siteId st) (Gen.drawn st))) eqn:Ho.
    + exists [(a, c, Gen.siteId st, Gen.drawn st)].
      unfold extends. cbn [Gen.sites Gen.siteId map length seq].
      repeat split; try reflexivity; try lia.
      repeat constructor; assumption.
    + exists []. unfold extends. cbn [Gen.sites Gen.siteId map length seq].
      rewrite app_nil_r. repeat split; try lia.
      * apply sublist_nil_l.
      * constructor.
  - exists []. unfold extends. cbn [map length seq].
    rewrite app_nil_r. repeat split; try lia.
    + apply sublist_nil_l.
    + constructor.
Qed.

Lemma inner_extends (a : AceticAcidFacility) (cs : list CO2EmitterFacility) (st : Gen.t) :
  exists es,
    ext st
      (fold_left (fun st c => pairStep w maxDistance minScore a c st) cs st)
      (map (fun c => (a, c)) cs) es.
Proof.
  revert st. induction cs as [|c cs IH]; intros st.
  - exists []. unfold extends. cbn [fold_left map length seq].
    rewrite app_nil_r. repeat split; try lia; constructor.
  - cbn [fold_left map].
    destruct (pairStep_extends a c st) as [es1 H1].
    destruct (IH (pairStep w maxDistance minScore a c st)) as [es2 H2].
    exists (es1 ++ es2).
    exact (extends_trans _ _ _ _ _ _ _ H1 H2).
Qed.

Lemma outer_extends (acetics : list AceticAcidFacility)
    (cs : list CO2EmitterFacility) (st : Gen.t) :
  exists es,
    ext st
      (fold_left
         (fun st a => fold_left (fun st c => pairStep w maxDistance minScore a c st) cs st)
         acetics st)
      (pairsInOrder acetics cs) es.
Proof.
  revert st. induction acetics as [|a acetics IH]; intros st.
  - exists []. unfold extends. cbn [fold_left pairsInOrder flat_map map length seq].
    rewrite app_nil_r. repeat split; try lia; constructor.
  - cbn [fold_left pairsInOrder flat_map].
    destruct (inner_extends a cs st) as [es1 H1].
    destruct (IH (fold_left (fun st c => pairStep w maxDistance minScore a c st) cs st))
      as [es2 H2].
    exists (es1 ++ es2).
    exact (extends_trans _ _ _ _ _ _ _ H1 H2).
Qed.

(** The array before the sort: the sites of qualifying pairs, in enumeration
    order, numbered from 1. *)
Lemma enumeratePairs_trace (acetics : list AceticAcidFacility)
    (cs : list CO2EmitterFacility) :
  exists es : list Emission,
    Gen.sites (enumeratePairs w maxDistance minScore acetics cs) =
      map (emissionSite w) es /\
    map emissionNumber es = seq 1 (length es) /\
    sublist (map emissionPair es) (pairsInOrder acetics cs) /\
    Forall (qualifies w maxDistance minScore) es.
Proof.
  destruct (outer_extends acetics cs {| Gen.sites := []; Gen.siteId := 1; Gen.drawn := 0 |})
    as [es (Hs & _ & Hn & Hp & Hq)].
  exists es. repeat split; assumption.
Qed.

Local Abbreviation vis := (visits w maxDistance minScore).

Lemma visits_trans (st1 st2 st3 : Gen.t) pairs1 pairs2 vs1 vs2 :
  vis st1 st2 pairs1 vs1 -> vis st2 st3 pairs2 vs2 ->
  vis st1 st3 (pairs1 ++ pairs2) (vs1 ++ vs2).
Proof.
  intros (Hp1 & Hs1) (Hp2 & Hs2). unfold visits.
  rewrite !List.filter_app, !map_app. split.
  - rewrite Hp1, Hp2. reflexivity.
  - rewrite Hs2, Hs1, <- app_assoc. reflexivity.
Qed.

Lemma pairStep_visits (a : AceticAcidFacility) (c : CO2EmitterFacility) (st : Gen.t) :
  exists vs, vis st (pairStep w maxDistance minScore a c st) [(a, c)] vs.
Proof.
  rewrite pairStep_eq. unfold visits. cbn [List.filter].
  unfold withinDistance at 1. cbn [fst snd].
  destruct (pairDistance a c <=? maxDistance) eqn:Hd.
  - exists [(a, c, Gen.siteId st, Gen.drawn st)]. cbv zeta.
    cbn [List.filter map]. unfold passesScore, emissionSite. cbn [fst snd].
    destruct (minScore <=? Site.overallScore
                (candidateSite w a c (Gen.siteId st) (Gen.drawn st))) eqn:Ho.
    + cbn [Gen.sites map fst snd]. split; reflexivity.
    + cbn [Gen.sites map]. rewrite app_nil_r. split; reflexivity.
  - exists []. cbn [List.filter map]. rewrite app_nil_r. split; reflexivity.
Qed.

Lemma inner_visits (a : AceticAcidFacility) (cs : list CO2EmitterFacility) (st : Gen.t) :
  exists vs,
    vis st
      (fold_left (fun st c => pairStep w maxDistance minScore a c st) cs st)
      (map (fun c => (a, c)) cs) vs.
Proof.
  revert st. induction cs as [|c cs IH]; intros st.
  - exists []. unfold visits. cbn [fold_left map List.filter].
    rewrite app_nil_r. split; reflexivity.
  - cbn [fold_left map].
    destruct (pairStep_visits a c st) as [vs1 H1].
    destruct (IH (pairStep w maxDistance minScore a c st)) as [vs2 H2].
    exists (vs1 ++ vs2).
    exact (visits_trans _ _ _ [(a, c)] _ _ _ H1 H2).
Qed.

Lemma outer_visits (acetics : list AceticAcidFacility)
    (cs : list CO2EmitterFacility) (st : Gen.t) :
  exists vs,
    vis st
      (fold_left
         (fun st a => fold_left (fun st c => pairStep w maxDistance minScore a c st) cs st)
         acetics st)
      (pairsInOrder acetics cs) vs.
Proof.
  revert st. induction acetics as [|a acetics IH]; intros st.
  - exists []. unfold visits. cbn [fold_left pairsInOrder flat_map map List.filter].
    rewrite app_nil_r. split; reflexivity.
  - cbn [fold_left pairsInOrder flat_map].
    destruct (inner_visits a cs st) as [vs1 H1].
    destruct (IH (fold_left (fun st c => pairStep w maxDistance minScore a c st) cs st))
      as [vs2 H2].
    exists (vs1 ++ vs2).
    exact (visits_trans _ _ _ _ _ _ _ H1 H2).
Qed.

(** The array before the sort, in full: the pairs within [maxDistance] are
    scored once each, in enumeration order, and the sites pushed are those
    of the scored pairs that pass [minScore]. *)
Lemma enumeratePairs_visits (acetics : list AceticAcidFacility)
    (cs : list CO2EmitterFacility) :
  exists vs : list Emission,
    map emissionPair vs =
      List.filter (withinDistance maxDistance) (pairsInOrder acetics cs) /\
    Gen.sites (enumeratePairs w maxDistance minScore acetics cs) =
      map (emissionSite w) (List.filter (passesScore w minScore) vs).
Proof.
  exact (outer_visits acetics cs {| Gen.sites := []; Gen.siteId := 1; Gen.drawn := 0 |}).
Qed.

End Trace.

(** *** Scores are integers between 0 and 100 *)

Lemma score_table_ok :
  forallb (fun i => forallb (score_table i) (seq 0 101)) (seq 0 101) = true.
Proof. vm_compute. reflexivity. Qed.

Lemma is_score_spec (o : float) :
  is_score o = true <-> exists k, (k <= 100)%nat /\ o = of_nat k.
Proof.
  unfold is_score. rewrite existsb_exists. split.
  - intros (k & Hk & Heq). exists k. apply in_seq in Hk.
    apply Leibniz.eqb_spec in Heq. split; [lia | assumption].
  - intros (k & Hk & ->). exists k. split.
    + apply in_seq. lia.
    + apply Leibniz.eqb_spec. reflexivity.
Qed.

Lemma score_table_spec (i j : nat) :
  (i <= 100)%nat -> (j <= 100)%nat -> score_table i j = true.
Proof.
  intros Hi Hj. pose proof score_table_ok as H.
  rewrite forallb_forall in H.
  assert (Hin : forall k, (k <= 100)%nat -> In k (seq 0 101))
    by (intros k Hk; apply in_seq; lia).
  specialize (H i (Hin i Hi)). rewrite forallb_forall in H.
  exact (H j (Hin j Hj)).
Qed.

Lemma score_compare (x y : float) :
  is_score x = true -> is_score y = true ->
  exists i j : nat,
    x = of_nat i /\ y = of_nat j /\
    (0 <? y - x) = (i <? j)%nat /\
    (x <=? y) = (i <=? j)%nat /\
    Leibniz.eqb x y = (i =? j)%nat.
Proof.
  intros Hx Hy.
  apply is_score_spec in Hx as (i & Hi & ->).
  apply is_score_spec in Hy as (j & Hj & ->).
  exists i, j. pose proof (score_table_spec i j Hi Hj) as H.
  unfold score_table in H.
  apply andb_prop in H as [H H3]. apply andb_prop in H as [H1 H2].
  apply Bool.eqb_prop in H1, H2, H3. auto.
Qed.

Lemma single_pair_bonus (a : AceticAcidFacility) (c : CO2EmitterFacility) :
  analyzeFacilitySynergies [a] [c] = 3 \/
  analyzeFacilitySynergies [a] [c] = 13 \/
  analyzeFacilitySynergies [a] [c] = 23.
Proof.
  unfold analyzeFacilitySynergies. cbn [fold_left map].
  destruct (400000 <? 0 + Acetic.capacity a);
    destruct (2000000 <? 0 + CO2.co2EmissionRate c);
    destruct (CO2.facilityType c); vm_compute; auto.
Qed.

(** Every context and every bonus of a single pair: by evaluation of the
    960 contexts. *)
Lemma boosted_scores_ok (context : GeographicContext) (bonus : float) :
  bonus = 3 \/ bonus = 13 \/ bonus = 23 ->
  scores_ok (boostedScores bonus (contextScores context)) = true.
Proof.
  intros Hb.
  destruct context as [[] [] [] [] [] [] [] []];
    destruct Hb as [->|[->| ->]]; vm_compute; reflexivity.
Qed.

(** *** The sort *)

Section Sort.

Context {A : Type}.
Variable comparefn : A -> A -> float.

Lemma sort_insert_Permutation (x : A) (l : list A) :
  Permutation (sort_insert comparefn x l) (x :: l).
Proof.
  induction l as [|y l IH]; cbn [sort_insert].
  - reflexivity.
  - destruct (0 <? comparefn x y).
    + rewrite IH. apply perm_swap.
    + reflexivity.
Qed.

Lemma Array_sort_Permutation (l : list A) :
  Permutation (Array_sort comparefn l) l.
Proof.
  induction l as [|x l IH]; cbn [Array_sort].
  - reflexivity.
  - rewrite sort_insert_Permutation, IH. reflexivity.
Qed.

(** [P] holds of the elements that are sorted; on them the comparator agrees
    with a transitive relation [R]. *)
Variable P : A -> Prop.
Variable R : A -> A -> Prop.
Hypothesis after_spec : forall x y, P x -> P y -> (0 <? comparefn x y) = true -> R y x.
Hypothesis not_after_spec : forall x y, P x -> P y -> (0 <? comparefn x y) = false -> R x y.
Hypothesis R_trans : forall x y z, P x -> P y -> P z -> R x y -> R y z -> R x z.

Lemma sort_insert_sorted (x : A) (l : list A) :
  P x -> Forall P l -> StronglySorted R l ->
  StronglySorted R (sort_insert comparefn x l).
Proof using after_spec not_after_spec R_trans.
  intros Hx HP Hs. induction l as [|y l IH]; cbn [sort_insert].
  - repeat constructor.
  - apply Forall_cons in HP as [Hy HP].
    apply StronglySorted_inv in Hs as [Hs Hy_l].
    destruct (0 <? comparefn x y) eqn:Hc.
    + constructor; [apply IH; assumption|].
      rewrite sort_insert_Permutation.
      constructor; [eapply after_spec; eassumption | assumption].
    + constructor; [constructor; assumption|].
      pose proof (not_after_spec x y Hx Hy Hc) as Hxy.
      constructor; [assumption|].
      rewrite Forall_forall in *. intros z Hz.
      apply (R_trans x y z); auto.
Qed.

Lemma Array_sort_sorted (l : list A) :
  Forall P l -> StronglySorted R (Array_sort comparefn l).
Proof using after_spec not_after_spec R_trans.
  induction l as [|x l IH]; intros HP; cbn [Array_sort].
  - constructor.
  - apply Forall_cons in HP as [Hx HP].
    apply sort_insert_sorted; [assumption| |auto].
    rewrite Array_sort_Permutation. assumption.
Qed.

(** Stability: a class [p] of elements that never pass one another keeps
    its order. *)
Variable p : A -> bool.
Hypothesis same_class : forall x y,
  P x -> P y -> p x = true -> p y = true -> (0 <? comparefn x y) = false.

Lemma sort_insert_filter (x : A) (l : list A) :
  P x -> Forall P l ->
  List.filter p (sort_insert comparefn x l) = List.filter p (x :: l).
Proof using same_class.
  intros Hx HP. induction l as [|y l IH]; cbn [sort_insert].
  - reflexivity.
  - apply Forall_cons in HP as [Hy HP].
    destruct (0 <? comparefn x y) eqn:Hc; [|reflexivity].
    cbn [List.filter] in *. rewrite (IH HP).
    destruct (p x) eqn:Hpx, (p y) eqn:Hpy; try reflexivity.
    rewrite (same_class x y Hx Hy Hpx Hpy) in Hc. discriminate.
Qed.

Lemma Array_sort_filter (l : list A) :
  Forall P l -> List.filter p (Array_sort comparefn l) = List.filter p l.
Proof using same_class.
  induction l as [|x l IH]; intros HP; cbn [Array_sort].
  - reflexivity.
  - apply Forall_cons in HP as [Hx HP].
    rewrite sort_insert_filter; [|assumption|].
    + cbn [List.filter]. rewrite (IH HP). reflexivity.
    + rewrite Array_sort_Permutation. assumption.
Qed.

End Sort.

(** *** Every returned site is the site of a qualifying pair *)

Lemma pairsInOrder_In (acetics : list AceticAcidFacility)
    (cs : list CO2EmitterFacility) (a : AceticAcidFacility) (c : CO2EmitterFacility) :
  In (a, c) (pairsInOrder acetics cs) <-> In a acetics /\ In c cs.
Proof.
  unfold pairsInOrder. rewrite in_flat_map. split.
  - intros (a' & Ha & Hc). apply in_map_iff in Hc as (c' & Heq & Hc).
    inversion Heq; subst. auto.
  - intros [Ha Hc]. exists a. split; [assumption|].
    apply in_map_iff. exists c. auto.
Qed.

Lemma enumerated_site (w : Weights.t) (maxDistance minScore : float)
    (acetics : list AceticAcidFacility) (cs : list CO2EmitterFacility)
    (s : OverlapSite) :
  In s (Gen.sites (enumeratePairs w maxDistance minScore acetics cs)) ->
  exists a c k n,
    In a acetics /\ In c cs /\ s = candidateSite w a c k n /\
    (pairDistance a c <=? maxDistance) = true /\
    (minScore <=? Site.overallScore s) = true.
Proof.
  intros Hin.
  destruct (enumeratePairs_trace w maxDistance minScore acetics cs)
    as (es & Hs & _ & Hp & Hq).
  rewrite Hs in Hin. apply in_map_iff in Hin as (e & <- & He).
  rewrite List.Forall_forall in Hq. destruct (Hq e He) as [Hd Ho].
  assert (Hpair : In (emissionPair e) (pairsInOrder acetics cs)).
  { apply list_elem_of_In. eapply elem_of_sublist; [|exact Hp].
    apply list_elem_of_In. apply in_map. exact He. }
  destruct e as [[[a c] k] n].
  apply pairsInOrder_In in Hpair as [Ha Hc].
  exists a, c, k, n. auto.
Qed.

Lemma generated_site (w : Weights.t) (maxDistance minScore : float)
    (acetics : list AceticAcidFacility) (cs : list CO2EmitterFacility)
    (s : OverlapSite) :
  In s (generateSites w maxDistance minScore acetics cs) ->
  exists a c k n,
    In a acetics /\ In c cs /\ s = candidateSite w a c k n /\
    (pairDistance a c <=? maxDistance) = true /\
    (minScore <=? Site.overallScore s) = true.
Proof.
  unfold generateSites. intros Hin.
  apply (Permutation_in _ (Array_sort_Permutation _ _)) in Hin.
  apply enumerated_site. exact Hin.
Qed.

(** A run on one pair returns the site of the pair, numbered 1 and with the
    context of the first draws, or nothing. *)
Lemma single_pair_run (w : Weights.t) (maxDistance minScore : float)
    (a : AceticAcidFacility) (c : CO2EmitterFacility) :
  generateSites w maxDistance minScore [a] [c] =
  if (pairDistance a c <=? maxDistance) &&
     (minScore <=? Site.overallScore (candidateSite w a c 1 0))
  then [candidateSite w a c 1 0] else [].
Proof.
  unfold generateSites, enumeratePairs. cbn [fold_left].
  rewrite pairStep_eq. cbn [Gen.siteId Gen.drawn Gen.sites].
  destruct (pairDistance a c <=? maxDistance); [|reflexivity].
  cbv zeta.
  destruct (minScore <=? Site.overallScore (candidateSite w a c 1 0)); reflexivity.
Qed.

Lemma empty_run_l (w : Weights.t) (maxDistance minScore : float)
    (cs : list CO2EmitterFacility) :
  generateSites w maxDistance minScore [] cs = [].
Proof. reflexivity. Qed.

Lemma empty_run_r (w : Weights.t) (maxDistance minScore : float)
    (acetics : list AceticAcidFacility) :
  generateSites w maxDistance minScore acetics [] = [].
Proof.
  unfold generateSites.
  assert (Hnil : pairsInOrder acetics [] = []).
  { unfold pairsInOrder. induction acetics as [|a l IH]; [reflexivity|].
    cbn [flat_map map app]. exact IH. }
  destruct (enumeratePairs_trace w maxDistance minScore acetics [])
    as (es & Hs & _ & Hp & _).
  rewrite Hnil in Hp. apply sublist_nil_r in Hp.
  apply map_eq_nil in Hp. subst es.
  rewrite Hs. reflexivity.
Qed.

(** *** Signs of binary64 operations

    Negation commutes with multiplication and division, multiplication is
    commutative, and swapping the operands of a subtraction negates the
    result unless both differences are +0. *)

Lemma binary_round_aux_opp (s : bool) (m e : Z) (l : location) :
  SFopp (binary_round_aux prec emax s m e l) = binary_round_aux prec emax (negb s) m e l.
Proof.
  unfold binary_round_aux.
  destruct (shr_fexp prec emax m e l) as [mrs' e'].
  destruct (shr_fexp prec emax _ e' loc_Exact) as [mrs'' e''].
  destruct (shr_m mrs''); [reflexivity| |reflexivity].
  destruct (e'' <=? emax - prec)%Z; reflexivity.
Qed.

Lemma binary_round_opp (s : bool) (m : positive) (e : Z) :
  SFopp (binary_round prec emax s m e) = binary_round prec emax (negb s) m e.
Proof.
  unfold binary_round.
  destruct (shl_align m e _) as [mz ez]. apply binary_round_aux_opp.
Qed.

Lemma binary_normalize_opp (m e : Z) :
  binary_normalize prec emax (- m) e false = binary_normalize prec emax m e false \/
  binary_normalize prec emax (- m) e false = SFopp (binary_normalize prec emax m e false).
Proof.
  destruct m as [|p|p]; cbn [Z.opp binary_normalize].
  - left. reflexivity.
  - right. rewrite binary_round_opp. reflexivity.
  - right. rewrite binary_round_opp. reflexivity.
Qed.

Lemma SFsub_swap (a b : spec_float) :
  SFsub prec emax b a = SFsub prec emax a b \/
  SFsub prec emax b a = SFopp (SFsub prec emax a b).
Proof.
  destruct a as [sa|sa| |sa ma ea], b as [sb|sb| |sb mb eb].
  16: { cbn [SFsub]. rewrite (Z.min_comm eb ea).
        set (X := cond_Zopp sa _). set (Y := cond_Zopp sb _).
        replace (Y - X)%Z with (- (X - Y))%Z by lia.
        apply binary_normalize_opp. }
  all: try destruct sa; try destruct sb; cbn; auto.
Qed.

Lemma SFmul_opp_l (a b : spec_float) :
  SFmul prec emax (SFopp a) b = SFopp (SFmul prec emax a b).
Proof.
  destruct a as [sa|sa| |sa ma ea], b as [sb|sb| |sb mb eb]; cbn [SFopp SFmul];
    rewrite ?binary_round_aux_opp, ?negb_xorb_l; reflexivity.
Qed.

Lemma SFmul_comm (a b : spec_float) : SFmul prec emax a b = SFmul prec emax b a.
Proof.
  destruct a as [sa|sa| |sa ma ea], b as [sb|sb| |sb mb eb]; cbn [SFmul];
    rewrite ?(xorb_comm sa sb); try reflexivity.
  rewrite Pos.mul_comm, Z.add_comm. reflexivity.
Qed.

Lemma SFdiv_opp_l (a b : spec_float) :
  SFdiv prec emax (SFopp a) b = SFopp (SFdiv prec emax a b).
Proof.
  destruct a as [sa|sa| |sa ma ea], b as [sb|sb| |sb mb eb]; cbn [SFopp SFdiv];
    try destruct (SFdiv_core_binary prec emax (Z.pos ma) ea (Z.pos mb) eb)
      as [[mz ez] lz];
    rewrite ?binary_round_aux_opp, ?negb_xorb_l; reflexivity.
Qed.

Lemma SFopp_involutive (a : spec_float) : SFopp (SFopp a) = a.
Proof. destruct a; cbn; rewrite ?negb_involutive; reflexivity. Qed.

Lemma float_opp_involutive (x : float) : - (- x) = x.
Proof. apply Prim2SF_inj. rewrite !FloatAxioms.opp_spec. apply SFopp_involutive. Qed.

Lemma float_mul_opp_l (x y : float) : (- x) * y = - (x * y).
Proof.
  apply Prim2SF_inj.
  rewrite FloatAxioms.opp_spec, !FloatAxioms.mul_spec, FloatAxioms.opp_spec.
  apply SFmul_opp_l.
Qed.

Lemma float_mul_comm (x y : float) : x * y = y * x.
Proof. apply Prim2SF_inj. rewrite !FloatAxioms.mul_spec. apply SFmul_comm. Qed.

Lemma float_mul_opp_r (x y : float) : x * (- y) = - (x * y).
Proof. rewrite float_mul_comm, float_mul_opp_l, float_mul_comm. reflexivity. Qed.

Lemma float_div_opp_l (x y : float) : (- x) / y = - (x / y).
Proof.
  apply Prim2SF_inj.
  rewrite FloatAxioms.opp_spec, !FloatAxioms.div_spec, FloatAxioms.opp_spec.
  apply SFdiv_opp_l.
Qed.

Lemma float_sub_swap (x y : float) : y - x = x - y \/ y - x = - (x - y).
Proof.
  destruct (SFsub_swap (Prim2SF x) (Prim2SF y)) as [H|H]; [left|right];
    apply Prim2SF_inj; rewrite ?FloatAxioms.opp_spec, !FloatAxioms.sub_spec; exact H.
Qed.

(** In binary64 the distance is exactly symmetric, for all doubles, with any
    [Math.sin] that is odd. *)
Lemma half_angle_swap (u v : float) :
  (forall x, Math_sin (- x) = - Math_sin x) ->
  v = u \/ v = - u ->
  Math_sin (v * Math_PI / 180 / 2) = Math_sin (u * Math_PI / 180 / 2) \/
  Math_sin (v * Math_PI / 180 / 2) = - Math_sin (u * Math_PI / 180 / 2).
Proof.
  intros Hodd [->| ->]; [left; reflexivity|right].
  rewrite float_mul_opp_l, !float_div_opp_l. apply Hodd.
Qed.


(** *** Comparisons of doubles *)

Lemma SFleb_refl_l (x y : spec_float) : SFleb x y = true -> SFleb x x = true.
Proof.
  unfold SFleb, SFcompare.
  destruct x as [sx|sx| |sx mx ex]; try discriminate; intros _.
  - reflexivity.
  - destruct sx; reflexivity.
  - destruct sx; rewrite Z.compare_refl, Pos.compare_cont_refl; reflexivity.
Qed.

Lemma SFleb_refl_r (x y : spec_float) : SFleb x y = true -> SFleb y y = true.
Proof.
  unfold SFleb, SFcompare.
  destruct y as [sy|sy| |sy my ey].
  - reflexivity.
  - destruct sy; reflexivity.
  - destruct x; discriminate.
  - destruct sy; rewrite Z.compare_refl, Pos.compare_cont_refl; reflexivity.
Qed.

(** [x <= y] holds of numbers only, and a number is [<=] itself. *)
Lemma leb_refl_l (x y : float) : (x <=? y) = true -> (x <=? x) = true.
Proof. rewrite !FloatAxioms.leb_spec. apply SFleb_refl_l. Qed.

Lemma leb_refl_r (x y : float) : (x <=? y) = true -> (y <=? y) = true.
Proof. rewrite !FloatAxioms.leb_spec. apply SFleb_refl_r. Qed.

Lemma scores_ok_spec (s : ScoringFactors) :
  scores_ok s = true ->
  ((0 <=? Factors.governmental s) = true /\ (Factors.governmental s <=? 100) = true) /\
  ((0 <=? Factors.logistics s) = true /\ (Factors.logistics s <=? 100) = true) /\
  ((0 <=? Factors.policyIncentives s) = true /\
   (Factors.policyIncentives s <=? 100) = true) /\
  ((0 <=? Factors.communityReadiness s) = true /\
   (Factors.communityReadiness s <=? 100) = true) /\
  is_score (weightedOverallScore SCORING_WEIGHTS s) = true.
Proof.
  unfold scores_ok, in_range. rewrite !andb_true_iff. tauto.
Qed.

Lemma candidateSite_overallScore (w : Weights.t) (a : AceticAcidFacility)
    (c : CO2EmitterFacility) (k n : nat) :
  Site.overallScore (candidateSite w a c k n) =
  weightedOverallScore w
    (boostedScores (analyzeFacilitySynergies [a] [c]) (contextScores (pairContext a c n))).
Proof. reflexivity. Qed.

Lemma candidateSite_subScores (w : Weights.t) (a : AceticAcidFacility)
    (c : CO2EmitterFacility) (k n : nat) :
  let adjustedScores :=
    boostedScores (analyzeFacilitySynergies [a] [c]) (contextScores (pairContext a c n)) in
  Site.governmentalScore (candidateSite w a c k n) =
    Factors.governmental adjustedScores /\
  Site.logisticsScore (candidateSite w a c k n) = Factors.logistics adjustedScores /\
  Site.policyIncentivesScore (candidateSite w a c k n) =
    Factors.policyIncentives adjustedScores /\
  Site.communityReadinessScore (candidateSite w a c k n) =
    Factors.communityReadiness adjustedScores.
Proof. repeat split; reflexivity. Qed.

Lemma candidate_scores_ok (a : AceticAcidFacility) (c : CO2EmitterFacility) (n : nat) :
  scores_ok
    (boostedScores (analyzeFacilitySynergies [a] [c]) (contextScores (pairContext a c n)))
  = true.
Proof. apply boosted_scores_ok, single_pair_bonus. Qed.

(** With [minScore = 0] a pair within [maxDistance] is always returned,
    whatever [Math] and the draws are; its site stores the rounded distance,
    which is above [maxDistance] whenever the rounding goes up past it. *)
Lemma single_pair_emitted (a : AceticAcidFacility) (c : CO2EmitterFacility)
    (maxDistance : float) :
  (pairDistance a c <=? maxDistance) = true ->
  generateSiteRecommendations [a] [c] maxDistance 0 =
    [candidateSite SCORING_WEIGHTS a c 1 0] /\
  Site.distance (candidateSite SCORING_WEIGHTS a c 1 0) =
    Math_round (pairDistance a c * 100) / 100.
Proof.
  intros Hd. split; [|reflexivity].
  unfold generateSiteRecommendations. rewrite single_pair_run, Hd.
  rewrite candidateSite_overallScore.
  pose proof (candidate_scores_ok a c 0) as Hok.
  apply scores_ok_spec in Hok as (_ & _ & _ & _ & Hs).
  apply is_score_spec in Hs as (k & Hk & Hs).
  pose proof (score_table_spec 0 k (Nat.le_0_l 100) Hk) as H.
  unfold score_table in H. rewrite !andb_true_iff in H. destruct H as [[_ H] _].
  apply Bool.eqb_prop in H. change (of_nat 0) with 0 in H.
  rewrite Hs, H. reflexivity.
Qed.

(** ** The claims *)

(** C1 (as amended).  A run with an empty list on either side returns the
    empty array.  Every returned site comes from a pair whose Haversine
    distance, before rounding, is at most [maxDistance] and whose overall
    score is at least [minScore]; the [distance] that the site stores is
    that distance rounded to two decimals.  Both tests are inclusive: a site
    returned by a run on one pair is still returned when [maxDistance] is
    exactly the distance of the pair and [minScore] exactly its overall
    score.  Nothing is left out: the pairs whose unrounded distance is at
    most [maxDistance] are scored once each, in enumeration order, and the
    returned array holds, up to its order, the sites of the scored pairs
    whose overall score is at least [minScore]. *)
Theorem generated_sites_respect_thresholds
    (acetics : list AceticAcidFacility) (cs : list CO2EmitterFacility)
    (maxDistance minScore : float) :
  generateSiteRecommendations [] cs maxDistance minScore = [] /\
  generateSiteRecommendations acetics [] maxDistance minScore = [] /\
  (forall s, In s (generateSiteRecommendations acetics cs maxDistance minScore) ->
     exists a c, In a acetics /\ In c cs /\
       (pairDistance a c <=? maxDistance) = true /\
       Site.distance s = Math_round (pairDistance a c * 100) / 100 /\
       (minScore <=? Site.overallScore s) = true) /\
  (forall a c s, In s (generateSiteRecommendations [a] [c] maxDistance minScore) ->
     generateSiteRecommendations [a] [c] (pairDistance a c) (Site.overallScore s) = [s]) /\
  (exists scored : list Emission,
     map emissionPair scored =
       List.filter (withinDistance maxDistance) (pairsInOrder acetics cs) /\
     Permutation
       (generateSiteRecommendations acetics cs maxDistance minScore)
       (map (emissionSite SCORING_WEIGHTS)
          (List.filter (passesScore SCORING_WEIGHTS minScore) scored))).
Proof.
  unfold generateSiteRecommendations.
  split; [|split; [|split; [|split]]].
  - reflexivity.
  - apply empty_run_r.
  - intros s Hin.
    apply generated_site in Hin as (a & c & k & n & Ha & Hc & -> & Hd & Ho).
    exists a, c. auto.
  - intros a c s Hin. rewrite single_pair_run in Hin. rewrite single_pair_run.
    remember (candidateSite SCORING_WEIGHTS a c 1 0) as site eqn:Hsite.
    remember (pairDistance a c) as d eqn:Hdist.
    destruct (d <=? maxDistance) eqn:Hd; [|destruct Hin].
    destruct (minScore <=? Site.overallScore site) eqn:Ho; [|destruct Hin].
    destruct Hin as [<-|[]].
    remember (Site.overallScore site) as o eqn:Hscore.
    rewrite (leb_refl_l _ _ Hd), (leb_refl_r _ _ Ho). reflexivity.
  - destruct (enumeratePairs_visits SCORING_WEIGHTS maxDistance minScore acetics cs)
      as (vs & Hp & Hs).
    exists vs. split; [exact Hp|].
    unfold generateSites. rewrite Array_sort_Permutation, Hs. reflexivity.
Qed.

(** C2.  Each of the four sub-scores of a returned site lies in [0,100], its
    overall score is [Math.round] of the weighted sum of the sub-scores that
    the site stores, with the weights 0.30, 0.25, 0.25 and 0.20, and the
    four weights of [SCORING_WEIGHTS] sum to 1. *)
Theorem generated_site_scores
    (acetics : list AceticAcidFacility) (cs : list CO2EmitterFacility)
    (maxDistance minScore : float) (s : OverlapSite) :
  In s (generateSiteRecommendations acetics cs maxDistance minScore) ->
  ((0 <=? Site.governmentalScore s) = true /\
   (Site.governmentalScore s <=? 100) = true) /\
  ((0 <=? Site.logisticsScore s) = true /\
   (Site.logisticsScore s <=? 100) = true) /\
  ((0 <=? Site.policyIncentivesScore s) = true /\
   (Site.policyIncentivesScore s <=? 100) = true) /\
  ((0 <=? Site.communityReadinessScore s) = true /\
   (Site.communityReadinessScore s <=? 100) = true) /\
  Site.overallScore s =
    calculateOverallScore
      {| Factors.governmental := Site.governmentalScore s;
         Factors.logistics := Site.logisticsScore s;
         Factors.policyIncentives := Site.policyIncentivesScore s;
         Factors.communityReadiness := Site.communityReadinessScore s |} /\
  Site.overallScore s =
    Math_round
      (Site.governmentalScore s * 0.3 + Site.logisticsScore s * 0.25 +
       Site.policyIncentivesScore s * 0.25 + Site.communityReadinessScore s * 0.2) /\
  Weights.governmental SCORING_WEIGHTS + Weights.logistics SCORING_WEIGHTS +
  Weights.policyIncentives SCORING_WEIGHTS + Weights.communityReadiness SCORING_WEIGHTS
  = 1.
Proof.
  intros Hin. unfold generateSiteRecommendations in Hin.
  apply generated_site in Hin as (a & c & k & n & _ & _ & -> & _ & _).
  destruct (candidateSite_subScores SCORING_WEIGHTS a c k n) as (-> & -> & -> & ->).
  rewrite candidateSite_overallScore.
  pose proof (candidate_scores_ok a c n) as Hok.
  apply scores_ok_spec in Hok as (Hg & Hl & Hp & Hc & _).
  revert Hg Hl Hp Hc.
  generalize (boostedScores (analyzeFacilitySynergies [a] [c])
                (contextScores (pairContext a c n))).
  intros [g l p q]. cbn [Factors.governmental Factors.logistics
                         Factors.policyIncentives Factors.communityReadiness].
  intros Hg Hl Hp Hc.
  split; [exact Hg|]. split; [exact Hl|]. split; [exact Hp|]. split; [exact Hc|].
  repeat split; reflexivity.
Qed.

(** In binary64 the weighted average with both weights 0 is [0 / 0]. *)
Lemma weightedMidpoint_zero_weights (xa xc : float)
    (a : AceticAcidFacility) (c : CO2EmitterFacility) :
  Acetic.capacity a = 0 -> CO2.co2EmissionRate c = 0 ->
  PrimFloat.is_nan (weightedMidpoint xa xc a c) = true.
Proof.
  intros Ha Hc. unfold weightedMidpoint. rewrite Ha, Hc.
  change (0 / 1000000) with 0. change (0 / 10000000) with 0. change (0 + 0) with 0.
  unfold PrimFloat.is_nan.
  rewrite FloatAxioms.eqb_spec, FloatAxioms.div_spec, FloatAxioms.add_spec,
    !FloatAxioms.mul_spec.
  change (Prim2SF 0) with (S754_zero false).
  destruct (Prim2SF xa) as [[]|[]| |[] ? ?], (Prim2SF xc) as [[]|[]| |[] ? ?];
    reflexivity.
Qed.

(** C9 (as amended).  For a pair that passes both tests the body of the loop
    pushes one site, whose coordinates are the weighted average of the
    coordinates of that pair, with the weights [capacity / 1,000,000] and
    [co2EmissionRate / 10,000,000], computed in binary64 arithmetic; and
    every returned site is the site of a pair of the two lists, at the
    weighted average of the coordinates of that same pair.  For the pair of
    the scenario of the specification (both facilities at 29.7604, -95.3698,
    capacity 500000 and emission rate 2500000) the result is exactly the
    shared coordinate.  When the capacity and the emission rate are both 0,
    the coordinates of the site are NaN. *)
Theorem site_midpoint_formula :
  (forall (maxDistance minScore : float) (a : AceticAcidFacility)
          (c : CO2EmitterFacility) (st : Gen.t),
     let weight_a := Acetic.capacity a / 1000000 in
     let weight_c := CO2.co2EmissionRate c / 10000000 in
     let lat :=
       (Acetic.latitude a * weight_a + CO2.latitude c * weight_c) /
       (weight_a + weight_c) in
     let lon :=
       (Acetic.longitude a * weight_a + CO2.longitude c * weight_c) /
       (weight_a + weight_c) in
     let scores := fst (calculateSiteScores lat lon (Gen.drawn st)) in
     let bonus := analyzeFacilitySynergies [a] [c] in
     let boosted :=
       {| Factors.governmental :=
            Math_min 100 (Factors.governmental scores + bonus * 0.3);
          Factors.logistics := Math_min 100 (Factors.logistics scores + bonus * 0.4);
          Factors.policyIncentives := Factors.policyIncentives scores;
          Factors.communityReadiness := Factors.communityReadiness scores |} in
     (calculateDistance (Acetic.latitude a) (Acetic.longitude a)
        (CO2.latitude c) (CO2.longitude c) <=? maxDistance) = true ->
     (minScore <=? weightedOverallScore SCORING_WEIGHTS boosted) = true ->
     exists s,
       Gen.sites (pairStep SCORING_WEIGHTS maxDistance minScore a c st) =
         Gen.sites st ++ [s] /\
       Site.aceticAcidFacilities s = [Acetic.id a] /\
       Site.co2EmitterFacilities s = [CO2.id c] /\
       Site.latitude s = lat /\
       Site.longitude s = lon /\
       (Acetic.capacity a = 0 -> CO2.co2EmissionRate c = 0 ->
        PrimFloat.is_nan (Site.latitude s) = true /\
        PrimFloat.is_nan (Site.longitude s) = true)) /\
  (forall (acetics : list AceticAcidFacility) (cs : list CO2EmitterFacility)
          (maxDistance minScore : float) (s : OverlapSite),
     In s (generateSiteRecommendations acetics cs maxDistance minScore) ->
     exists a c k n,
       In a acetics /\ In c cs /\
       s = candidateSite SCORING_WEIGHTS a c k n /\
       (pairDistance a c <=? maxDistance) = true /\
       Site.aceticAcidFacilities s = [Acetic.id a] /\
       Site.co2EmitterFacilities s = [CO2.id c] /\
       let weight_a := Acetic.capacity a / 1000000 in
       let weight_c := CO2.co2EmissionRate c / 10000000 in
       Site.latitude s =
         (Acetic.latitude a * weight_a + CO2.latitude c * weight_c) /
         (weight_a + weight_c) /\
       Site.longitude s =
         (Acetic.longitude a * weight_a + CO2.longitude c * weight_c) /
         (weight_a + weight_c)) /\
  (forall (maxDistance minScore : float) a c s,
     Acetic.latitude a = 29.7604 -> Acetic.longitude a = -95.3698 ->
     Acetic.capacity a = 500000 ->
     CO2.latitude c = 29.7604 -> CO2.longitude c = -95.3698 ->
     CO2.co2EmissionRate c = 2500000 ->
     In s (generateSiteRecommendations [a] [c] maxDistance minScore) ->
     Site.latitude s = 29.7604 /\ Site.longitude s = -95.3698) /\
  (forall (maxDistance minScore : float) a c s,
     Acetic.capacity a = 0 -> CO2.co2EmissionRate c = 0 ->
     In s (generateSiteRecommendations [a] [c] maxDistance minScore) ->
     PrimFloat.is_nan (Site.latitude s) = true /\
     PrimFloat.is_nan (Site.longitude s) = true).
Proof.
  split; [|split; [|split]].
  - intros maxDistance minScore a c st weight_a weight_c lat lon scores bonus boosted
      Hd Ho.
    exists (candidateSite SCORING_WEIGHTS a c (Gen.siteId st) (Gen.drawn st)).
    rewrite pairStep_eq. unfold pairDistance. rewrite Hd. cbv zeta.
    rewrite candidateSite_overallScore.
    assert (Hb : boostedScores (analyzeFacilitySynergies [a] [c])
                   (contextScores (pairContext a c (Gen.drawn st))) = boosted).
    { unfold boosted, scores, lat, lon, weight_a, weight_c.
      rewrite calculateSiteScores_eq. reflexivity. }
    rewrite Hb, Ho.
    split; [reflexivity|]. split; [reflexivity|]. split; [reflexivity|].
    split; [reflexivity|]. split; [reflexivity|].
    intros Hcap Hrate.
    unfold candidateSite, optimalLat, optimalLon. cbn [Site.latitude Site.longitude].
    split; apply weightedMidpoint_zero_weights; assumption.
  - intros acetics cs maxDistance minScore s Hin.
    unfold generateSiteRecommendations in Hin.
    apply generated_site in Hin as (a & c & k & n & Ha & Hc & -> & Hd & _).
    exists a, c, k, n. repeat split; assumption.
  - intros maxDistance minScore a c s Hlat Hlon Hcap Hlat' Hlon' Hrate Hin.
    unfold generateSiteRecommendations in Hin.
    apply generated_site in Hin as (a' & c' & k & n & [<-|[]] & [<-|[]] & -> & _ & _).
    unfold candidateSite, optimalLat, optimalLon, weightedMidpoint.
    cbn [Site.latitude Site.longitude].
    rewrite Hlat, Hlon, Hcap, Hlat', Hlon', Hrate.
    split; vm_compute; reflexivity.
  - intros maxDistance minScore a c s Hcap Hrate Hin.
    unfold generateSiteRecommendations in Hin.
    apply generated_site in Hin as (a' & c' & k & n & [<-|[]] & [<-|[]] & -> & _ & _).
    unfold candidateSite, optimalLat, optimalLon. cbn [Site.latitude Site.longitude].
    split; apply weightedMidpoint_zero_weights; assumption.
Qed.

(** C10.  The two contributor lists of a returned site have one element
    each: the id of the acetic facility and the id of the CO2 facility of the
    pair that the site was computed from (the pair whose midpoint and rounded
    distance the site stores). *)
Theorem contributor_lists_singletons
    (acetics : list AceticAcidFacility) (cs : list CO2EmitterFacility)
    (maxDistance minScore : float) (s : OverlapSite) :
  In s (generateSiteRecommendations acetics cs maxDistance minScore) ->
  exists a c, In a acetics /\ In c cs /\
    Site.aceticAcidFacilities s = [Acetic.id a] /\
    Site.co2EmitterFacilities s = [CO2.id c] /\
    Site.latitude s = optimalLat a c /\
    Site.longitude s = optimalLon a c /\
    Site.distance s = Math_round (pairDistance a c * 100) / 100.
Proof.
  intros Hin. unfold generateSiteRecommendations in Hin.
  apply generated_site in Hin as (a & c & k & n & Ha & Hc & -> & _ & _).
  exists a, c. repeat split; assumption.
Qed.




(** *** The returned array is the sorted array of the enumeration *)

Lemma sublist_map {A B : Type} (f : A -> B) (l1 l2 : list A) :
  sublist l1 l2 -> sublist (map f l1) (map f l2).
Proof.
  induction 1; cbn [map]; constructor; assumption.
Qed.

Lemma enumerated_scores (maxDistance minScore : float)
    (acetics : list AceticAcidFacility) (cs : list CO2EmitterFacility) :
  Forall (fun s => is_score (Site.overallScore s) = true)
    (Gen.sites (enumeratePairs SCORING_WEIGHTS maxDistance minScore acetics cs)).
Proof.
  apply List.Forall_forall. intros s Hin.
  apply enumerated_site in Hin as (a & c & k & n & _ & _ & -> & _ & _).
  rewrite candidateSite_overallScore.
  pose proof (candidate_scores_ok a c n) as Hok.
  apply scores_ok_spec in Hok as (_ & _ & _ & _ & Hs).
  exact Hs.
Qed.

Section ByOverallScore.

Let P (s : OverlapSite) : Prop := is_score (Site.overallScore s) = true.

Let R (s1 s2 : OverlapSite) : Prop :=
  (Site.overallScore s2 <=? Site.overallScore s1) = true.

Lemma byOverallScore_after (x y : OverlapSite) :
  P x -> P y -> (0 <? byOverallScore x y) = true -> R y x.
Proof.
  unfold P, R, byOverallScore. intros Hx Hy.
  apply is_score_spec in Hx as (i & Hi & ->).
  apply is_score_spec in Hy as (j & Hj & ->).
  pose proof (score_table_spec i j Hi Hj) as H. unfold score_table in H.
  rewrite !andb_true_iff in H. destruct H as [[H1 H2] _].
  apply Bool.eqb_prop in H1, H2. rewrite H1, H2.
  intros Hlt. apply Nat.ltb_lt in Hlt. apply Nat.leb_le. lia.
Qed.

Lemma byOverallScore_not_after (x y : OverlapSite) :
  P x -> P y -> (0 <? byOverallScore x y) = false -> R x y.
Proof.
  unfold P, R, byOverallScore. intros Hx Hy.
  apply is_score_spec in Hx as (i & Hi & ->).
  apply is_score_spec in Hy as (j & Hj & ->).
  pose proof (score_table_spec i j Hi Hj) as H. unfold score_table in H.
  rewrite !andb_true_iff in H. destruct H as [[H1 _] _].
  pose proof (score_table_spec j i Hj Hi) as H'. unfold score_table in H'.
  rewrite !andb_true_iff in H'. destruct H' as [[_ H2] _].
  apply Bool.eqb_prop in H1, H2. rewrite H1, H2.
  intros Hlt. apply Nat.ltb_ge in Hlt. apply Nat.leb_le. lia.
Qed.

Lemma byOverallScore_trans (x y z : OverlapSite) :
  P x -> P y -> P z -> R x y -> R y z -> R x z.
Proof.
  unfold P, R. intros Hx Hy Hz.
  apply is_score_spec in Hx as (i & Hi & ->).
  apply is_score_spec in Hy as (j & Hj & ->).
  apply is_score_spec in Hz as (k & Hk & ->).
  pose proof (score_table_spec j i Hj Hi) as H1.
  pose proof (score_table_spec k j Hk Hj) as H2.
  pose proof (score_table_spec k i Hk Hi) as H3.
  unfold score_table in H1, H2, H3.
  rewrite !andb_true_iff in H1, H2, H3.
  destruct H1 as [[_ H1] _], H2 as [[_ H2] _], H3 as [[_ H3] _].
  apply Bool.eqb_prop in H1, H2, H3. rewrite H1, H2, H3.
  rewrite !Nat.leb_le. lia.
Qed.

Lemma byOverallScore_same_class (v : float) (x y : OverlapSite) :
  P x -> P y ->
  Leibniz.eqb (Site.overallScore x) v = true ->
  Leibniz.eqb (Site.overallScore y) v = true ->
  (0 <? byOverallScore x y) = false.
Proof.
  unfold P, byOverallScore. intros Hx _ Hxv Hyv.
  apply Leibniz.eqb_spec in Hxv, Hyv. rewrite Hyv, <- Hxv.
  apply is_score_spec in Hx as (i & Hi & ->).
  pose proof (score_table_spec i i Hi Hi) as H. unfold score_table in H.
  rewrite !andb_true_iff in H. destruct H as [[H1 _] _].
  apply Bool.eqb_prop in H1. rewrite H1. apply Nat.ltb_irrefl.
Qed.

End ByOverallScore.

(** C6.  The returned array is in non-increasing order of [overallScore]
    over its full length, and the sort is stable: the sites of any one
    overall score come in the order of the array before the sort.  That
    array is in generation order: its ids are site-1, site-2, ... in
    sequence, and its pairs are taken in order from the enumeration with the
    acetic facilities in the outer loop and the CO2 facilities in the inner
    loop. *)
Theorem output_sorted_stable
    (acetics : list AceticAcidFacility) (cs : list CO2EmitterFacility)
    (maxDistance minScore : float) :
  let generated :=
    Gen.sites (enumeratePairs SCORING_WEIGHTS maxDistance minScore acetics cs) in
  let returned := generateSiteRecommendations acetics cs maxDistance minScore in
  StronglySorted
    (fun s1 s2 => (Site.overallScore s2 <=? Site.overallScore s1) = true) returned /\
  (forall v,
     List.filter (fun s => Leibniz.eqb (Site.overallScore s) v) returned =
     List.filter (fun s => Leibniz.eqb (Site.overallScore s) v) generated) /\
  Permutation returned generated /\
  map Site.id generated = map site_name (seq 1 (length generated)) /\
  sublist
    (map (fun s => (Site.aceticAcidFacilities s, Site.co2EmitterFacilities s)) generated)
    (map (fun p => ([Acetic.id p.1], [CO2.id p.2])) (pairsInOrder acetics cs)).
Proof.
  intros generated returned.
  pose proof (enumerated_scores maxDistance minScore acetics cs) as HP.
  fold generated in HP.
  unfold returned, generateSiteRecommendations, generateSites. fold generated.
  split; [|split; [|split; [|split]]].
  - eapply Array_sort_sorted; [| | |exact HP].
    + apply byOverallScore_after.
    + apply byOverallScore_not_after.
    + apply byOverallScore_trans.
  - intros v. eapply Array_sort_filter; [|exact HP].
    apply byOverallScore_same_class.
  - apply Array_sort_Permutation.
  - destruct (enumeratePairs_trace SCORING_WEIGHTS maxDistance minScore acetics cs)
      as (es & Hs & Hn & _ & _).
    unfold generated. rewrite Hs, length_map, <- Hn, !map_map. reflexivity.
  - destruct (enumeratePairs_trace SCORING_WEIGHTS maxDistance minScore acetics cs)
      as (es & Hs & _ & Hp & _).
    unfold generated. rewrite Hs, map_map.
    apply (sublist_map (fun p => ([Acetic.id p.1], [CO2.id p.2]))) in Hp.
    rewrite map_map in Hp. exact Hp.
Qed.

(** C7.  The zone table holds the integers of [REGULATORY_ZONES], and for
    every context each sub-score is its base (the zone entry; 50 for
    community readiness) plus the signed adjustments of the table of the
    specification, clamped to [0,100]. *)
Theorem sub_scores_follow_table :
  (forall r : Region,
     Zone.governmental (REGULATORY_ZONES r) = of_Z (zoneGovernmental r) /\
     Zone.logistics (REGULATORY_ZONES r) = of_Z (zoneLogistics r) /\
     Zone.policy (REGULATORY_ZONES r) = of_Z (zonePolicy r)) /\
  (forall context : GeographicContext,
     calculateGovernmentalScore context =
       of_Z (clampScore (zoneGovernmental (Ctx.region context) +
                         governmentalAdjustments context)) /\
     calculateLogisticsScore context =
       of_Z (clampScore (zoneLogistics (Ctx.region context) +
                         logisticsAdjustments context)) /\
     calculatePolicyIncentivesScore context =
       of_Z (clampScore (zonePolicy (Ctx.region context) +
                         policyIncentivesAdjustments context)) /\
     calculateCommunityReadinessScore context =
       of_Z (clampScore (50 + communityReadinessAdjustments context))).
Proof.
  split.
  - intros []; repeat split; vm_compute; reflexivity.
  - intros [[] [] [] [] [] [] [] []]; repeat split; vm_compute; reflexivity.
Qed.

(** C4 (as amended).  The engine takes no weight configuration and has no
    configuration error: [generateSiteRecommendations] is the run with the
    constant [SCORING_WEIGHTS], whose four entries sum to exactly 1, and it
    returns an array for every input.  With any weight table in the place of
    the constant, whatever its sum, the overall score of a returned site is
    [Math.round] of the plain weighted sum of its sub-scores: nothing is
    renormalized. *)
Theorem weights_fixed_and_plain :
  Weights.governmental SCORING_WEIGHTS + Weights.logistics SCORING_WEIGHTS +
  Weights.policyIncentives SCORING_WEIGHTS + Weights.communityReadiness SCORING_WEIGHTS
  = 1 /\
  (forall (acetics : list AceticAcidFacility) (cs : list CO2EmitterFacility)
          (maxDistance minScore : float),
     generateSiteRecommendations acetics cs maxDistance minScore =
     generateSites SCORING_WEIGHTS maxDistance minScore acetics cs) /\
  (forall (w : Weights.t) (acetics : list AceticAcidFacility)
          (cs : list CO2EmitterFacility) (maxDistance minScore : float)
          (s : OverlapSite),
     In s (generateSites w maxDistance minScore acetics cs) ->
     Site.overallScore s =
       Math_round
         (Site.governmentalScore s * Weights.governmental w +
          Site.logisticsScore s * Weights.logistics w +
          Site.policyIncentivesScore s * Weights.policyIncentives w +
          Site.communityReadinessScore s * Weights.communityReadiness w)).
Proof.
  split; [reflexivity|]. split; [reflexivity|].
  intros w acetics cs maxDistance minScore s Hin.
  apply generated_site in Hin as (a & c & k & n & _ & _ & -> & _ & _).
  unfold candidateSite.
  cbn [Site.governmentalScore Site.logisticsScore Site.policyIncentivesScore
       Site.communityReadinessScore Site.overallScore].
  reflexivity.
Qed.

(** ** Further properties of the engine *)

(** *** The order of doubles

    [<=?] is transitive and total on numbers, and [<?] is its strict part. *)

Ltac SFcompare_cases :=
  repeat match goal with
  | |- context [Pos.compare_cont Eq ?a ?b] =>
      change (Pos.compare_cont Eq a b) with (Pos.compare a b);
      destruct (Pos.compare_spec a b)
  | |- context [Z.compare ?a ?b] => destruct (Z.compare_spec a b)
  | H : context [Pos.compare_cont Eq ?a ?b] |- _ =>
      change (Pos.compare_cont Eq a b) with (Pos.compare a b) in H;
      destruct (Pos.compare_spec a b)
  | H : context [Z.compare ?a ?b] |- _ => destruct (Z.compare_spec a b)
  end; cbn [CompOpp] in *; try discriminate; try reflexivity; try lia.

Lemma SFleb_trans (x y z : spec_float) :
  SFleb x y = true -> SFleb y z = true -> SFleb x z = true.
Proof.
  unfold SFleb, SFcompare.
  destruct x as [sx|sx| |sx mx ex], y as [sy|sy| |sy my ey], z as [sz|sz| |sz mz ez];
    try destruct sx; try destruct sy; try destruct sz;
    try discriminate; try reflexivity; intros H1 H2; SFcompare_cases.
Qed.

Lemma SFleb_ltb_false (x y : spec_float) : SFleb x y = true -> SFltb y x = false.
Proof.
  unfold SFleb, SFltb, SFcompare.
  destruct x as [sx|sx| |sx mx ex], y as [sy|sy| |sy my ey];
    try destruct sx; try destruct sy;
    try discriminate; try reflexivity; intros H1; SFcompare_cases.
Qed.

Lemma SFltb_false_leb (x y : spec_float) :
  SFleb x x = true -> SFleb y y = true -> SFltb x y = false -> SFleb y x = true.
Proof.
  unfold SFleb, SFltb, SFcompare.
  destruct x as [sx|sx| |sx mx ex], y as [sy|sy| |sy my ey];
    try destruct sx; try destruct sy;
    try discriminate; try reflexivity; intros H1 H2 H3; SFcompare_cases.
Qed.

Lemma SFltb_leb (x y : spec_float) : SFltb x y = true -> SFleb x y = true.
Proof.
  unfold SFleb, SFltb. destruct (SFcompare x y) as [[]|]; auto.
Qed.

Lemma float_leb_trans (x y z : float) :
  (x <=? y) = true -> (y <=? z) = true -> (x <=? z) = true.
Proof. rewrite !FloatAxioms.leb_spec. apply SFleb_trans. Qed.

Lemma float_leb_ltb_false (x y : float) : (x <=? y) = true -> (y <? x) = false.
Proof. rewrite !FloatAxioms.leb_spec, !FloatAxioms.ltb_spec. apply SFleb_ltb_false. Qed.

Lemma float_ltb_false_leb (x y : float) :
  (x <=? x) = true -> (y <=? y) = true -> (x <? y) = false -> (y <=? x) = true.
Proof. rewrite !FloatAxioms.leb_spec, !FloatAxioms.ltb_spec. apply SFltb_false_leb. Qed.

Lemma float_ltb_leb (x y : float) : (x <? y) = true -> (x <=? y) = true.
Proof. rewrite !FloatAxioms.leb_spec, !FloatAxioms.ltb_spec. apply SFltb_leb. Qed.

Lemma SFltb_trans (x y z : spec_float) :
  SFltb x y = true -> SFltb y z = true -> SFltb x z = true.
Proof.
  unfold SFltb, SFcompare.
  destruct x as [sx|sx| |sx mx ex], y as [sy|sy| |sy my ey], z as [sz|sz| |sz mz ez];
    try destruct sx; try destruct sy; try destruct sz;
    try discriminate; try reflexivity; intros H1 H2; SFcompare_cases.
Qed.

Lemma SFleb_ltb_trans (x y z : spec_float) :
  SFleb x y = true -> SFltb y z = true -> SFltb x z = true.
Proof.
  unfold SFleb, SFltb, SFcompare.
  destruct x as [sx|sx| |sx mx ex], y as [sy|sy| |sy my ey], z as [sz|sz| |sz mz ez];
    try destruct sx; try destruct sy; try destruct sz;
    try discriminate; try reflexivity; intros H1 H2; SFcompare_cases.
Qed.

Lemma float_ltb_trans (x y z : float) :
  (x <? y) = true -> (y <? z) = true -> (x <? z) = true.
Proof. rewrite !FloatAxioms.ltb_spec. apply SFltb_trans. Qed.

Lemma float_leb_ltb_trans (x y z : float) :
  (x <=? y) = true -> (y <? z) = true -> (x <? z) = true.
Proof. rewrite !FloatAxioms.leb_spec, !FloatAxioms.ltb_spec. apply SFleb_ltb_trans. Qed.

Lemma float_between_absurd (a b x : float) :
  (a <=? b) = false -> (a <=? x) = true -> (x <=? b) = true -> False.
Proof.
  intros Hab Hax Hxb. rewrite (float_leb_trans _ _ _ Hax Hxb) in Hab. discriminate.
Qed.

Lemma float_leb_false_ltb (x y : float) :
  (x <=? x) = true -> (y <=? y) = true -> (x <=? y) = false -> (y <? x) = true.
Proof.
  intros Hx Hy H. destruct (y <? x) eqn:E; [reflexivity|].
  rewrite (float_ltb_false_leb _ _ Hy Hx E) in H. discriminate.
Qed.

(** *** Maximum and minimum *)

Lemma SFeqb_refl_leb (x : spec_float) : SFeqb x x = SFleb x x.
Proof.
  unfold SFeqb, SFleb, SFcompare.
  destruct x as [s|s| |s m e]; try reflexivity; destruct s;
    rewrite ?Z.compare_refl, ?Pos.compare_cont_refl; reflexivity.
Qed.

Lemma float_is_nan_leb (x : float) : PrimFloat.is_nan x = negb (x <=? x).
Proof.
  unfold PrimFloat.is_nan.
  rewrite FloatAxioms.eqb_spec, FloatAxioms.leb_spec, SFeqb_refl_leb. reflexivity.
Qed.

Lemma Math_max_number (a b : float) :
  (a <=? a) = true -> (b <=? b) = true ->
  (a <=? Math_max a b) = true /\ (b <=? Math_max a b) = true /\
  (Math_max a b = a \/ Math_max a b = b).
Proof.
  intros Ha Hb. unfold Math_max. rewrite !float_is_nan_leb, Ha, Hb. cbn [negb orb].
  destruct (b <? a) eqn:Eba.
  - split; [assumption|]. split; [apply float_ltb_leb, Eba|left; reflexivity].
  - destruct (a <? b) eqn:Eab.
    + split; [apply float_ltb_leb, Eab|]. split; [assumption|right; reflexivity].
    + pose proof (float_ltb_false_leb _ _ Hb Ha Eba) as Hab.
      pose proof (float_ltb_false_leb _ _ Ha Hb Eab) as Hba.
      destruct (classify a); auto.
Qed.

Lemma Math_min_number (a b : float) :
  (a <=? a) = true -> (b <=? b) = true ->
  (Math_min a b <=? a) = true /\ (Math_min a b <=? b) = true /\
  (Math_min a b = a \/ Math_min a b = b).
Proof.
  intros Ha Hb. unfold Math_min. rewrite !float_is_nan_leb, Ha, Hb. cbn [negb orb].
  destruct (a <? b) eqn:Eab.
  - split; [assumption|]. split; [apply float_ltb_leb, Eab|left; reflexivity].
  - destruct (b <? a) eqn:Eba.
    + split; [apply float_ltb_leb, Eba|]. split; [assumption|right; reflexivity].
    + pose proof (float_ltb_false_leb _ _ Hb Ha Eba) as Hab.
      pose proof (float_ltb_false_leb _ _ Ha Hb Eab) as Hba.
      destruct (classify a); auto.
Qed.

Lemma maxOf_fold (values : list float) (acc : float) :
  (acc <=? acc) = true -> Forall (fun v => (v <=? v) = true) values ->
  let r := fold_left Math_max values acc in
  (acc <=? r) = true /\ Forall (fun v => (v <=? r) = true) values /\
  (r = acc \/ In r values).
Proof.
  revert acc. induction values as [|v values IH]; intros acc Hacc Hnum.
  - cbn. auto.
  - apply Forall_cons in Hnum as [Hv Hnum]. cbn [fold_left]. cbv zeta.
    destruct (Math_max_number acc v Hacc Hv) as (H1 & H2 & H3).
    assert (Hm : (Math_max acc v <=? Math_max acc v) = true)
      by exact (leb_refl_r _ _ H1).
    destruct (IH (Math_max acc v) Hm Hnum) as (Hle & Hall & Hin).
    split; [exact (float_leb_trans _ _ _ H1 Hle)|]. split.
    + constructor; [exact (float_leb_trans _ _ _ H2 Hle)|exact Hall].
    + destruct Hin as [Hin|Hin]; [|right; right; exact Hin].
      rewrite Hin. destruct H3 as [->| ->]; [left; reflexivity|right; left; reflexivity].
Qed.

Lemma minOf_fold (values : list float) (acc : float) :
  (acc <=? acc) = true -> Forall (fun v => (v <=? v) = true) values ->
  let r := fold_left Math_min values acc in
  (r <=? acc) = true /\ Forall (fun v => (r <=? v) = true) values /\
  (r = acc \/ In r values).
Proof.
  revert acc. induction values as [|v values IH]; intros acc Hacc Hnum.
  - cbn. auto.
  - apply Forall_cons in Hnum as [Hv Hnum]. cbn [fold_left]. cbv zeta.
    destruct (Math_min_number acc v Hacc Hv) as (H1 & H2 & H3).
    assert (Hm : (Math_min acc v <=? Math_min acc v) = true)
      by exact (leb_refl_l _ _ H1).
    destruct (IH (Math_min acc v) Hm Hnum) as (Hle & Hall & Hin).
    split; [exact (float_leb_trans _ _ _ Hle H1)|]. split.
    + constructor; [exact (float_leb_trans _ _ _ Hle H2)|exact Hall].
    + destruct Hin as [Hin|Hin]; [|right; right; exact Hin].
      rewrite Hin. destruct H3 as [->| ->]; [left; reflexivity|right; left; reflexivity].
Qed.

Lemma float_leb_neg_infinity (x : float) : (x <=? neg_infinity) = true -> x = neg_infinity.
Proof.
  rewrite FloatAxioms.leb_spec. intros H. apply Prim2SF_inj.
  change (Prim2SF neg_infinity) with (S754_infinity true) in *.
  destruct (Prim2SF x) as [s|s| |s m e]; try discriminate;
    destruct s; try discriminate; reflexivity.
Qed.

Lemma float_infinity_leb (x : float) : (infinity <=? x) = true -> x = infinity.
Proof.
  rewrite FloatAxioms.leb_spec. intros H. apply Prim2SF_inj.
  change (Prim2SF infinity) with (S754_infinity false) in *.
  destruct (Prim2SF x) as [s|s| |s m e]; try discriminate;
    destruct s; try discriminate; reflexivity.
Qed.

Lemma maxOf_number (values : list float) :
  values <> [] -> Forall (fun v => (v <=? v) = true) values ->
  In (DataAggregator.maxOf values) values /\
  Forall (fun v => (v <=? DataAggregator.maxOf values) = true) values.
Proof.
  intros Hne Hnum. unfold DataAggregator.maxOf.
  destruct (maxOf_fold values neg_infinity eq_refl Hnum) as (_ & Hall & Hin).
  split; [|exact Hall]. destruct Hin as [Hin|Hin]; [|exact Hin].
  destruct values as [|v values]; [destruct (Hne eq_refl)|].
  apply Forall_cons in Hall as [Hv _]. rewrite Hin in Hv |- *.
  left. apply float_leb_neg_infinity, Hv.
Qed.

Lemma minOf_number (values : list float) :
  values <> [] -> Forall (fun v => (v <=? v) = true) values ->
  In (DataAggregator.minOf values) values /\
  Forall (fun v => (DataAggregator.minOf values <=? v) = true) values.
Proof.
  intros Hne Hnum. unfold DataAggregator.minOf.
  destruct (minOf_fold values infinity eq_refl Hnum) as (_ & Hall & Hin).
  split; [|exact Hall]. destruct Hin as [Hin|Hin]; [|exact Hin].
  destruct values as [|v values]; [destruct (Hne eq_refl)|].
  apply Forall_cons in Hall as [Hv _]. rewrite Hin in Hv |- *.
  left. apply float_infinity_leb, Hv.
Qed.

(** *** The regions *)

Lemma getGeographicRegion_eq (lat lon : float) :
  getGeographicRegion lat lon =
  if inBox 25 32 (-97) (-87) lat lon then gulf_coast
  else if inBox 38 47 (-90) (-80) lat lon then midwest
  else if inBox 39 45 (-80) (-69) lat lon then northeast
  else if inBox 32 49 (-125) (-114) lat lon then west_coast
  else southeast.
Proof. reflexivity. Qed.

Lemma inBox_spec (south north west east lat lon : float) :
  inBox south north west east lat lon = true <->
  (south <=? lat) = true /\ (lat <=? north) = true /\
  (west <=? lon) = true /\ (lon <=? east) = true.
Proof.
  unfold inBox. rewrite !andb_true_iff.
  split; [intros [[[? ?] ?] ?]|intros (? & ? & ? & ?)]; auto.
Qed.

Lemma boxes_disjoint_lat (s1 n1 w1 e1 s2 n2 w2 e2 lat lon : float) :
  (s2 <=? n1) = false ->
  inBox s1 n1 w1 e1 lat lon = true -> inBox s2 n2 w2 e2 lat lon = false.
Proof.
  intros Hd H1. destruct (inBox s2 n2 w2 e2 lat lon) eqn:H2; [|reflexivity].
  apply inBox_spec in H1 as (_ & H1 & _), H2 as (H2 & _).
  destruct (float_between_absurd _ _ _ Hd H2 H1).
Qed.

Lemma boxes_disjoint_lon (s1 n1 w1 e1 s2 n2 w2 e2 lat lon : float) :
  (w2 <=? e1) = false ->
  inBox s1 n1 w1 e1 lat lon = true -> inBox s2 n2 w2 e2 lat lon = false.
Proof.
  intros Hd H1. destruct (inBox s2 n2 w2 e2 lat lon) eqn:H2; [|reflexivity].
  apply inBox_spec in H1 as (_ & _ & _ & H1), H2 as (_ & _ & H2 & _).
  destruct (float_between_absurd _ _ _ Hd H2 H1).
Qed.

Lemma northeast_outside_midwest (lat lon : float) :
  inBox 39 45 (-80) (-69) lat lon = true ->
  (inBox 38 47 (-90) (-80) lat lon = false <-> (-80 <? lon) = true).
Proof.
  intros (H39 & H45 & H80 & H69)%inBox_spec. split.
  - intros Hm. destruct (lon <=? -80) eqn:E.
    + exfalso. assert (inBox 38 47 (-90) (-80) lat lon = true); [|congruence].
      apply inBox_spec. repeat split.
      * eapply float_leb_trans; [|exact H39]. reflexivity.
      * eapply float_leb_trans; [exact H45|]. reflexivity.
      * eapply float_leb_trans; [|exact H80]. reflexivity.
      * exact E.
    + apply float_leb_false_ltb; [exact (leb_refl_r _ _ H80)|reflexivity|exact E].
  - intros Hlt. destruct (inBox 38 47 (-90) (-80) lat lon) eqn:Hm; [|reflexivity].
    apply inBox_spec in Hm as (_ & _ & _ & Hm).
    rewrite (float_leb_ltb_false _ _ Hm) in Hlt. discriminate.
Qed.

(** X1.  [getGeographicRegion] returns each of the four named regions
    exactly on its bounding box, borders included, and the boxes do not
    overlap, but for the meridian -80 between latitudes 39 and 45, which the
    midwest and the northeast boxes share and which is midwest: the
    northeast is its box without that meridian.  Every other point is
    southeast, and so is a point with a NaN coordinate. *)
Theorem region_boxes (lat lon : float) :
  (getGeographicRegion lat lon = gulf_coast <->
     (25 <=? lat) = true /\ (lat <=? 32) = true /\
     (-97 <=? lon) = true /\ (lon <=? -87) = true) /\
  (getGeographicRegion lat lon = midwest <->
     (38 <=? lat) = true /\ (lat <=? 47) = true /\
     (-90 <=? lon) = true /\ (lon <=? -80) = true) /\
  (getGeographicRegion lat lon = northeast <->
     (39 <=? lat) = true /\ (lat <=? 45) = true /\
     (-80 <? lon) = true /\ (lon <=? -69) = true) /\
  (getGeographicRegion lat lon = west_coast <->
     (32 <=? lat) = true /\ (lat <=? 49) = true /\
     (-125 <=? lon) = true /\ (lon <=? -114) = true) /\
  ((lat <=? lat) = false \/ (lon <=? lon) = false ->
     getGeographicRegion lat lon = southeast).
Proof.
  split; [|split; [|split; [|split]]].
  5: { rewrite getGeographicRegion_eq. intros Hnan.
       assert (Hout : forall s n w e, inBox s n w e lat lon = false).
       { intros s n w e. destruct (inBox s n w e lat lon) eqn:E; [|reflexivity].
         apply inBox_spec in E as (H1 & _ & H2 & _).
         apply leb_refl_r in H1, H2. destruct Hnan; congruence. }
       rewrite !Hout. reflexivity. }
  all: rewrite getGeographicRegion_eq, <- ?inBox_spec.
  all: pose proof (boxes_disjoint_lat 25 32 (-97) (-87) 38 47 (-90) (-80) lat lon eq_refl)
         as Hgm.
  all: pose proof (boxes_disjoint_lat 25 32 (-97) (-87) 39 45 (-80) (-69) lat lon eq_refl)
         as Hgn.
  all: pose proof (boxes_disjoint_lon 32 49 (-125) (-114) 25 32 (-97) (-87) lat lon eq_refl)
         as Hwg.
  all: pose proof (boxes_disjoint_lon 32 49 (-125) (-114) 38 47 (-90) (-80) lat lon eq_refl)
         as Hwm.
  all: pose proof (boxes_disjoint_lon 32 49 (-125) (-114) 39 45 (-80) (-69) lat lon eq_refl)
         as Hwn.
  all: pose proof (northeast_outside_midwest lat lon) as Hnm.
  3: { assert (Hne : (39 <=? lat) = true /\ (lat <=? 45) = true /\
                     (-80 <? lon) = true /\ (lon <=? -69) = true <->
                     inBox 39 45 (-80) (-69) lat lon = true /\ (-80 <? lon) = true).
       { rewrite inBox_spec. split.
         - intros (H1 & H2 & H3 & H4). repeat split; auto. apply float_ltb_leb, H3.
         - intros ((H1 & H2 & _ & H4) & H3). auto. }
       rewrite Hne. clear Hne.
       destruct (inBox 25 32 (-97) (-87) lat lon).
       { rewrite (Hgn eq_refl). split; [discriminate|]. intros [? _]; discriminate. }
       destruct (inBox 38 47 (-90) (-80) lat lon).
       { split; [discriminate|]. intros [Hn Hlt]. apply (Hnm Hn) in Hlt. discriminate. }
       destruct (inBox 39 45 (-80) (-69) lat lon).
       { split; [|reflexivity]. intros _. split; [reflexivity|]. apply (Hnm eq_refl).
         reflexivity. }
       destruct (inBox 32 49 (-125) (-114) lat lon);
         (split; [discriminate|]); intros [? _]; discriminate. }
  all: destruct (inBox 25 32 (-97) (-87) lat lon);
         [specialize (Hgm eq_refl); specialize (Hgn eq_refl)|];
         destruct (inBox 32 49 (-125) (-114) lat lon);
         try discriminate (Hwg eq_refl);
         try (specialize (Hwm eq_refl)); try (specialize (Hwn eq_refl));
         destruct (inBox 38 47 (-90) (-80) lat lon); try discriminate;
         destruct (inBox 39 45 (-80) (-69) lat lon); try discriminate;
         split; intros; try discriminate; reflexivity.
Qed.

(** *** The draws of a context *)

(** X2.  [getInfrastructureContext] makes six draws, one more when the point
    is coastal (the draw of [nearPort]) and one more when the first draw did
    not make the point urban (the draw of the density tier).  A point that
    is not coastal is never near a port, the density is high exactly when
    the first draw is above 0.6, and the last draw decides the zoning. *)
Theorem infrastructure_context_draws (lat lon : float) (n : nat) :
  let isCoastal := (80 <? Math_abs lon) && ((lat <? 35) || (45 <? lat)) in
  let isUrban := 0.6 <? tape n in
  let context := fst (getInfrastructureContext lat lon n) in
  let drawn := snd (getInfrastructureContext lat lon n) in
  drawn = (n + 6 + (if isCoastal then 1 else 0) + (if isUrban then 0 else 1))%nat /\
  (isCoastal = false -> InfraCtx.nearPort context = false) /\
  (InfraCtx.populationDensity context = high <-> isUrban = true) /\
  InfraCtx.industrialZoning context = (0.4 <? tape (drawn - 1)).
Proof.
  unfold getInfrastructureContext, bind, ret, Math_random. cbv zeta.
  destruct ((80 <? Math_abs lon) && ((lat <? 35) || (45 <? lat)));
    destruct (0.6 <? tape n); cbn [fst snd InfraCtx.nearPort
      InfraCtx.populationDensity InfraCtx.industrialZoning].
  all: repeat split; try discriminate; try reflexivity; try lia.
  all: try (f_equal; f_equal; lia).
  all: try (intros H; destruct (0.5 <? _); discriminate).
Qed.

(** *** The ranges of the scores *)

(** X3.  No context reaches the lower clamp, and community readiness does
    not reach the upper one: the governmental score is between 30 and 100,
    the logistics score between 60 and 100, the policy incentives score
    between 55 and 100 and the community readiness score between 30 and 95;
    the overall score of the scores of [calculateSiteScores] is between 49
    and 99, at every point and for all draws. *)
Theorem sub_score_ranges :
  (forall context : GeographicContext,
     between 30 100 (calculateGovernmentalScore context) = true /\
     between 60 100 (calculateLogisticsScore context) = true /\
     between 55 100 (calculatePolicyIncentivesScore context) = true /\
     between 30 95 (calculateCommunityReadinessScore context) = true) /\
  (forall (lat lon : float) (n : nat),
     let scores := fst (calculateSiteScores lat lon n) in
     between 30 100 (Factors.governmental scores) = true /\
     between 60 100 (Factors.logistics scores) = true /\
     between 55 100 (Factors.policyIncentives scores) = true /\
     between 30 95 (Factors.communityReadiness scores) = true /\
     between 49 99 (calculateOverallScore scores) = true).
Proof.
  split.
  - intros [[] [] [] [] [] [] [] []]; vm_compute; repeat split; reflexivity.
  - intros lat lon n. rewrite calculateSiteScores_eq. cbn [fst].
    generalize (siteContext lat lon n).
    intros [[] [] [] [] [] [] [] []]; vm_compute; repeat split; reflexivity.
Qed.

(** X4.  A more favourable context never has a lower score: with the rest
    of the context fixed, being near a port, a highway, a rail line, a
    pipeline or the power grid, or being zoned industrial, lowers none of
    the four sub-scores nor the overall score, and neither does a lower
    population density (high, then medium, then low). *)
Theorem favourable_context_never_lowers_scores
    (r : Region) (port highway rail pipeline powerGrid zoning : bool) (d : Density) :
  allScoresLeq (Ctx.mk r false highway rail pipeline powerGrid d zoning)
               (Ctx.mk r true highway rail pipeline powerGrid d zoning) = true /\
  allScoresLeq (Ctx.mk r port false rail pipeline powerGrid d zoning)
               (Ctx.mk r port true rail pipeline powerGrid d zoning) = true /\
  allScoresLeq (Ctx.mk r port highway false pipeline powerGrid d zoning)
               (Ctx.mk r port highway true pipeline powerGrid d zoning) = true /\
  allScoresLeq (Ctx.mk r port highway rail false powerGrid d zoning)
               (Ctx.mk r port highway rail true powerGrid d zoning) = true /\
  allScoresLeq (Ctx.mk r port highway rail pipeline false d zoning)
               (Ctx.mk r port highway rail pipeline true d zoning) = true /\
  allScoresLeq (Ctx.mk r port highway rail pipeline powerGrid d false)
               (Ctx.mk r port highway rail pipeline powerGrid d true) = true /\
  allScoresLeq (Ctx.mk r port highway rail pipeline powerGrid high zoning)
               (Ctx.mk r port highway rail pipeline powerGrid medium zoning) = true /\
  allScoresLeq (Ctx.mk r port highway rail pipeline powerGrid medium zoning)
               (Ctx.mk r port highway rail pipeline powerGrid low zoning) = true.
Proof.
  destruct r, port, highway, rail, pipeline, powerGrid, zoning, d;
    vm_compute; repeat split; reflexivity.
Qed.

(** *** The overall score of a returned site *)

Lemma boosted_overall_range (context : GeographicContext) (bonus : float) :
  bonus = 3 \/ bonus = 13 \/ bonus = 23 ->
  between 49 99
    (weightedOverallScore SCORING_WEIGHTS (boostedScores bonus (contextScores context)))
  = true.
Proof.
  intros Hb.
  destruct context as [[] [] [] [] [] [] [] []];
    destruct Hb as [->|[->| ->]]; vm_compute; reflexivity.
Qed.

Lemma candidate_overall_range (a : AceticAcidFacility) (c : CO2EmitterFacility)
    (k n : nat) :
  (49 <=? Site.overallScore (candidateSite SCORING_WEIGHTS a c k n)) = true /\
  (Site.overallScore (candidateSite SCORING_WEIGHTS a c k n) <=? 99) = true.
Proof.
  rewrite candidateSite_overallScore.
  pose proof (boosted_overall_range (pairContext a c n) _ (single_pair_bonus a c)) as H.
  revert H.
  generalize (weightedOverallScore SCORING_WEIGHTS
                (boostedScores (analyzeFacilitySynergies [a] [c])
                   (contextScores (pairContext a c n)))).
  intros o H. apply andb_prop in H. exact H.
Qed.

(** X5.  The overall score of a returned site is between 49 and 99: no
    site scores 100, and none scores below 49. *)
Theorem returned_overall_range
    (acetics : list AceticAcidFacility) (cs : list CO2EmitterFacility)
    (maxDistance minScore : float) (s : OverlapSite) :
  In s (generateSiteRecommendations acetics cs maxDistance minScore) ->
  (49 <=? Site.overallScore s) = true /\ (Site.overallScore s <=? 99) = true.
Proof.
  intros Hin. unfold generateSiteRecommendations in Hin.
  apply generated_site in Hin as (a & c & k & n & _ & _ & -> & _ & _).
  apply candidate_overall_range.
Qed.

(** X6.  A run returns the empty array when [minScore] is above 99 or is
    NaN ([minScore <= 99] is false), and when [maxDistance] is NaN
    ([maxDistance <= maxDistance] is false). *)
Theorem thresholds_that_return_nothing
    (acetics : list AceticAcidFacility) (cs : list CO2EmitterFacility)
    (maxDistance minScore : float) :
  (minScore <=? 99) = false \/ (maxDistance <=? maxDistance) = false ->
  generateSiteRecommendations acetics cs maxDistance minScore = [].
Proof.
  intros H. unfold generateSiteRecommendations.
  destruct (generateSites SCORING_WEIGHTS maxDistance minScore acetics cs)
    as [|s l] eqn:E; [reflexivity|exfalso].
  assert (Hin : In s (generateSites SCORING_WEIGHTS maxDistance minScore acetics cs))
    by (rewrite E; left; reflexivity).
  apply generated_site in Hin as (a & c & k & n & _ & _ & Hs & Hd & Ho).
  destruct H as [H|H].
  - destruct (candidate_overall_range a c k n) as [_ Hr]. rewrite <- Hs in Hr.
    revert Ho Hr. generalize (Site.overallScore s). intros o Ho Hr.
    rewrite (float_leb_trans _ _ _ Ho Hr) in H. discriminate.
  - rewrite (leb_refl_r _ _ Hd) in H. discriminate.
Qed.

Lemma contributors_emissionSite (w : Weights.t) (e : Emission) :
  contributors (emissionSite w e) =
  ([Acetic.id (emissionPair e).1], [CO2.id (emissionPair e).2]).
Proof. reflexivity. Qed.

(** X7.  With [minScore] at most 49 the score test drops nothing: the run
    returns one site for each pair within [maxDistance], with the ids of the
    pair as its contributors. *)
Theorem low_minScore_keeps_every_pair
    (acetics : list AceticAcidFacility) (cs : list CO2EmitterFacility)
    (maxDistance minScore : float) :
  (minScore <=? 49) = true ->
  Permutation
    (map contributors (generateSiteRecommendations acetics cs maxDistance minScore))
    (map (fun p => ([Acetic.id p.1], [CO2.id p.2]))
       (List.filter (withinDistance maxDistance) (pairsInOrder acetics cs))) /\
  length (generateSiteRecommendations acetics cs maxDistance minScore) =
  length (List.filter (withinDistance maxDistance) (pairsInOrder acetics cs)).
Proof.
  intros Hm.
  destruct (enumeratePairs_visits SCORING_WEIGHTS maxDistance minScore acetics cs)
    as (vs & Hp & Hs).
  assert (Hall : List.filter (passesScore SCORING_WEIGHTS minScore) vs = vs).
  { apply forallb_filter_id, forallb_forall. intros [[[a c] k] n] _.
    unfold passesScore, emissionSite. cbn [fst snd].
    destruct (candidate_overall_range a c k n) as [Hlo _]. revert Hlo.
    generalize (Site.overallScore (candidateSite SCORING_WEIGHTS a c k n)).
    intros o Hlo. exact (float_leb_trans _ _ _ Hm Hlo). }
  rewrite Hall in Hs.
  assert (Hperm : Permutation
            (generateSiteRecommendations acetics cs maxDistance minScore)
            (map (emissionSite SCORING_WEIGHTS) vs)).
  { unfold generateSiteRecommendations, generateSites.
    rewrite Array_sort_Permutation, Hs. reflexivity. }
  split.
  - rewrite Hperm, <- Hp, !map_map. apply Permutation_refl.
  - rewrite (Permutation_length Hperm), <- Hp, !length_map. reflexivity.
Qed.

(** *** Sorting again, mapping and filtering *)

Lemma sort_insert_map {A B : Type} (f : A -> B) (comparefn : A -> A -> float)
    (comparefn' : B -> B -> float) (x : A) (l : list A) :
  (forall x y, comparefn' (f x) (f y) = comparefn x y) ->
  map f (sort_insert comparefn x l) = sort_insert comparefn' (f x) (map f l).
Proof.
  intros Hf. induction l as [|y l IH]; cbn [sort_insert map].
  - reflexivity.
  - rewrite Hf. destruct (0 <? comparefn x y); cbn [map]; [rewrite IH|]; reflexivity.
Qed.

Lemma Array_sort_map {A B : Type} (f : A -> B) (comparefn : A -> A -> float)
    (comparefn' : B -> B -> float) (l : list A) :
  (forall x y, comparefn' (f x) (f y) = comparefn x y) ->
  map f (Array_sort comparefn l) = Array_sort comparefn' (map f l).
Proof.
  intros Hf. induction l as [|x l IH]; cbn [Array_sort map].
  - reflexivity.
  - rewrite (sort_insert_map f comparefn comparefn' _ _ Hf), IH. reflexivity.
Qed.

Section SortedArrays.

Context {A : Type}.
Variable comparefn : A -> A -> float.
Variable P : A -> Prop.
Variable R : A -> A -> Prop.
Hypothesis after_spec : forall x y, P x -> P y -> (0 <? comparefn x y) = true -> R y x.
Hypothesis not_after_spec : forall x y, P x -> P y -> (0 <? comparefn x y) = false -> R x y.
Hypothesis R_trans : forall x y z, P x -> P y -> P z -> R x y -> R y z -> R x z.
Hypothesis R_not_after : forall x y, P x -> P y -> R x y -> (0 <? comparefn x y) = false.

Lemma sort_insert_before_all (x : A) (l : list A) :
  P x -> Forall P l -> Forall (R x) l -> sort_insert comparefn x l = x :: l.
Proof using R_not_after.
  intros Hx HP HR. destruct l as [|y l]; [reflexivity|].
  apply Forall_cons in HP as [Hy _]. apply Forall_cons in HR as [Hxy _].
  cbn [sort_insert]. rewrite (R_not_after x y Hx Hy Hxy). reflexivity.
Qed.

(** Sorting a sorted array returns it. *)
Lemma Array_sort_sorted_id (l : list A) :
  Forall P l -> StronglySorted R l -> Array_sort comparefn l = l.
Proof using R_not_after.
  induction l as [|x l IH]; intros HP Hs; [reflexivity|].
  apply Forall_cons in HP as [Hx HP]. apply StronglySorted_inv in Hs as [Hs Hx_l].
  cbn [Array_sort]. rewrite (IH HP Hs).
  apply sort_insert_before_all; assumption.
Qed.

Lemma sort_insert_filter_commute (q : A -> bool) (x : A) (l : list A) :
  P x -> Forall P l -> StronglySorted R l ->
  List.filter q (sort_insert comparefn x l) =
  if q x then sort_insert comparefn x (List.filter q l) else List.filter q l.
Proof using not_after_spec R_trans R_not_after.
  intros Hx HP Hs. induction l as [|y l IH]; cbn [sort_insert List.filter].
  - destruct (q x); reflexivity.
  - apply Forall_cons in HP as [Hy HP]. apply StronglySorted_inv in Hs as [Hs Hy_l].
    destruct (0 <? comparefn x y) eqn:Hc.
    + cbn [List.filter]. rewrite (IH HP Hs).
      destruct (q x), (q y); cbn [sort_insert]; rewrite ?Hc; reflexivity.
    + cbn [List.filter]. destruct (q x); [|reflexivity].
      symmetry. apply sort_insert_before_all; [assumption| |].
      * destruct (q y); [constructor; [assumption|]|];
          apply List.Forall_forall; intros z Hz; apply filter_In in Hz as [Hz _];
          rewrite List.Forall_forall in HP; auto.
      * pose proof (not_after_spec x y Hx Hy Hc) as Hxy.
        assert (Hall : Forall (R x) (y :: l)).
        { constructor; [assumption|]. rewrite List.Forall_forall in *.
          intros z Hz. apply (R_trans x y z); auto. }
        change (if q y then y :: List.filter q l else List.filter q l)
          with (List.filter q (y :: l)).
        rewrite List.Forall_forall in *. intros z Hz.
        apply filter_In in Hz as [Hz _]. auto.
Qed.

(** Filtering commutes with the sort. *)
Lemma Array_sort_filter_commute (q : A -> bool) (l : list A) :
  Forall P l ->
  List.filter q (Array_sort comparefn l) = Array_sort comparefn (List.filter q l).
Proof using after_spec not_after_spec R_trans R_not_after.
  induction l as [|x l IH]; intros HP; [reflexivity|].
  apply Forall_cons in HP as [Hx HP]. cbn [Array_sort List.filter].
  rewrite sort_insert_filter_commute; [|assumption| |].
  - rewrite (IH HP). destruct (q x); reflexivity.
  - rewrite Array_sort_Permutation. assumption.
  - apply (Array_sort_sorted comparefn P R); assumption.
Qed.

End SortedArrays.

Lemma byOverallScore_before (x y : OverlapSite) :
  is_score (Site.overallScore x) = true -> is_score (Site.overallScore y) = true ->
  (Site.overallScore y <=? Site.overallScore x) = true ->
  (0 <? byOverallScore x y) = false.
Proof.
  unfold byOverallScore. intros Hx Hy.
  apply is_score_spec in Hx as (i & Hi & ->).
  apply is_score_spec in Hy as (j & Hj & ->).
  pose proof (score_table_spec i j Hi Hj) as H. unfold score_table in H.
  rewrite !andb_true_iff in H. destruct H as [[H1 _] _].
  pose proof (score_table_spec j i Hj Hi) as H'. unfold score_table in H'.
  rewrite !andb_true_iff in H'. destruct H' as [[_ H2] _].
  apply Bool.eqb_prop in H1, H2. rewrite H1, H2.
  intros Hle. apply Nat.leb_le in Hle. apply Nat.ltb_ge. lia.
Qed.

(** *** Raising [minScore] *)

Lemma overallScore_withId (id : string) (s : OverlapSite) :
  Site.overallScore (withId id s) = Site.overallScore s.
Proof. reflexivity. Qed.

Lemma withId_candidateSite (id : string) (w : Weights.t) (a : AceticAcidFacility)
    (c : CO2EmitterFacility) (k k' n : nat) :
  withId id (candidateSite w a c k n) = withId id (candidateSite w a c k' n).
Proof.
  unfold withId, candidateSite. cbv zeta.
  cbn [Site.latitude Site.longitude Site.aceticAcidFacilities Site.co2EmitterFacilities
       Site.distance Site.governmentalScore Site.logisticsScore
       Site.policyIncentivesScore Site.communityReadinessScore Site.overallScore].
  reflexivity.
Qed.

Lemma byOverallScore_withId (id : string) (x y : OverlapSite) :
  byOverallScore (withId id x) (withId id y) = byOverallScore x y.
Proof. reflexivity. Qed.

Section Raising.

Variable w : Weights.t.
Variables maxDistance minScore minScore' : float.
Hypothesis raise : (minScore <=? minScore') = true.

Lemma pairStep_raised (a : AceticAcidFacility) (c : CO2EmitterFacility)
    (st st' : Gen.t) :
  raised minScore' st st' ->
  raised minScore'
    (pairStep w maxDistance minScore a c st) (pairStep w maxDistance minScore' a c st').
Proof using raise.
  intros [Hd Hs]. rewrite !pairStep_eq, Hd.
  destruct (pairDistance a c <=? maxDistance); [|split; assumption].
  cbv zeta. rewrite !candidateSite_overallScore.
  pose proof (withId_candidateSite EmptyString w a c (Gen.siteId st') (Gen.siteId st)
                (Gen.drawn st)) as Hid.
  pose proof (candidateSite_overallScore w a c (Gen.siteId st) (Gen.drawn st)) as Ho.
  revert Hid Ho.
  generalize (candidateSite w a c (Gen.siteId st') (Gen.drawn st)).
  generalize (candidateSite w a c (Gen.siteId st) (Gen.drawn st)).
  generalize (weightedOverallScore w
                (boostedScores (analyzeFacilitySynergies [a] [c])
                   (contextScores (pairContext a c (Gen.drawn st))))).
  intros o s s' Hid Ho.
  assert (Hpush : List.filter (fun s => minScore' <=? Site.overallScore s)
                    (map (withId EmptyString) (Gen.sites st ++ [s])) =
                  map (withId EmptyString) (Gen.sites st') ++
                  (if minScore' <=? o then [withId EmptyString s'] else [])).
  { rewrite map_app, List.filter_app, <- Hs. cbn [map List.filter].
    rewrite overallScore_withId, Ho, Hid. reflexivity. }
  destruct (minScore' <=? o) eqn:Ho'.
  - rewrite (float_leb_trans _ _ _ raise Ho').
    split; [reflexivity|]. cbn [Gen.sites]. rewrite Hpush, map_app. reflexivity.
  - destruct (minScore <=? o); (split; [reflexivity|]); cbn [Gen.sites].
    + rewrite Hpush, app_nil_r. reflexivity.
    + exact Hs.
Qed.

Lemma inner_raised (a : AceticAcidFacility) (cs : list CO2EmitterFacility)
    (st st' : Gen.t) :
  raised minScore' st st' ->
  raised minScore'
    (fold_left (fun st c => pairStep w maxDistance minScore a c st) cs st)
    (fold_left (fun st c => pairStep w maxDistance minScore' a c st) cs st').
Proof using raise.
  revert st st'. induction cs as [|c cs IH]; intros st st' H; [exact H|].
  cbn [fold_left]. apply IH, pairStep_raised, H.
Qed.

Lemma enumeratePairs_raised (acetics : list AceticAcidFacility)
    (cs : list CO2EmitterFacility) :
  raised minScore'
    (enumeratePairs w maxDistance minScore acetics cs)
    (enumeratePairs w maxDistance minScore' acetics cs).
Proof using raise.
  unfold enumeratePairs.
  assert (Hgen : forall st st', raised minScore' st st' ->
            raised minScore'
              (fold_left
                 (fun st a => fold_left (fun st c => pairStep w maxDistance minScore a c st)
                                cs st) acetics st)
              (fold_left
                 (fun st a => fold_left (fun st c => pairStep w maxDistance minScore' a c st)
                                cs st) acetics st')).
  { induction acetics as [|a l IH]; intros st st' H; [exact H|].
    cbn [fold_left]. apply IH, inner_raised, H. }
  apply Hgen. split; reflexivity.
Qed.

End Raising.

(** X8.  Raising [minScore] only removes sites: apart from the ids, which
    number the sites that are kept, the run with the higher [minScore']
    returns the sites of the run with [minScore] whose overall score is at
    least [minScore'], in the same order. *)
Theorem raising_minScore_filters
    (acetics : list AceticAcidFacility) (cs : list CO2EmitterFacility)
    (maxDistance minScore minScore' : float) :
  (minScore <=? minScore') = true ->
  map (withId EmptyString)
    (generateSiteRecommendations acetics cs maxDistance minScore') =
  List.filter (fun s => minScore' <=? Site.overallScore s)
    (map (withId EmptyString)
       (generateSiteRecommendations acetics cs maxDistance minScore)).
Proof.
  intros Hm. unfold generateSiteRecommendations, generateSites.
  destruct (enumeratePairs_raised SCORING_WEIGHTS maxDistance minScore minScore' Hm
              acetics cs) as [_ Hs].
  pose proof (enumerated_scores maxDistance minScore acetics cs) as HP.
  revert Hs HP.
  generalize (Gen.sites (enumeratePairs SCORING_WEIGHTS maxDistance minScore' acetics cs)).
  generalize (Gen.sites (enumeratePairs SCORING_WEIGHTS maxDistance minScore acetics cs)).
  intros l l' Hs HP.
  rewrite !(Array_sort_map (withId EmptyString) byOverallScore byOverallScore)
    by apply byOverallScore_withId.
  rewrite Hs. symmetry.
  apply (Array_sort_filter_commute byOverallScore
           (fun s => is_score (Site.overallScore s) = true)
           (fun s1 s2 => (Site.overallScore s2 <=? Site.overallScore s1) = true)).
  - apply byOverallScore_after.
  - apply byOverallScore_not_after.
  - apply byOverallScore_trans.
  - apply byOverallScore_before.
  - apply List.Forall_forall. intros s Hin. apply in_map_iff in Hin as (s0 & <- & Hin).
    rewrite overallScore_withId. rewrite List.Forall_forall in HP. auto.
Qed.

(** *** Size of the result and site ids *)

Lemma pairsInOrder_length (acetics : list AceticAcidFacility)
    (cs : list CO2EmitterFacility) :
  length (pairsInOrder acetics cs) = (length acetics * length cs)%nat.
Proof.
  unfold pairsInOrder. induction acetics as [|a l IH]; [reflexivity|].
  cbn [flat_map length]. rewrite length_app, length_map, IH. lia.
Qed.

Lemma site_name_inj (n m : nat) : site_name n = site_name m -> n = m.
Proof.
  intros H.
  assert (Hname : forall k, site_name k =
            String "s" (String "i" (String "t" (String "e" (String "-"
              (NilEmpty.string_of_uint (Nat.to_uint k)))))))
    by reflexivity.
  rewrite !Hname in H. injection H as H.
  assert (Hu : Nat.to_uint n = Nat.to_uint m).
  { pose proof (NilEmpty.usu (Nat.to_uint n)) as Hn.
    pose proof (NilEmpty.usu (Nat.to_uint m)) as Hm.
    rewrite H in Hn. rewrite Hn in Hm. injection Hm as Hm. exact Hm. }
  rewrite <- (DecimalNat.Unsigned.of_to n), <- (DecimalNat.Unsigned.of_to m), Hu.
  reflexivity.
Qed.

(** X9.  A run returns at most one site for each pair of an acetic facility
    and a CO2 facility, and the ids of the returned sites are pairwise
    distinct. *)
Theorem returned_sites_bounded_and_distinct
    (acetics : list AceticAcidFacility) (cs : list CO2EmitterFacility)
    (maxDistance minScore : float) :
  (length (generateSiteRecommendations acetics cs maxDistance minScore)
   <= length acetics * length cs)%nat /\
  NoDup (map Site.id (generateSiteRecommendations acetics cs maxDistance minScore)).
Proof.
  unfold generateSiteRecommendations, generateSites.
  destruct (enumeratePairs_trace SCORING_WEIGHTS maxDistance minScore acetics cs)
    as (es & Hs & Hn & Hp & _).
  pose proof (Array_sort_Permutation byOverallScore
                (Gen.sites (enumeratePairs SCORING_WEIGHTS maxDistance minScore acetics cs)))
    as Hperm.
  split.
  - rewrite (Permutation_length Hperm), Hs, length_map.
    apply sublist_length in Hp. rewrite length_map, pairsInOrder_length in Hp. exact Hp.
  - rewrite Hperm, Hs, map_map.
    assert (Hids : map (fun e => Site.id (emissionSite SCORING_WEIGHTS e)) es =
                   map site_name (map emissionNumber es)).
    { rewrite map_map. reflexivity. }
    rewrite Hids, Hn.
    apply NoDup_fmap_2_strong; [|apply NoDup_seq].
    intros n m _ _. apply site_name_inj.
Qed.

(** *** The distance in binary64 *)

(** X10.  In binary64 arithmetic the distance from A to B is the distance
    from B to A, bit for bit and for all doubles, whenever [Math.sin] is
    odd ([sin (-x) = - sin x]); nothing is asked of [Math.cos],
    [Math.atan2] or [Math.sqrt]. *)
Theorem distance_symmetric_in_binary64 (lat1 lon1 lat2 lon2 : float) :
  (forall x, Math_sin (- x) = - Math_sin x) ->
  calculateDistance lat1 lon1 lat2 lon2 = calculateDistance lat2 lon2 lat1 lon1.
Proof.
  intros Hodd. unfold calculateDistance.
  (* the two differences are equal or opposite, and so are their sines *)
  pose proof (half_angle_swap _ _ Hodd (float_sub_swap lat2 lat1)) as Hlat.
  pose proof (half_angle_swap _ _ Hodd (float_sub_swap lon2 lon1)) as Hlon.
  set (sLat := Math_sin ((lat2 - lat1) * Math_PI / 180 / 2)) in *.
  set (sLon := Math_sin ((lon2 - lon1) * Math_PI / 180 / 2)) in *.
  set (sLat' := Math_sin ((lat1 - lat2) * Math_PI / 180 / 2)) in *.
  set (sLon' := Math_sin ((lon1 - lon2) * Math_PI / 180 / 2)) in *.
  set (c1 := Math_cos (lat1 * Math_PI / 180)).
  set (c2 := Math_cos (lat2 * Math_PI / 180)).
  (* the signs cancel in the squares, and the product of the cosines commutes *)
  assert (Ha : sLat * sLat + c1 * c2 * sLon * sLon =
               sLat' * sLat' + c2 * c1 * sLon' * sLon').
  { rewrite (float_mul_comm c2 c1).
    destruct Hlat as [->| ->], Hlon as [->| ->];
      repeat (rewrite float_mul_opp_l || rewrite float_mul_opp_r ||
              rewrite float_opp_involutive);
      reflexivity. }
  cbv zeta. rewrite Ha. reflexivity.
Qed.

(** *** The bonus of a pair *)

Lemma float_ltb_add_0_l (k x : float) : (k <? 0 + x) = (k <? x).
Proof.
  rewrite !FloatAxioms.ltb_spec, FloatAxioms.add_spec.
  change (Prim2SF 0) with (S754_zero false).
  destruct (Prim2SF x) as [s|s| |s m e]; try reflexivity.
  destruct s; reflexivity.
Qed.

(** X11.  The engine calls [analyzeFacilitySynergies] with one facility on
    each side, so the bonus of a pair is 3, plus 10 when the capacity of the
    acetic facility is above 400,000 and plus 10 when the emission rate of
    the CO2 facility is above 2,000,000: it does not depend on the facility
    type, and the caps at 15 and at 25 never apply. *)
Theorem single_pair_synergy (a : AceticAcidFacility) (c : CO2EmitterFacility) :
  analyzeFacilitySynergies [a] [c] =
  match 400000 <? Acetic.capacity a, 2000000 <? CO2.co2EmissionRate c with
  | true, true => 23
  | false, false => 3
  | _, _ => 13
  end.
Proof.
  unfold analyzeFacilitySynergies. cbn [fold_left map].
  rewrite !float_ltb_add_0_l.
  destruct (400000 <? Acetic.capacity a);
    destruct (2000000 <? CO2.co2EmissionRate c);
    destruct (CO2.facilityType c); vm_compute; reflexivity.
Qed.

Lemma boosted_scores_fractional (context : GeographicContext) (bonus : float) :
  bonus = 3 \/ bonus = 13 \/ bonus = 23 ->
  let scores := boostedScores bonus (contextScores context) in
  (Leibniz.eqb (Factors.governmental scores) 100
   || negb (isInteger (Factors.governmental scores))) &&
  (Leibniz.eqb (Factors.logistics scores) 100
   || negb (isInteger (Factors.logistics scores))) &&
  isInteger (Factors.policyIncentives scores) &&
  isInteger (Factors.communityReadiness scores) = true.
Proof.
  intros Hb.
  destruct context as [[] [] [] [] [] [] [] []];
    destruct Hb as [->|[->| ->]]; vm_compute; reflexivity.
Qed.

(** X12.  The boost leaves fractions: the governmental and the logistics
    score of a returned site are 100 (the cap) or not integers, as the
    boosts are the doubles of 0.9, 3.9 or 6.9 and of 1.2, 5.2 or 9.2 added to
    an integer; its policy incentives and community readiness scores are
    integers. *)
Theorem boosted_scores_are_fractional
    (acetics : list AceticAcidFacility) (cs : list CO2EmitterFacility)
    (maxDistance minScore : float) (s : OverlapSite) :
  In s (generateSiteRecommendations acetics cs maxDistance minScore) ->
  (Site.governmentalScore s = 100 \/ isInteger (Site.governmentalScore s) = false) /\
  (Site.logisticsScore s = 100 \/ isInteger (Site.logisticsScore s) = false) /\
  isInteger (Site.policyIncentivesScore s) = true /\
  isInteger (Site.communityReadinessScore s) = true.
Proof.
  intros Hin. unfold generateSiteRecommendations in Hin.
  apply generated_site in Hin as (a & c & k & n & _ & _ & -> & _ & _).
  destruct (candidateSite_subScores SCORING_WEIGHTS a c k n) as (-> & -> & -> & ->).
  pose proof (boosted_scores_fractional (pairContext a c n) _ (single_pair_bonus a c)) as H.
  revert H.
  generalize (boostedScores (analyzeFacilitySynergies [a] [c])
                (contextScores (pairContext a c n))).
  intros [g l p q]. cbv zeta.
  cbn [Factors.governmental Factors.logistics Factors.policyIncentives
       Factors.communityReadiness].
  rewrite !andb_true_iff, !orb_true_iff, !negb_true_iff.
  intros [[[Hg Hl] Hp] Hq].
  split; [destruct Hg as [Hg|Hg]; [left; apply Leibniz.eqb_spec, Hg|right; exact Hg]|].
  split; [destruct Hl as [Hl|Hl]; [left; apply Leibniz.eqb_spec, Hl|right; exact Hl]|].
  split; assumption.
Qed.

(** *** The fields that the engine reads *)

Lemma single_pair_bonus_eq (a a' : AceticAcidFacility) (c c' : CO2EmitterFacility) :
  Acetic.capacity a = Acetic.capacity a' ->
  CO2.co2EmissionRate c = CO2.co2EmissionRate c' ->
  analyzeFacilitySynergies [a] [c] = analyzeFacilitySynergies [a'] [c'].
Proof.
  intros Ha Hc. unfold analyzeFacilitySynergies. cbn [fold_left map].
  rewrite Ha, Hc.
  assert (Hsize : forall t : FacilityType, size (list_to_set [t] : gset FacilityType) = 1%nat)
    by (intros []; reflexivity).
  rewrite !Hsize. reflexivity.
Qed.

Lemma pairStep_inputs (w : Weights.t) (maxDistance minScore : float)
    (a a' : AceticAcidFacility) (c c' : CO2EmitterFacility) (st : Gen.t) :
  sameAceticInputs a a' -> sameCO2Inputs c c' ->
  pairStep w maxDistance minScore a c st = pairStep w maxDistance minScore a' c' st.
Proof.
  intros (Ha1 & Ha2 & Ha3 & Ha4) (Hc1 & Hc2 & Hc3 & Hc4).
  rewrite !pairStep_eq.
  assert (Hd : pairDistance a c = pairDistance a' c')
    by (unfold pairDistance; rewrite Ha2, Ha3, Hc2, Hc3; reflexivity).
  assert (Hlat : optimalLat a c = optimalLat a' c')
    by (unfold optimalLat, weightedMidpoint; rewrite Ha2, Ha4, Hc2, Hc4; reflexivity).
  assert (Hlon : optimalLon a c = optimalLon a' c')
    by (unfold optimalLon, weightedMidpoint; rewrite Ha3, Ha4, Hc3, Hc4; reflexivity).
  assert (Hs : forall k n, candidateSite w a c k n = candidateSite w a' c' k n).
  { intros k n. unfold candidateSite, pairContext.
    rewrite (single_pair_bonus_eq a a' c c' Ha4 Hc4), Hd, Hlat, Hlon, Ha1, Hc1.
    reflexivity. }
  assert (Hn : forall n, drawnAfter a c n = drawnAfter a' c' n)
    by (intros n; unfold drawnAfter; rewrite Hlat, Hlon; reflexivity).
  rewrite Hd, Hs, Hn. reflexivity.
Qed.

(** X13.  The engine reads the id, the coordinates and the capacity of an
    acetic facility and the id, the coordinates and the emission rate of a
    CO2 facility, and nothing else: two runs on lists that agree on these
    fields return the same array.  The operational status, the name, the
    facility type and the update time have no effect; an inactive or a
    planned facility is paired like an active one. *)
Theorem engine_reads_only_its_inputs
    (acetics acetics' : list AceticAcidFacility) (cs cs' : list CO2EmitterFacility)
    (maxDistance minScore : float) :
  Forall2 sameAceticInputs acetics acetics' ->
  Forall2 sameCO2Inputs cs cs' ->
  generateSiteRecommendations acetics cs maxDistance minScore =
  generateSiteRecommendations acetics' cs' maxDistance minScore.
Proof.
  intros Ha Hc. unfold generateSiteRecommendations, generateSites, enumeratePairs.
  f_equal. f_equal.
  generalize {| Gen.sites := []; Gen.siteId := 1; Gen.drawn := 0 |}.
  induction Ha as [|a a' acetics acetics' Haa Ha IH]; intros st; [reflexivity|].
  cbn [fold_left].
  assert (Hinner : forall st,
            fold_left (fun st c => pairStep SCORING_WEIGHTS maxDistance minScore a c st) cs st =
            fold_left (fun st c => pairStep SCORING_WEIGHTS maxDistance minScore a' c st)
              cs' st).
  { clear IH. induction Hc as [|c c' cs cs' Hcc Hc IHc]; intros st'; [reflexivity|].
    cbn [fold_left]. rewrite (pairStep_inputs _ _ _ a a' c c' st' Haa Hcc). apply IHc. }
  rewrite Hinner. apply IH.
Qed.

(** *** The returned array under the dashboard and the filters *)

Lemma float_ltb_negb_leb (x y : float) :
  (x <=? x) = true -> (y <=? y) = true -> (x <? y) = negb (y <=? x).
Proof.
  intros Hx Hy. destruct (y <=? x) eqn:E; cbn [negb].
  - apply float_leb_ltb_false, E.
  - apply float_leb_false_ltb; assumption.
Qed.

Lemma returned_scores (acetics : list AceticAcidFacility) (cs : list CO2EmitterFacility)
    (maxDistance minScore : float) :
  Forall (fun s => is_score (Site.overallScore s) = true)
    (generateSiteRecommendations acetics cs maxDistance minScore).
Proof.
  unfold generateSiteRecommendations, generateSites.
  rewrite Array_sort_Permutation. apply enumerated_scores.
Qed.

Lemma returned_sorted (acetics : list AceticAcidFacility) (cs : list CO2EmitterFacility)
    (maxDistance minScore : float) :
  StronglySorted
    (fun s1 s2 => (Site.overallScore s2 <=? Site.overallScore s1) = true)
    (generateSiteRecommendations acetics cs maxDistance minScore).
Proof.
  unfold generateSiteRecommendations, generateSites.
  eapply Array_sort_sorted; [| | |apply enumerated_scores].
  - apply byOverallScore_after.
  - apply byOverallScore_not_after.
  - apply byOverallScore_trans.
Qed.

Lemma quality_classes_partition (sites : list OverlapSite) :
  Forall (fun s => (49 <=? Site.overallScore s) = true) sites ->
  (AnalyticsPanel.excellentSites sites + AnalyticsPanel.goodSites sites +
   AnalyticsPanel.fairSites sites = length sites)%nat.
Proof.
  unfold AnalyticsPanel.excellentSites, AnalyticsPanel.goodSites,
    AnalyticsPanel.fairSites.
  induction 1 as [|s sites Hs _ IH]; [reflexivity|].
  cbn [List.filter length]. revert Hs. generalize (Site.overallScore s). intros o Ho.
  assert (Hoo : (o <=? o) = true) by exact (leb_refl_r _ _ Ho).
  rewrite !(float_ltb_negb_leb o) by (assumption || reflexivity).
  assert (H40 : (40 <=? o) = true)
    by (eapply float_leb_trans; [|exact Ho]; reflexivity).
  rewrite H40.
  destruct (80 <=? o) eqn:H80.
  - assert (H60 : (60 <=? o) = true)
      by (eapply float_leb_trans; [|exact H80]; reflexivity).
    rewrite H60. cbn [negb andb length]. lia.
  - destruct (60 <=? o); cbn [negb andb length]; lia.
Qed.

(** X14.  The analytics panel on the array that the engine returns: every
    site is counted in exactly one of the three quality classes (excellent
    from 80, good from 60, fair from 40), so the three counts add up to the
    number of sites; and the site shown as top ranked, the first of the
    array, has the highest overall score.  There is no top site exactly when
    the array is empty. *)
Theorem analytics_panel_on_returned_sites
    (acetics : list AceticAcidFacility) (cs : list CO2EmitterFacility)
    (maxDistance minScore : float) :
  let overlapSites := generateSiteRecommendations acetics cs maxDistance minScore in
  (AnalyticsPanel.excellentSites overlapSites + AnalyticsPanel.goodSites overlapSites +
   AnalyticsPanel.fairSites overlapSites = length overlapSites)%nat /\
  (forall topSite, AnalyticsPanel.topSite overlapSites = Some topSite ->
     In topSite overlapSites /\
     forall s, In s overlapSites ->
       (Site.overallScore s <=? Site.overallScore topSite) = true) /\
  (AnalyticsPanel.topSite overlapSites = None <-> overlapSites = []).
Proof.
  intros overlapSites. split; [|split].
  - apply quality_classes_partition. apply List.Forall_forall. intros s Hin.
    unfold overlapSites, generateSiteRecommendations in Hin.
    apply generated_site in Hin as (a & c & k & n & _ & _ & -> & _ & _).
    exact (proj1 (candidate_overall_range a c k n)).
  - pose proof (returned_sorted acetics cs maxDistance minScore) as Hsorted.
    pose proof (returned_scores acetics cs maxDistance minScore) as Hscores.
    fold overlapSites in Hsorted, Hscores.
    destruct overlapSites as [|s0 l]; [discriminate|].
    intros topSite Htop. injection Htop as <-.
    split; [left; reflexivity|]. intros s [<-|Hin].
    + apply Forall_cons in Hscores as [Hs0 _].
      apply is_score_spec in Hs0 as (k & Hk & ->).
      pose proof (score_table_spec k k Hk Hk) as H. unfold score_table in H.
      rewrite !andb_true_iff in H. destruct H as [[_ H] _].
      apply Bool.eqb_prop in H. rewrite H. apply Nat.leb_refl.
    + apply StronglySorted_inv in Hsorted as [_ Hall].
      rewrite List.Forall_forall in Hall. exact (Hall s Hin).
  - destruct overlapSites; split; intros; try discriminate; reflexivity.
Qed.

(** X15.  The sort of the ranking table in its initial setting, by overall
    score and descending, applied to the array that the engine returns,
    changes nothing: the sites stay in the order of the engine. *)
Theorem ranking_table_keeps_engine_order
    (acetics : list AceticAcidFacility) (cs : list CO2EmitterFacility)
    (maxDistance minScore : float) :
  SiteRankingTable.sortSites SiteRankingTable.overallScore SiteRankingTable.desc
    (generateSiteRecommendations acetics cs maxDistance minScore) =
  generateSiteRecommendations acetics cs maxDistance minScore.
Proof.
  unfold SiteRankingTable.sortSites.
  change (SiteRankingTable.compareSites SiteRankingTable.overallScore
            SiteRankingTable.desc) with byOverallScore.
  apply (Array_sort_sorted_id byOverallScore
           (fun s => is_score (Site.overallScore s) = true)
           (fun s1 s2 => (Site.overallScore s2 <=? Site.overallScore s1) = true)).
  - apply byOverallScore_before.
  - apply returned_scores.
  - apply returned_sorted.
Qed.

(** X16.  Filtering the returned array again by the overall score, with a
    criterion that is at most the [minScore] of the run, removes nothing. *)
Theorem filterSitesByScore_after_engine
    (acetics : list AceticAcidFacility) (cs : list CO2EmitterFacility)
    (maxDistance minScore minOverall : float) :
  (minOverall <=? minScore) = true ->
  DataFilter.filterSitesByScore
    (generateSiteRecommendations acetics cs maxDistance minScore)
    (DataFilter.Criteria.mk (Some minOverall) None None None None) =
  generateSiteRecommendations acetics cs maxDistance minScore.
Proof.
  intros Hm. unfold DataFilter.filterSitesByScore.
  apply forallb_filter_id, forallb_forall. intros s Hin.
  unfold generateSiteRecommendations in Hin.
  apply generated_site in Hin as (a & c & k & n & _ & _ & _ & _ & Ho).
  cbn [DataFilter.Criteria.minOverall DataFilter.Criteria.minGovernmental
       DataFilter.Criteria.minLogistics DataFilter.Criteria.minPolicyIncentives
       DataFilter.Criteria.minCommunityReadiness DataFilter.below].
  revert Ho. generalize (Site.overallScore s). intros o Ho.
  rewrite (float_leb_ltb_false _ _ (float_leb_trans _ _ _ Hm Ho)), andb_false_r.
  reflexivity.
Qed.

(** *** The statistics of the returned array *)

Lemma is_score_number (x : float) : is_score x = true -> (x <=? x) = true.
Proof.
  intros Hx. apply is_score_spec in Hx as (k & Hk & ->).
  pose proof (score_table_spec k k Hk Hk) as H. unfold score_table in H.
  rewrite !andb_true_iff in H. destruct H as [[_ H] _].
  apply Bool.eqb_prop in H. rewrite H. apply Nat.leb_refl.
Qed.

Lemma is_score_antisym (x y : float) :
  is_score x = true -> is_score y = true ->
  (x <=? y) = true -> (y <=? x) = true -> x = y.
Proof.
  intros Hx Hy.
  apply is_score_spec in Hx as (i & Hi & ->).
  apply is_score_spec in Hy as (j & Hj & ->).
  pose proof (score_table_spec i j Hi Hj) as H1. unfold score_table in H1.
  pose proof (score_table_spec j i Hj Hi) as H2. unfold score_table in H2.
  rewrite !andb_true_iff in H1, H2.
  destruct H1 as [[_ H1] _], H2 as [[_ H2] _].
  apply Bool.eqb_prop in H1, H2. rewrite H1, H2. rewrite !Nat.leb_le.
  intros Hij Hji. f_equal. lia.
Qed.

Lemma sorted_last_is_least (sites : list OverlapSite) (z : OverlapSite) :
  Forall (fun s => is_score (Site.overallScore s) = true) sites ->
  StronglySorted
    (fun s1 s2 => (Site.overallScore s2 <=? Site.overallScore s1) = true) sites ->
  last sites = Some z ->
  Forall (fun s => (Site.overallScore z <=? Site.overallScore s) = true) sites.
Proof.
  intros Hscores Hsorted. induction Hsorted as [|s l Hs IH Hall]; [discriminate|].
  apply Forall_cons in Hscores as [Hs0 Hscores]. intros Hlast.
  destruct l as [|s' l'].
  - injection Hlast as <-. constructor; [|constructor].
    apply is_score_number, Hs0.
  - assert (Hlast' : last (s' :: l') = Some z) by exact Hlast.
    constructor; [|exact (IH Hscores Hlast')].
    rewrite List.Forall_forall in Hall. apply Hall.
    apply last_Some in Hlast' as (l0 & ->).
    apply in_or_app. right. left. reflexivity.
Qed.

(** X22.  The statistics of the array that the engine returns: there are
    none (null) exactly when no site is returned; otherwise [totalSites] is
    the number of sites, the maximum of the overall scores is the overall
    score of the first site and their minimum that of the last site, and
    both lie between 49 and 99. *)
Theorem site_statistics_on_returned_sites
    (acetics : list AceticAcidFacility) (cs : list CO2EmitterFacility)
    (maxDistance minScore : float) :
  let overlapSites := generateSiteRecommendations acetics cs maxDistance minScore in
  match DataAggregator.calculateSiteStats overlapSites with
  | None => overlapSites = []
  | Some stats =>
      let overall :=
        DataAggregator.ScoreStats.overall (DataAggregator.SiteStats.scoreStats stats) in
      DataAggregator.SiteStats.totalSites stats = length overlapSites /\
      Some (DataAggregator.Stats.max overall) =
        option_map Site.overallScore (head overlapSites) /\
      Some (DataAggregator.Stats.min overall) =
        option_map Site.overallScore (last overlapSites) /\
      (49 <=? DataAggregator.Stats.min overall) = true /\
      (DataAggregator.Stats.max overall <=? 99) = true
  end.
Proof.
  intros overlapSites.
  pose proof (returned_sorted acetics cs maxDistance minScore) as Hsorted.
  pose proof (returned_scores acetics cs maxDistance minScore) as Hscores.
  assert (Hrange : Forall (fun s => (49 <=? Site.overallScore s) = true /\
                                    (Site.overallScore s <=? 99) = true) overlapSites).
  { apply List.Forall_forall. intros s Hin.
    unfold overlapSites, generateSiteRecommendations in Hin.
    apply generated_site in Hin as (a & c & k & n & _ & _ & -> & _ & _).
    exact (candidate_overall_range a c k n). }
  fold overlapSites in Hsorted, Hscores. revert Hsorted Hscores Hrange.
  generalize overlapSites. clear overlapSites. intros sites Hsorted Hscores Hrange.
  destruct sites as [|s0 l] eqn:Esites; [reflexivity|]. rewrite <- Esites in *.
  unfold DataAggregator.calculateSiteStats.
  replace (length sites =? 0)%nat with false by (rewrite Esites; reflexivity).
  cbv zeta.
  cbn [DataAggregator.SiteStats.totalSites DataAggregator.SiteStats.scoreStats
       DataAggregator.ScoreStats.overall].
  unfold DataAggregator.calculateStats.
  cbn [DataAggregator.Stats.max DataAggregator.Stats.min].
  set (values := map Site.overallScore sites).
  assert (Hne : values <> []) by (unfold values; rewrite Esites; discriminate).
  assert (Hnum : Forall (fun v => (v <=? v) = true) values).
  { apply List.Forall_forall. intros v Hv. apply in_map_iff in Hv as (s & <- & Hs).
    rewrite List.Forall_forall in Hscores. apply is_score_number, Hscores, Hs. }
  destruct (maxOf_number values Hne Hnum) as [Hmax_in Hmax].
  destruct (minOf_number values Hne Hnum) as [Hmin_in Hmin].
  apply in_map_iff in Hmax_in as (smax & Emax & Hsmax).
  apply in_map_iff in Hmin_in as (smin & Emin & Hsmin).
  rewrite List.Forall_forall in Hscores, Hrange, Hmax, Hmin.
  split; [reflexivity|]. split; [|split; [|split]].
  - rewrite Esites. cbn [head option_map]. f_equal. rewrite <- Emax.
    apply is_score_antisym.
    + apply Hscores, Hsmax.
    + apply Hscores. rewrite Esites. left. reflexivity.
    + rewrite Esites in Hsorted, Hsmax. destruct Hsmax as [<-|Hin].
      * apply is_score_number, Hscores. rewrite Esites. left. reflexivity.
      * apply StronglySorted_inv in Hsorted as [_ Hall].
        rewrite List.Forall_forall in Hall. exact (Hall _ Hin).
    + rewrite Emax. apply Hmax. unfold values. apply in_map.
      rewrite Esites. left. reflexivity.
  - destruct (last sites) as [z|] eqn:Elast.
    2: { rewrite Esites in Elast. apply last_None in Elast. discriminate. }
    cbn [option_map]. f_equal. rewrite <- Emin.
    assert (Hz : In z sites).
    { apply last_Some in Elast as (l0 & ->). apply in_or_app. right. left. reflexivity. }
    apply is_score_antisym.
    + apply Hscores, Hsmin.
    + apply Hscores, Hz.
    + rewrite Emin. apply Hmin. unfold values. apply in_map, Hz.
    + assert (Hs : Forall (fun s => is_score (Site.overallScore s) = true) sites)
        by (apply List.Forall_forall; exact Hscores).
      pose proof (sorted_last_is_least sites z Hs Hsorted Elast) as Hleast.
      rewrite List.Forall_forall in Hleast. exact (Hleast _ Hsmin).
  - rewrite <- Emin. apply Hrange, Hsmin.
  - rewrite <- Emax. apply Hrange, Hsmax.
Qed.

(** *** The overlap endpoint *)

Lemma getProperty_None (v : JsValue) (key : string) :
  getProperty v key = None <-> v = JsUndefined \/ v = JsNull.
Proof.
  destruct v; cbn [getProperty]; split; intros H; try discriminate; auto;
    destruct H; discriminate.
Qed.

Lemma validateAceticFacility_None (v : JsValue) :
  DataValidator.validateAceticFacility v = None <-> v = JsUndefined \/ v = JsNull.
Proof.
  rewrite <- (getProperty_None v "id"). unfold DataValidator.validateAceticFacility.
  destruct v; cbn [getProperty mbind option_bind]; split; intros H;
    try discriminate; reflexivity.
Qed.

Lemma validateCO2Facility_None (v : JsValue) :
  DataValidator.validateCO2Facility v = None <-> v = JsUndefined \/ v = JsNull.
Proof.
  rewrite <- (getProperty_None v "id"). unfold DataValidator.validateCO2Facility.
  destruct v; cbn [getProperty mbind option_bind]; split; intros H;
    try discriminate; reflexivity.
Qed.

Lemma Array_filter_Some {A : Type} (callback : A -> option bool) (items : list A) :
  Forall (fun x => callback x <> None) items ->
  Array_filter callback items =
  Some (List.filter (fun x => match callback x with Some true => true | _ => false end)
          items).
Proof.
  induction 1 as [|x items Hx _ IH]; [reflexivity|].
  cbn [Array_filter List.filter]. rewrite IH.
  destruct (callback x) as [[]|]; [reflexivity|reflexivity|destruct (Hx eq_refl)].
Qed.

Lemma Array_filter_None {A : Type} (callback : A -> option bool) (items : list A) :
  Exists (fun x => callback x = None) items -> Array_filter callback items = None.
Proof.
  induction 1 as [x items Hx|x items _ IH]; cbn [Array_filter].
  - rewrite Hx. reflexivity.
  - rewrite IH. destruct (callback x); reflexivity.
Qed.

Lemma forallb_false_Exists {A : Type} (p : A -> bool) (l : list A) :
  forallb p l = false -> Exists (fun x => p x = false) l.
Proof.
  induction l as [|x l IH]; cbn [forallb]; [discriminate|].
  destruct (p x) eqn:E; cbn [andb]; intros H; [right; auto|left; exact E].
Qed.

Lemma validFacilities_readable (validate : JsValue -> option bool) (body : JsValue) :
  (forall v, validate v = None <-> v = JsUndefined \/ v = JsNull) ->
  validFacilities validate body =
  if readable body then Some (validated validate body) else None.
Proof.
  intros Hnone. unfold validFacilities, readable, validated, property.
  destruct (getProperty body "data") as [data|]; [|reflexivity].
  cbn [mbind option_bind].
  destruct (truthy data) eqn:Etruthy.
  - destruct data as [| | | | |items|]; try reflexivity.
    destruct (forallb _ items) eqn:Eall.
    + apply Array_filter_Some. apply List.Forall_forall. intros v Hv Hv'.
      rewrite forallb_forall in Eall. specialize (Eall v Hv).
      apply Hnone in Hv' as [-> | ->]; discriminate.
    + apply Array_filter_None. apply forallb_false_Exists in Eall.
      eapply Exists_impl; [exact Eall|]. cbn beta. intros v Hv.
      apply Hnone. destruct v; try discriminate; auto.
  - destruct data; try discriminate; reflexivity.
Qed.

Lemma validated_In (validate : JsValue -> option bool) (body v : JsValue) :
  In v (validated validate body) ->
  validate v = Some true /\
  exists items, getProperty body "data" = Some (JsArray items) /\ In v items.
Proof.
  unfold validated, property.
  destruct (getProperty body "data") as [[| | | | |items|]|]; try (intros []).
  intros [Hin Hv]%filter_In. split.
  - destruct (validate v) as [[]|]; try discriminate. reflexivity.
  - exists items. auto.
Qed.

(** X23.  The overlap endpoint answers the error "Failed to analyze site
    overlaps" with status 500 exactly when a body is not readable: it is
    [undefined] or [null], its [data] is true in a condition without being
    an array, or an element of the array is [undefined] or [null].  A
    missing or empty [data] is no error: the endpoint then answers with no
    facility on that side.  A readable request is answered with the sites of
    the engine on the facilities that pass validation, their number as
    [count], the numbers of valid facilities as parameters, and site
    statistics that are null exactly when there is no site. *)
Theorem overlap_endpoint_answers
    (maxDistance minScore : float) (aceticData co2Data : JsValue) :
  let validAcetic := validated DataValidator.validateAceticFacility aceticData in
  let validCO2 := validated DataValidator.validateCO2Facility co2Data in
  match GET maxDistance minScore aceticData co2Data with
  | OverlapRoute.failure error status =>
      readable aceticData && readable co2Data = false /\
      error = "Failed to analyze site overlaps"%string /\ status = 500%nat
  | OverlapRoute.json body =>
      readable aceticData && readable co2Data = true /\
      OverlapRoute.Body.success body = true /\
      OverlapRoute.Body.data body =
        generateSiteRecommendations (map asAceticFacility validAcetic)
          (map asCO2Facility validCO2) maxDistance minScore /\
      OverlapRoute.Body.count body = length (OverlapRoute.Body.data body) /\
      OverlapRoute.Parameters.aceticFacilitiesCount (OverlapRoute.Body.parameters body)
        = length validAcetic /\
      OverlapRoute.Parameters.co2FacilitiesCount (OverlapRoute.Body.parameters body)
        = length validCO2 /\
      (OverlapRoute.Statistics.sites (OverlapRoute.Body.statistics body) = None <->
       OverlapRoute.Body.data body = [])
  end.
Proof.
  cbv zeta. unfold GET.
  rewrite (validFacilities_readable _ aceticData validateAceticFacility_None).
  rewrite (validFacilities_readable _ co2Data validateCO2Facility_None).
  destruct (readable aceticData); cbn [mbind option_bind andb];
    [|repeat split; reflexivity].
  destruct (readable co2Data); cbn [mbind option_bind];
    [|repeat split; reflexivity].
  cbn [OverlapRoute.Body.success OverlapRoute.Body.data OverlapRoute.Body.count
       OverlapRoute.Body.parameters OverlapRoute.Body.statistics
       OverlapRoute.Parameters.aceticFacilitiesCount
       OverlapRoute.Parameters.co2FacilitiesCount OverlapRoute.Statistics.sites].
  repeat (split; [reflexivity|]).
  unfold DataAggregator.calculateSiteStats.
  destruct (generateSiteRecommendations _ _ maxDistance minScore) as [|s l];
    cbn [length Nat.eqb]; split; intros; try discriminate; reflexivity.
Qed.

(** X24.  Every site that the overlap endpoint returns is the site of an
    entry of the acetic array and an entry of the CO2 array that both pass
    validation. *)
Theorem overlap_sites_come_from_valid_entries
    (maxDistance minScore : float) (aceticData co2Data : JsValue)
    (body : OverlapRoute.Body.t) (s : OverlapSite) :
  GET maxDistance minScore aceticData co2Data = OverlapRoute.json body ->
  In s (OverlapRoute.Body.data body) ->
  exists aceticEntries co2Entries a c,
    getProperty aceticData "data" = Some (JsArray aceticEntries) /\
    getProperty co2Data "data" = Some (JsArray co2Entries) /\
    In a aceticEntries /\ In c co2Entries /\
    DataValidator.validateAceticFacility a = Some true /\
    DataValidator.validateCO2Facility c = Some true /\
    Site.aceticAcidFacilities s = [stringOf (property a "id")] /\
    Site.co2EmitterFacilities s = [stringOf (property c "id")] /\
    Site.latitude s = optimalLat (asAceticFacility a) (asCO2Facility c) /\
    Site.longitude s = optimalLon (asAceticFacility a) (asCO2Facility c).
Proof.
  unfold GET.
  rewrite (validFacilities_readable _ aceticData validateAceticFacility_None).
  rewrite (validFacilities_readable _ co2Data validateCO2Facility_None).
  destruct (readable aceticData); cbn [mbind option_bind]; [|discriminate].
  destruct (readable co2Data); cbn [mbind option_bind]; [|discriminate].
  intros Hbody. injection Hbody as <-. cbn [OverlapRoute.Body.data].
  intros Hin. unfold generateSiteRecommendations in Hin.
  apply generated_site in Hin as (a' & c' & k & n & Ha & Hc & -> & _ & _).
  apply in_map_iff in Ha as (a & <- & Ha). apply in_map_iff in Hc as (c & <- & Hc).
  apply validated_In in Ha as (Hva & aceticEntries & Hda & Ha).
  apply validated_In in Hc as (Hvc & co2Entries & Hdc & Hc).
  exists aceticEntries, co2Entries, a, c. repeat split; assumption.
Qed.

End Engine.

(** ** Dependence on the draws

    A run makes at most eight draws for each pair, and its result depends on
    the tape through these draws only. *)

Lemma getInfrastructureContext_agree (t1 t2 : nat -> float) (lat lon : float) (n : nat) :
  (forall i, (n <= i < n + 8)%nat -> t1 i = t2 i) ->
  getInfrastructureContext t1 lat lon n = getInfrastructureContext t2 lat lon n /\
  (snd (getInfrastructureContext t1 lat lon n) <= n + 8)%nat.
Proof.
  intros H.
  assert (E0 : t1 n = t2 n) by (apply H; lia).
  assert (E1 : t1 (S n) = t2 (S n)) by (apply H; lia).
  assert (E2 : t1 (S (S n)) = t2 (S (S n))) by (apply H; lia).
  assert (E3 : t1 (S (S (S n))) = t2 (S (S (S n)))) by (apply H; lia).
  assert (E4 : t1 (S (S (S (S n)))) = t2 (S (S (S (S n))))) by (apply H; lia).
  assert (E5 : t1 (S (S (S (S (S n))))) = t2 (S (S (S (S (S n))))))
    by (apply H; lia).
  assert (E6 : t1 (S (S (S (S (S (S n)))))) = t2 (S (S (S (S (S (S n)))))))
    by (apply H; lia).
  assert (E7 : t1 (S (S (S (S (S (S (S n))))))) = t2 (S (S (S (S (S (S (S n))))))))
    by (apply H; lia).
  clear H.
  unfold getInfrastructureContext, bind, ret, Math_random.
  rewrite E0.
  destruct ((80 <? Math_abs lon) && ((lat <? 35) || (45 <? lat)));
    destruct (0.6 <? t2 n);
    rewrite ?E1, ?E2, ?E3, ?E4, ?E5, ?E6, ?E7; cbn [snd]; split; try reflexivity; lia.
Qed.

Section Draws.

Variables Math_sin Math_cos : float -> float.
Variable Math_atan2 : float -> float -> float.
Variables t1 t2 : nat -> float.
Variable w : Weights.t.
Variables maxDistance minScore : float.

Let step (t : nat -> float) :=
  pairStep Math_sin Math_cos Math_atan2 t w maxDistance minScore.

Local Abbreviation agree := (agree_on t1 t2).

Lemma agree_on_weaken (n m n' m' : nat) :
  (n <= n')%nat -> (n' + m' <= n + m)%nat -> agree n m -> agree n' m'.
Proof. intros Hn Hm H i Hi. apply H. lia. Qed.

Lemma pairStep_agree (a : AceticAcidFacility) (c : CO2EmitterFacility) (st : Gen.t) :
  agree (Gen.drawn st) 8 ->
  step t1 a c st = step t2 a c st /\
  (Gen.drawn st <= Gen.drawn (step t1 a c st) <= Gen.drawn st + 8)%nat.
Proof.
  intros H. unfold step. rewrite !pairStep_eq.
  destruct (getInfrastructureContext_agree t1 t2
              (optimalLat a c) (optimalLon a c) (Gen.drawn st) H) as [Hctx Hle].
  assert (Hge : (Gen.drawn st <= drawnAfter t1 a c (Gen.drawn st))%nat).
  { unfold drawnAfter, getInfrastructureContext, bind, ret, Math_random.
    destruct ((80 <? Math_abs (optimalLon a c)) &&
              ((optimalLat a c <? 35) || (45 <? optimalLat a c)));
      destruct (0.6 <? t1 (Gen.drawn st)); cbn [snd]; lia. }
  assert (Hsite : forall k,
            candidateSite Math_sin Math_cos Math_atan2 t1 w a c k (Gen.drawn st) =
            candidateSite Math_sin Math_cos Math_atan2 t2 w a c k (Gen.drawn st)).
  { intros k. unfold candidateSite, pairContext, siteContext.
    rewrite Hctx. reflexivity. }
  assert (Hdrawn : drawnAfter t1 a c (Gen.drawn st) = drawnAfter t2 a c (Gen.drawn st)).
  { unfold drawnAfter. rewrite Hctx. reflexivity. }
  rewrite Hsite, <- Hdrawn.
  fold (drawnAfter t1 a c (Gen.drawn st)) in Hle.
  destruct (pairDistance Math_sin Math_cos Math_atan2 a c <=? maxDistance);
    [|split; [reflexivity|lia]].
  cbv zeta.
  destruct (minScore <=? Site.overallScore _);
    (split; [reflexivity|cbn [Gen.drawn]; lia]).
Qed.

Lemma inner_agree (a : AceticAcidFacility) (cs : list CO2EmitterFacility) (st : Gen.t) :
  agree (Gen.drawn st) (8 * length cs) ->
  fold_left (fun st c => step t1 a c st) cs st =
  fold_left (fun st c => step t2 a c st) cs st /\
  (Gen.drawn st <= Gen.drawn (fold_left (fun st c => step t1 a c st) cs st)
   <= Gen.drawn st + 8 * length cs)%nat.
Proof.
  revert st. induction cs as [|c cs IH]; intros st H.
  - cbn [fold_left length]. split; [reflexivity|lia].
  - cbn [fold_left]. cbn [length] in H |- *.
    destruct (pairStep_agree a c st) as [Heq Hle].
    { eapply agree_on_weaken; [| |exact H]; lia. }
    destruct (IH (step t1 a c st)) as [Heq' Hle'].
    { eapply agree_on_weaken; [| |exact H]; lia. }
    rewrite <- Heq. split; [exact Heq'|lia].
Qed.

Lemma outer_agree (acetics : list AceticAcidFacility) (cs : list CO2EmitterFacility)
    (st : Gen.t) :
  agree (Gen.drawn st) (8 * (length acetics * length cs)) ->
  fold_left (fun st a => fold_left (fun st c => step t1 a c st) cs st) acetics st =
  fold_left (fun st a => fold_left (fun st c => step t2 a c st) cs st) acetics st.
Proof.
  revert st. induction acetics as [|a acetics IH]; intros st H.
  - reflexivity.
  - cbn [fold_left]. cbn [length] in H.
    destruct (inner_agree a cs st) as [Heq Hle].
    { eapply agree_on_weaken; [| |exact H]; lia. }
    rewrite <- Heq. apply IH.
    eapply agree_on_weaken; [| |exact H]; lia.
Qed.

End Draws.

(** C5 (as amended).  The engine has no seed: its only inputs are the two
    lists and the two thresholds, and the context of each site is drawn from
    the ambient [Math.random].  A run is a function of its inputs and of the
    draws that [Math.random] returns during the run, at most eight for each
    pair: two runs on the same inputs in which these draws are the same
    return the same array. *)
Theorem same_draws_same_output
    (Math_sin Math_cos : float -> float) (Math_atan2 : float -> float -> float)
    (t1 t2 : nat -> float)
    (acetics : list AceticAcidFacility) (cs : list CO2EmitterFacility)
    (maxDistance minScore : float) :
  (forall i, (i < 8 * (length acetics * length cs))%nat -> t1 i = t2 i) ->
  generateSiteRecommendations Math_sin Math_cos Math_atan2 t1
    acetics cs maxDistance minScore =
  generateSiteRecommendations Math_sin Math_cos Math_atan2 t2
    acetics cs maxDistance minScore.
Proof.
  intros H.
  unfold generateSiteRecommendations, generateSites, enumeratePairs.
  rewrite (outer_agree Math_sin Math_cos Math_atan2 t1 t2 SCORING_WEIGHTS
             maxDistance minScore acetics cs).
  - reflexivity.
  - intros i Hi. cbn [Gen.drawn] in Hi. apply H. lia.
Qed.

(** ** The distance in binary64

    [calculateDistance] on doubles: its symmetry, its value between a point
    and itself, and its sign.  The facts on the sign need the rounding of
    the binary64 operations. *)

(** *** The rounding of binary64 operations

    [binary_round_aux] shifts a mantissa to 53 digits and rounds it.  A
    positive mantissa at an exponent that is not below [emin] is never
    rounded to zero; a mantissa below [2^106] at an exponent of at most
    -104, which is a value of at most 4, is never rounded to an infinity. *)











(** *** Doubles that are finite, and their signs *)














(** *** The concrete [Math] of the examples *)

Lemma Series_sin_odd (x : float) : Series.sin (- x) = - Series.sin x.
Proof.
  unfold Series.sin. cbv zeta.
  assert (Hsq : (- x) * (- x) = x * x)
    by (rewrite float_mul_opp_l, float_mul_opp_r; apply float_opp_involutive).
  rewrite Hsq. apply float_mul_opp_l.
Qed.


Section Distance.

Variables Math_sin Math_cos : float -> float.
Variable Math_atan2 : float -> float -> float.


End Distance.

(** *** The theorems at the scenario of the specification *)

Lemma generated_sites_respect_thresholds_witness :
  In Examples.scenario_site
    (generateSiteRecommendations Series.sin Series.cos Series.atan2
       (Series.constant_tape 0.5)
       [Examples.scenario_acetic] [Examples.scenario_co2] 50 0) /\
  (exists a c,
     In a [Examples.scenario_acetic] /\ In c [Examples.scenario_co2] /\
     (pairDistance Series.sin Series.cos Series.atan2 a c <=? 50) = true /\
     Site.distance Examples.scenario_site =
       Math_round (pairDistance Series.sin Series.cos Series.atan2 a c * 100) / 100 /\
     (0 <=? Site.overallScore Examples.scenario_site) = true).
Proof.
  assert (Hin : In Examples.scenario_site
                  (generateSiteRecommendations Series.sin Series.cos Series.atan2
                     (Series.constant_tape 0.5)
                     [Examples.scenario_acetic] [Examples.scenario_co2] 50 0))
    by (vm_compute; left; reflexivity).
  split; [exact Hin|].
  exact (proj1 (proj2 (proj2
           (generated_sites_respect_thresholds Series.sin Series.cos Series.atan2
              (Series.constant_tape 0.5)
              [Examples.scenario_acetic] [Examples.scenario_co2] 50 0)))
           Examples.scenario_site Hin).
Defined.

Lemma generated_site_scores_witness :
  In Examples.scenario_site
    (generateSiteRecommendations Series.sin Series.cos Series.atan2
       (Series.constant_tape 0.5)
       [Examples.scenario_acetic] [Examples.scenario_co2] 50 0) /\
  Site.overallScore Examples.scenario_site =
    Math_round
      (Site.governmentalScore Examples.scenario_site * 0.3 +
       Site.logisticsScore Examples.scenario_site * 0.25 +
       Site.policyIncentivesScore Examples.scenario_site * 0.25 +
       Site.communityReadinessScore Examples.scenario_site * 0.2).
Proof.
  assert (Hin : In Examples.scenario_site
                  (generateSiteRecommendations Series.sin Series.cos Series.atan2
                     (Series.constant_tape 0.5)
                     [Examples.scenario_acetic] [Examples.scenario_co2] 50 0))
    by (vm_compute; left; reflexivity).
  split; [exact Hin|].
  exact (proj1 (proj2 (proj2 (proj2 (proj2 (proj2
           (generated_site_scores Series.sin Series.cos Series.atan2
              (Series.constant_tape 0.5)
              [Examples.scenario_acetic] [Examples.scenario_co2] 50 0
              Examples.scenario_site Hin))))))).
Defined.


Lemma weights_fixed_and_plain_witness :
  In Examples.scenario_site
    (generateSites Series.sin Series.cos Series.atan2
       (Series.constant_tape 0.5) SCORING_WEIGHTS 50 0
       [Examples.scenario_acetic] [Examples.scenario_co2]) /\
  Site.overallScore Examples.scenario_site =
    Math_round
      (Site.governmentalScore Examples.scenario_site *
         Weights.governmental SCORING_WEIGHTS +
       Site.logisticsScore Examples.scenario_site *
         Weights.logistics SCORING_WEIGHTS +
       Site.policyIncentivesScore Examples.scenario_site *
         Weights.policyIncentives SCORING_WEIGHTS +
       Site.communityReadinessScore Examples.scenario_site *
         Weights.communityReadiness SCORING_WEIGHTS).
Proof.
  assert (Hin : In Examples.scenario_site
                  (generateSites Series.sin Series.cos Series.atan2
                     (Series.constant_tape 0.5) SCORING_WEIGHTS 50 0
                     [Examples.scenario_acetic] [Examples.scenario_co2]))
    by (vm_compute; left; reflexivity).
  split; [exact Hin|].
  exact (proj2 (proj2 (weights_fixed_and_plain Series.sin Series.cos Series.atan2
                         (Series.constant_tape 0.5)))
           SCORING_WEIGHTS [Examples.scenario_acetic] [Examples.scenario_co2] 50 0
           Examples.scenario_site Hin).
Defined.

Lemma same_draws_same_output_witness :
  (forall i, (i < 8 * (length [Examples.scenario_acetic] *
                        length [Examples.scenario_co2]))%nat ->
     Series.list_tape (repeat 0.5 8) 0.1 i = Series.list_tape (repeat 0.5 8) 0.9 i) /\
  Leibniz.eqb (Series.list_tape (repeat 0.5 8) 0.1 8)
    (Series.list_tape (repeat 0.5 8) 0.9 8) = false /\
  generateSiteRecommendations Series.sin Series.cos Series.atan2
    (Series.list_tape (repeat 0.5 8) 0.1)
    [Examples.scenario_acetic] [Examples.scenario_co2] 50 0 =
  generateSiteRecommendations Series.sin Series.cos Series.atan2
    (Series.list_tape (repeat 0.5 8) 0.9)
    [Examples.scenario_acetic] [Examples.scenario_co2] 50 0.
Proof.
  assert (H : forall i, (i < 8 * (length [Examples.scenario_acetic] *
                                   length [Examples.scenario_co2]))%nat ->
              Series.list_tape (repeat 0.5 8) 0.1 i =
              Series.list_tape (repeat 0.5 8) 0.9 i).
  { intros i Hi. cbn [length Nat.mul Nat.add] in Hi.
    do 8 (destruct i as [|i]; [reflexivity|]). lia. }
  split; [exact H|]. split; [vm_compute; reflexivity|].
  exact (same_draws_same_output Series.sin Series.cos Series.atan2
           (Series.list_tape (repeat 0.5 8) 0.1) (Series.list_tape (repeat 0.5 8) 0.9)
           [Examples.scenario_acetic] [Examples.scenario_co2] 50 0 H).
Defined.


Lemma site_midpoint_formula_witness :
  In Examples.scenario_site
    (generateSiteRecommendations Series.sin Series.cos Series.atan2
       (Series.constant_tape 0.5)
       [Examples.scenario_acetic] [Examples.scenario_co2] 50 0) /\
  Site.latitude Examples.scenario_site = 29.7604 /\
  Site.longitude Examples.scenario_site = -95.3698 /\
  (exists s,
     Gen.sites
       (pairStep Series.sin Series.cos Series.atan2 (Series.constant_tape 0.5)
          SCORING_WEIGHTS 50 0 Examples.shared_acetic Examples.shared_co2
          {| Gen.sites := []; Gen.siteId := 1; Gen.drawn := 0 |}) = [s] /\
     Site.aceticAcidFacilities s = ["acetic-3"%string] /\
     Site.co2EmitterFacilities s = ["co2-3"%string] /\
     Site.latitude s = (30 * 0.45 + 30 * 0.18) / (0.45 + 0.18) /\
     Site.longitude s = (-95 * 0.45 + -95 * 0.18) / (0.45 + 0.18)) /\
  (exists s,
     generateSiteRecommendations Series.sin Series.cos Series.atan2
       (Series.constant_tape 0.5)
       [Examples.idle_acetic] [Examples.idle_co2] 50 0 = [s] /\
     PrimFloat.is_nan (Site.latitude s) = true /\
     PrimFloat.is_nan (Site.longitude s) = true) /\
  (exists a c k n,
     In a [Examples.scenario_acetic] /\ In c [Examples.scenario_co2] /\
     Examples.scenario_site =
       candidateSite Series.sin Series.cos Series.atan2 (Series.constant_tape 0.5)
         SCORING_WEIGHTS a c k n /\
     Site.latitude Examples.scenario_site =
       (Acetic.latitude a * (Acetic.capacity a / 1000000) +
        CO2.latitude c * (CO2.co2EmissionRate c / 10000000)) /
       (Acetic.capacity a / 1000000 + CO2.co2EmissionRate c / 10000000)).
Proof.
  assert (Hin : In Examples.scenario_site
                  (generateSiteRecommendations Series.sin Series.cos Series.atan2
                     (Series.constant_tape 0.5)
                     [Examples.scenario_acetic] [Examples.scenario_co2] 50 0))
    by (vm_compute; left; reflexivity).
  split; [exact Hin|].
  pose proof (proj1 (proj2 (proj2 (site_midpoint_formula Series.sin Series.cos
                                     Series.atan2 (Series.constant_tape 0.5))))
                50 0 Examples.scenario_acetic Examples.scenario_co2
                Examples.scenario_site
                eq_refl eq_refl eq_refl eq_refl eq_refl eq_refl Hin) as [Hlat Hlon].
  split; [exact Hlat|]. split; [exact Hlon|]. split; [|split].
  - destruct (proj1 (site_midpoint_formula Series.sin Series.cos Series.atan2
                       (Series.constant_tape 0.5))
                50 0 Examples.shared_acetic Examples.shared_co2
                {| Gen.sites := []; Gen.siteId := 1; Gen.drawn := 0 |})
      as (s & Hs & Ha & Hc & Hla & Hlo & _).
    + vm_compute. reflexivity.
    + vm_compute. reflexivity.
    + exists s. cbv zeta in Hla, Hlo.
      split; [exact Hs|]. split; [exact Ha|]. split; [exact Hc|].
      rewrite Hla, Hlo. vm_compute. split; reflexivity.
  - eexists. split; [vm_compute; reflexivity|].
    apply (proj2 (proj2 (proj2 (site_midpoint_formula Series.sin Series.cos
                                  Series.atan2 (Series.constant_tape 0.5))))
             50 0 Examples.idle_acetic Examples.idle_co2).
    + reflexivity.
    + reflexivity.
    + vm_compute. left. reflexivity.
  - destruct (proj1 (proj2 (site_midpoint_formula Series.sin Series.cos Series.atan2
                              (Series.constant_tape 0.5)))
                [Examples.scenario_acetic] [Examples.scenario_co2] 50 0
                Examples.scenario_site Hin)
      as (a & c & k & n & Ha & Hc & Heq & _ & _ & _ & Hla & _).
    exists a, c, k, n.
    split; [exact Ha|]. split; [exact Hc|]. split; [exact Heq|exact Hla].
Defined.

Lemma contributor_lists_singletons_witness :
  In Examples.scenario_site
    (generateSiteRecommendations Series.sin Series.cos Series.atan2
       (Series.constant_tape 0.5)
       [Examples.scenario_acetic] [Examples.scenario_co2] 50 0) /\
  (exists a c,
     In a [Examples.scenario_acetic] /\ In c [Examples.scenario_co2] /\
     Site.aceticAcidFacilities Examples.scenario_site = [Acetic.id a] /\
     Site.co2EmitterFacilities Examples.scenario_site = [CO2.id c] /\
     Site.latitude Examples.scenario_site = optimalLat a c /\
     Site.longitude Examples.scenario_site = optimalLon a c /\
     Site.distance Examples.scenario_site =
       Math_round (pairDistance Series.sin Series.cos Series.atan2 a c * 100) / 100).
Proof.
  assert (Hin : In Examples.scenario_site
                  (generateSiteRecommendations Series.sin Series.cos Series.atan2
                     (Series.constant_tape 0.5)
                     [Examples.scenario_acetic] [Examples.scenario_co2] 50 0))
    by (vm_compute; left; reflexivity).
  split; [exact Hin|].
  exact (contributor_lists_singletons Series.sin Series.cos Series.atan2
           (Series.constant_tape 0.5)
           [Examples.scenario_acetic] [Examples.scenario_co2] 50 0
           Examples.scenario_site Hin).
Defined.

(** *** Runs that contradict the claims as they are worded *)

(** C1.  The two facilities are 0.00556 km apart, which is within
    [maxDistance = 0.006]; the site is returned, and the distance that it
    stores, rounded to two decimals, is 0.01, above [maxDistance].  (By
    [single_pair_emitted], with any [Math] the pair is returned once its
    distance is within [maxDistance], and its site stores the rounded
    distance.) *)
Lemma stored_distance_above_maxDistance :
  (pairDistance Series.sin Series.cos Series.atan2
     Examples.near_acetic Examples.near_co2 <=? 0.006) = true /\
  map Site.distance
    (generateSiteRecommendations Series.sin Series.cos Series.atan2
       (Series.constant_tape 0.5)
       [Examples.near_acetic] [Examples.near_co2] 0.006 0) = [0.01] /\
  (0.01 <=? 0.006) = false.
Proof. vm_compute. repeat split; reflexivity. Qed.

(** C4.  With the weights 0.3, 0.25, 0.25 and 0.19, which sum to 0.99, in
    the place of the constant, the run does not fail: it processes the pair
    and returns its site, with the overall score 98 of the plain weighted
    sum (the weights of the engine give 99). *)
Lemma weights_099_not_rejected :
  Weights.governmental Examples.weights_099 + Weights.logistics Examples.weights_099 +
  Weights.policyIncentives Examples.weights_099 +
  Weights.communityReadiness Examples.weights_099 = 0.99 /\
  map Site.overallScore
    (generateSites Series.sin Series.cos Series.atan2
       (Series.constant_tape 0.5) Examples.weights_099 50 0
       [Examples.scenario_acetic] [Examples.scenario_co2]) = [98] /\
  map Site.overallScore
    (generateSites Series.sin Series.cos Series.atan2
       (Series.constant_tape 0.5) SCORING_WEIGHTS 50 0
       [Examples.scenario_acetic] [Examples.scenario_co2]) = [99].
Proof. vm_compute. repeat split; reflexivity. Qed.

(** C5.  Two runs on the same lists and thresholds, the draws of
    [Math.random] being 0.5 in the one and 0.9 in the other: the sub-scores
    and the overall score of the returned site differ. *)
Lemma same_inputs_different_output :
  map Site.overallScore
    (generateSiteRecommendations Series.sin Series.cos Series.atan2
       (Series.constant_tape 0.5)
       [Examples.scenario_acetic] [Examples.scenario_co2] 50 0) = [99] /\
  map Site.overallScore
    (generateSiteRecommendations Series.sin Series.cos Series.atan2
       (Series.constant_tape 0.9)
       [Examples.scenario_acetic] [Examples.scenario_co2] 50 0) = [88].
Proof. vm_compute. repeat split; reflexivity. Qed.


(** C9.  Both facilities are at latitude 30, with capacity 450000 and
    emission rate 1800000: the weighted average of 30 and 30 in binary64 is
    29.999999999999996, and this is the latitude of the returned site. *)
Lemma shared_coordinate_midpoint_inexact :
  Acetic.latitude Examples.shared_acetic = 30 /\
  CO2.latitude Examples.shared_co2 = 30 /\
  optimalLat Examples.shared_acetic Examples.shared_co2 = 29.999999999999996 /\
  map Site.latitude
    (generateSiteRecommendations Series.sin Series.cos Series.atan2
       (Series.constant_tape 0.5)
       [Examples.shared_acetic] [Examples.shared_co2] 50 0)
  = [29.999999999999996] /\
  (29.999999999999996 =? 30) = false.
Proof. vm_compute. repeat split; reflexivity. Qed.

(** ** Properties of the dashboard and of the data processing *)

(** *** The selection of sites *)

Lemma slice_last_length {A : Type} (n : nat) (l : list A) :
  (length (slice_last n l) <= n)%nat.
Proof. unfold slice_last. rewrite length_skipn. lia. Qed.

Lemma slice_last_sublist {A : Type} (n : nat) (l : list A) : sublist (slice_last n l) l.
Proof. apply sublist_drop. Qed.

Lemma slice_last_short {A : Type} (n : nat) (l : list A) :
  (length l <= n)%nat -> slice_last n l = l.
Proof.
  intros H. unfold slice_last. replace (length l - n)%nat with 0%nat by lia. reflexivity.
Qed.

Lemma slice_last_snoc {A : Type} (n : nat) (l : list A) (x : A) :
  In x (slice_last (S n) (l ++ [x])).
Proof.
  unfold slice_last. rewrite length_app. cbn [length].
  rewrite skipn_app. apply in_or_app. right.
  replace (length l + 1 - S n - length l)%nat with 0%nat by lia. left. reflexivity.
Qed.

Lemma handleSiteSelect_removes (site : OverlapSite) (prev : list OverlapSite) :
  In (Site.id site) (map Site.id prev) ->
  Page.handleSiteSelect site prev =
  List.filter (fun s => negb (String.eqb (Site.id s) (Site.id site))) prev.
Proof.
  intros Hin. unfold Page.handleSiteSelect. cbv zeta.
  destruct (List.find _ prev) eqn:E; [reflexivity|exfalso].
  apply in_map_iff in Hin as (s & Hs & Hin).
  pose proof (find_none _ _ E s Hin) as H. cbn beta in H.
  rewrite Hs, String.eqb_refl in H. discriminate.
Qed.

Lemma handleSiteSelect_appends (site : OverlapSite) (prev : list OverlapSite) :
  ~ In (Site.id site) (map Site.id prev) ->
  Page.handleSiteSelect site prev = slice_last 3 (prev ++ [site]).
Proof.
  intros Hnin. unfold Page.handleSiteSelect. cbv zeta.
  destruct (List.find _ prev) as [s|] eqn:E; [exfalso|reflexivity].
  apply find_some in E as [Hin Hs]. apply String.eqb_eq in Hs.
  apply Hnin. rewrite <- Hs. apply in_map, Hin.
Qed.

Lemma handleSiteSelect_invariant (site : OverlapSite) (prev : list OverlapSite) :
  (length prev <= 3)%nat -> NoDup (map Site.id prev) ->
  (length (Page.handleSiteSelect site prev) <= 3)%nat /\
  NoDup (map Site.id (Page.handleSiteSelect site prev)).
Proof.
  intros Hlen Hnd.
  destruct (in_dec String.string_dec (Site.id site) (map Site.id prev)) as [Hin|Hnin].
  - rewrite (handleSiteSelect_removes _ _ Hin). split.
    + pose proof (filter_length_le
                    (fun s => negb (String.eqb (Site.id s) (Site.id site))) prev). lia.
    + apply (sublist_NoDup _ (map Site.id prev)); [assumption|].
      apply sublist_map. clear. induction prev as [|s l IH]; cbn [List.filter].
      * constructor.
      * destruct (negb _); [apply sublist_skip|apply sublist_cons]; assumption.
  - rewrite (handleSiteSelect_appends _ _ Hnin). split.
    + apply slice_last_length.
    + apply (sublist_NoDup _ (map Site.id (prev ++ [site]))).
      * rewrite map_app. cbn [map]. apply NoDup_app. split; [assumption|]. split.
        -- intros x Hx [<-|[]]%list_elem_of_In. apply Hnin, list_elem_of_In, Hx.
        -- apply NoDup_singleton.
      * apply sublist_map, slice_last_sublist.
Qed.

(** X17.  Selecting sites for the comparison: a click on a site whose id is
    selected removes it, a click on another site appends it, and when three
    sites are selected already the oldest one is dropped.  After any
    sequence of clicks at most three sites are selected, and their ids are
    pairwise distinct. *)
Theorem site_selection (site : OverlapSite) (prev clicks : list OverlapSite) :
  (In (Site.id site) (map Site.id (Page.handleSiteSelect site prev)) <->
   ~ In (Site.id site) (map Site.id prev)) /\
  (~ In (Site.id site) (map Site.id prev) ->
   Page.handleSiteSelect site prev =
   if (length prev <? 3)%nat then prev ++ [site]
   else skipn (length prev - 2) prev ++ [site]) /\
  (length (Page.selectedAfter clicks) <= 3)%nat /\
  NoDup (map Site.id (Page.selectedAfter clicks)).
Proof.
  split; [|split].
  - destruct (in_dec String.string_dec (Site.id site) (map Site.id prev)) as [Hin|Hnin].
    + rewrite (handleSiteSelect_removes _ _ Hin). split; [|intros H; destruct (H Hin)].
      intros H. exfalso. apply in_map_iff in H as (s & Hs & Hs').
      apply filter_In in Hs' as [_ Hs']. rewrite Hs, String.eqb_refl in Hs'.
      discriminate.
    + rewrite (handleSiteSelect_appends _ _ Hnin). split; [intros _; exact Hnin|].
      intros _. apply in_map. apply slice_last_snoc.
  - intros Hnin. rewrite (handleSiteSelect_appends _ _ Hnin).
    unfold slice_last. rewrite length_app. cbn [length].
    destruct (length prev <? 3)%nat eqn:E.
    + apply Nat.ltb_lt in E.
      replace (length prev + 1 - 3)%nat with 0%nat by lia. reflexivity.
    + apply Nat.ltb_ge in E. rewrite skipn_app.
      replace (length prev + 1 - 3)%nat with (length prev - 2)%nat by lia.
      replace (length prev - 2 - length prev)%nat with 0%nat by lia. reflexivity.
  - unfold Page.selectedAfter.
    assert (H : forall prev, (length prev <= 3)%nat -> NoDup (map Site.id prev) ->
              (length (fold_left (fun prev site => Page.handleSiteSelect site prev)
                         clicks prev) <= 3)%nat /\
              NoDup (map Site.id
                       (fold_left (fun prev site => Page.handleSiteSelect site prev)
                          clicks prev))).
    { induction clicks as [|c clicks IH]; intros l Hl Hnd; [split; assumption|].
      cbn [fold_left].
      destruct (handleSiteSelect_invariant c l Hl Hnd) as [Hl' Hnd'].
      apply IH; assumption. }
    apply H; [cbn; lia|constructor].
Qed.

(** *** The best site of a comparison *)

Lemma bestSite_fold (rest done : list OverlapSite) (best : OverlapSite) :
  Forall (fun s => (Site.overallScore s <=? Site.overallScore s) = true)
    (done ++ rest) ->
  (exists before after, done = before ++ best :: after /\
     Forall (fun s => (Site.overallScore s <? Site.overallScore best) = true) before /\
     Forall (fun s => (Site.overallScore s <=? Site.overallScore best) = true) after) ->
  let best' :=
    fold_left
      (fun best current =>
         if Site.overallScore best <? Site.overallScore current then current else best)
      rest best in
  exists before after, done ++ rest = before ++ best' :: after /\
    Forall (fun s => (Site.overallScore s <? Site.overallScore best') = true) before /\
    Forall (fun s => (Site.overallScore s <=? Site.overallScore best') = true) after.
Proof.
  revert done best. induction rest as [|c rest IH]; intros done best Hnum Hinv.
  - cbn [fold_left]. rewrite app_nil_r. exact Hinv.
  - cbn [fold_left]. cbv zeta.
    replace (done ++ c :: rest) with ((done ++ [c]) ++ rest) in *
      by (rewrite <- app_assoc; reflexivity).
    apply IH; [exact Hnum|].
    destruct Hinv as (before & after & -> & Hb & Ha).
    assert (Hc : (Site.overallScore c <=? Site.overallScore c) = true).
    { rewrite List.Forall_forall in Hnum. apply Hnum.
      apply in_or_app. left. apply in_or_app. right. left. reflexivity. }
    assert (Hbest : (Site.overallScore best <=? Site.overallScore best) = true).
    { rewrite List.Forall_forall in Hnum. apply Hnum.
      apply in_or_app. left. apply in_or_app. left.
      apply in_or_app. right. left. reflexivity. }
    destruct (Site.overallScore best <? Site.overallScore c) eqn:E.
    + exists (before ++ best :: after), []. split; [reflexivity|]. split; [|constructor].
      apply Forall_app. split; [|constructor].
      * eapply Forall_impl; [exact Hb|]. cbn beta. intros s Hs.
        exact (float_ltb_trans _ _ _ Hs E).
      * exact E.
      * eapply Forall_impl; [exact Ha|]. cbn beta. intros s Hs.
        exact (float_leb_ltb_trans _ _ _ Hs E).
    + exists before, (after ++ [c]). split; [rewrite <- app_assoc; reflexivity|].
      split; [exact Hb|]. apply Forall_app. split; [exact Ha|].
      constructor; [|constructor].
      apply float_ltb_false_leb; assumption.
Qed.

(** X18.  The best site of the comparison is the first of the selected
    sites that no other exceeds: with no NaN among the overall scores, the
    sites before it have a strictly lower overall score and the sites after
    it have at most its score.  There is none exactly when nothing is
    selected. *)
Theorem bestSite_is_first_maximum (sites : list OverlapSite) :
  Forall (fun s => (Site.overallScore s <=? Site.overallScore s) = true) sites ->
  match SiteComparison.bestSite sites with
  | None => sites = []
  | Some best =>
      exists before after, sites = before ++ best :: after /\
        Forall (fun s => (Site.overallScore s <? Site.overallScore best) = true) before /\
        Forall (fun s => (Site.overallScore s <=? Site.overallScore best) = true) after
  end.
Proof.
  intros Hnum. destruct sites as [|first rest]; [reflexivity|].
  cbn [SiteComparison.bestSite].
  apply (bestSite_fold rest [first] first Hnum).
  exists [], []. repeat split; constructor.
Qed.

(** *** Bounds that are not applied *)

(** X19.  An upper bound that is 0, -0 or NaN is treated as if it were left
    out: [filterAceticByCapacity] and [filterCO2ByEmissions] then apply the
    lower bound only, and a criterion of [filterSitesByScore] that is 0 or
    NaN removes no site. *)
Theorem falsy_bounds_are_not_applied (bound : float) :
  truthyNumber bound = false ->
  (forall facilities minCapacity,
     DataFilter.filterAceticByCapacity facilities minCapacity (Some bound) =
     DataFilter.filterAceticByCapacity facilities minCapacity None) /\
  (forall facilities minEmissions,
     DataFilter.filterCO2ByEmissions facilities minEmissions (Some bound) =
     DataFilter.filterCO2ByEmissions facilities minEmissions None) /\
  (forall sites,
     DataFilter.filterSitesByScore sites
       (DataFilter.Criteria.mk (Some bound) (Some bound) (Some bound) (Some bound)
          (Some bound)) = sites).
Proof.
  intros Hb. split; [|split].
  - intros facilities minCapacity. unfold DataFilter.filterAceticByCapacity.
    rewrite Hb. reflexivity.
  - intros facilities minEmissions. unfold DataFilter.filterCO2ByEmissions.
    rewrite Hb. reflexivity.
  - intros sites. unfold DataFilter.filterSitesByScore.
    cbn [DataFilter.Criteria.minOverall DataFilter.Criteria.minGovernmental
         DataFilter.Criteria.minLogistics DataFilter.Criteria.minPolicyIncentives
         DataFilter.Criteria.minCommunityReadiness DataFilter.below].
    rewrite Hb. cbn [andb].
    induction sites as [|s l IH]; [reflexivity|].
    cbn [List.filter]. rewrite IH. reflexivity.
Qed.

(** *** The statistics *)

Lemma orZero_succ (n : nat) : DataAggregator.orZero (Some (n + 1)%nat) = (n + 1)%nat.
Proof. rewrite Nat.add_1_r. reflexivity. Qed.

Lemma tally_fold {A K : Type} `{Countable K} (key : A -> K) (items : list A)
    (acc : gmap K nat) (k : K) :
  fold_left (fun acc f => <[key f := (DataAggregator.orZero (acc !! key f) + 1)%nat]> acc)
    items acc !! k =
  let n := length (List.filter (fun f => bool_decide (key f = k)) items) in
  if (n =? 0)%nat then acc !! k else Some (DataAggregator.orZero (acc !! k) + n)%nat.
Proof.
  revert acc. induction items as [|f items IH]; intros acc; [reflexivity|].
  cbn [fold_left List.filter]. rewrite IH. cbv zeta.
  destruct (bool_decide (key f = k)) eqn:E.
  - apply bool_decide_eq_true in E. subst k. cbn [length].
    rewrite lookup_insert_eq, orZero_succ.
    destruct (length _ =? 0)%nat eqn:E0; cbn [Nat.eqb].
    + apply Nat.eqb_eq in E0. rewrite E0. f_equal; lia.
    + f_equal; lia.
  - apply bool_decide_eq_false in E. rewrite lookup_insert_ne by exact E. reflexivity.
Qed.

Lemma tally_lookup {A K : Type} `{Countable K} (key : A -> K) (items : list A) (k : K) :
  DataAggregator.tally key items !! k =
  let n := length (List.filter (fun f => bool_decide (key f = k)) items) in
  if (n =? 0)%nat then None else Some n.
Proof.
  unfold DataAggregator.tally. rewrite tally_fold. cbv zeta.
  rewrite lookup_empty. reflexivity.
Qed.

Lemma tally_orZero {A K : Type} `{Countable K} (key : A -> K) (items : list A) (k : K) :
  DataAggregator.orZero (DataAggregator.tally key items !! k) =
  length (List.filter (fun f => bool_decide (key f = k)) items).
Proof.
  rewrite tally_lookup. cbv zeta.
  destruct (length _) as [|n]; reflexivity.
Qed.

Lemma status_classes {A : Type} (key : A -> OperationalStatus) (items : list A) :
  (length (List.filter (fun f => bool_decide (key f = active)) items) +
   length (List.filter (fun f => bool_decide (key f = inactive)) items) +
   length (List.filter (fun f => bool_decide (key f = planned)) items) =
   length items)%nat.
Proof.
  induction items as [|f items IH]; [reflexivity|].
  cbn [List.filter length].
  destruct (key f); repeat case_bool_decide; try congruence; cbn [length]; lia.
Qed.

(** X20.  The statistics of the facilities: there are none (null) exactly
    for the empty list; otherwise [totalFacilities] is the number of
    facilities, the status distribution has, under each status that occurs,
    the number of facilities of that status, and no entry for a status that
    does not occur, and its counts add up to [totalFacilities].  The same
    holds of the status and the type distributions of the emitters. *)
Theorem distributions_count_facilities :
  (forall facilities : list AceticAcidFacility,
     match DataAggregator.calculateFacilityStats facilities with
     | None => facilities = []
     | Some stats =>
         facilities <> [] /\
         DataAggregator.FacilityStats.totalFacilities stats = length facilities /\
         (forall status,
            DataAggregator.FacilityStats.statusDistribution stats !! status =
            let n := length (List.filter
                               (fun f => bool_decide (Acetic.operationalStatus f = status))
                               facilities) in
            if (n =? 0)%nat then None else Some n) /\
         (DataAggregator.orZero
            (DataAggregator.FacilityStats.statusDistribution stats !! active) +
          DataAggregator.orZero
            (DataAggregator.FacilityStats.statusDistribution stats !! inactive) +
          DataAggregator.orZero
            (DataAggregator.FacilityStats.statusDistribution stats !! planned) =
          length facilities)%nat
     end) /\
  (forall facilities : list CO2EmitterFacility,
     match DataAggregator.calculateEmissionStats facilities with
     | None => facilities = []
     | Some stats =>
         facilities <> [] /\
         DataAggregator.EmissionStats.totalFacilities stats = length facilities /\
         (forall status,
            DataAggregator.EmissionStats.statusDistribution stats !! status =
            let n := length (List.filter
                               (fun f => bool_decide (CO2.operationalStatus f = status))
                               facilities) in
            if (n =? 0)%nat then None else Some n) /\
         (forall type,
            DataAggregator.EmissionStats.typeDistribution stats !! type =
            let n := length (List.filter
                               (fun f => bool_decide (CO2.facilityType f = type))
                               facilities) in
            if (n =? 0)%nat then None else Some n)
     end).
Proof.
  split.
  - intros [|f facilities]; [reflexivity|].
    unfold DataAggregator.calculateFacilityStats. cbn [length Nat.eqb].
    cbv zeta. cbn [DataAggregator.FacilityStats.totalFacilities
                   DataAggregator.FacilityStats.statusDistribution].
    split; [discriminate|]. split; [reflexivity|]. split.
    + intros status. apply tally_lookup.
    + rewrite !tally_orZero.
      exact (status_classes Acetic.operationalStatus (f :: facilities)).
  - intros [|f facilities]; [reflexivity|].
    unfold DataAggregator.calculateEmissionStats. cbn [length Nat.eqb].
    cbv zeta. cbn [DataAggregator.EmissionStats.totalFacilities
                   DataAggregator.EmissionStats.statusDistribution
                   DataAggregator.EmissionStats.typeDistribution].
    split; [discriminate|]. split; [reflexivity|]. split.
    + intros status. apply tally_lookup.
    + intros type. apply tally_lookup.
Qed.

(** *** Maximum and minimum of the statistics *)

(** X21.  The maximum and the minimum of the statistics: for values that
    are numbers (none is NaN) and not empty, [max] is one of the values and
    no value is above it, and [min] is one of the values and no value is
    below it. *)
Theorem calculateStats_max_min (values : list float) :
  values <> [] -> Forall (fun v => (v <=? v) = true) values ->
  let stats := DataAggregator.calculateStats values in
  In (DataAggregator.Stats.max stats) values /\
  Forall (fun v => (v <=? DataAggregator.Stats.max stats) = true) values /\
  In (DataAggregator.Stats.min stats) values /\
  Forall (fun v => (DataAggregator.Stats.min stats <=? v) = true) values.
Proof.
  intros Hne Hnum. cbv zeta. unfold DataAggregator.calculateStats.
  cbn [DataAggregator.Stats.max DataAggregator.Stats.min].
  destruct (maxOf_number values Hne Hnum) as [H1 H2].
  destruct (minOf_number values Hne Hnum) as [H3 H4].
  auto.
Qed.

(** *** The validators *)

Lemma includes_In (names : list string) (v : JsValue) :
  includes names v = true -> exists s, v = JsString s /\ In s names.
Proof.
  destruct v as [| | | |s| |]; try discriminate. cbn [includes].
  intros H. apply existsb_exists in H as (n & Hn & Heq).
  apply String.eqb_eq in Heq. subst n. exists s. auto.
Qed.

Lemma statusOf_name (s : string) :
  In s ["active"; "inactive"; "planned"]%string ->
  statusName (statusOf (JsString s)) = s.
Proof. intros [<-|[<-|[<-|[]]]]; reflexivity. Qed.

Lemma facilityTypeOf_name (s : string) :
  In s ["petrochemical"; "refinery"; "steel"; "cement"; "power"]%string ->
  typeName (facilityTypeOf (JsString s)) = s.
Proof. intros [<-|[<-|[<-|[<-|[<-|[]]]]]]; reflexivity. Qed.

(** X25.  What the validators accept.  A validator raises a TypeError on
    [undefined] and on [null], and on nothing else.  A value that it accepts
    has the tested properties with the types of the interface, so that its
    typed reading returns them as they are; its coordinates are numbers
    within [-90, 90] and [-180, 180], and its capacity or emission rate is
    above 0.  The property [lastUpdated] is not tested: an object is
    accepted or rejected whatever it holds there. *)
Theorem validators_accept (v : JsValue) :
  (DataValidator.validateAceticFacility v = None <-> v = JsUndefined \/ v = JsNull) /\
  (DataValidator.validateCO2Facility v = None <-> v = JsUndefined \/ v = JsNull) /\
  (DataValidator.validateAceticFacility v = Some true ->
   let a := asAceticFacility v in
   property v "id" = JsString (Acetic.id a) /\
   property v "name" = JsString (Acetic.name a) /\
   property v "latitude" = JsNumber (Acetic.latitude a) /\
   property v "longitude" = JsNumber (Acetic.longitude a) /\
   property v "capacity" = JsNumber (Acetic.capacity a) /\
   property v "operationalStatus" = JsString (statusName (Acetic.operationalStatus a)) /\
   DataValidator.validateCoordinates (Acetic.latitude a) (Acetic.longitude a) = true /\
   (0 <? Acetic.capacity a) = true) /\
  (DataValidator.validateCO2Facility v = Some true ->
   let c := asCO2Facility v in
   property v "id" = JsString (CO2.id c) /\
   property v "name" = JsString (CO2.name c) /\
   property v "latitude" = JsNumber (CO2.latitude c) /\
   property v "longitude" = JsNumber (CO2.longitude c) /\
   property v "co2EmissionRate" = JsNumber (CO2.co2EmissionRate c) /\
   property v "facilityType" = JsString (typeName (CO2.facilityType c)) /\
   property v "operationalStatus" = JsString (statusName (CO2.operationalStatus c)) /\
   DataValidator.validateCoordinates (CO2.latitude c) (CO2.longitude c) = true /\
   (0 <? CO2.co2EmissionRate c) = true) /\
  (forall properties x,
     DataValidator.validateAceticFacility (JsObject (("lastUpdated"%string, x) :: properties))
     = DataValidator.validateAceticFacility (JsObject properties) /\
     DataValidator.validateCO2Facility (JsObject (("lastUpdated"%string, x) :: properties))
     = DataValidator.validateCO2Facility (JsObject properties)).
Proof.
  split; [apply validateAceticFacility_None|].
  split; [apply validateCO2Facility_None|].
  split; [|split].
  - unfold DataValidator.validateAceticFacility, asAceticFacility, property.
    destruct v as [| | | | | |properties]; cbn [getProperty mbind option_bind];
      try discriminate.
    destruct (lookupProperty "id" properties) as [| | | |id| |]; try discriminate.
    destruct (lookupProperty "name" properties) as [| | | |name| |]; try discriminate.
    destruct (lookupProperty "latitude" properties) as [| | |lat| | |]; try discriminate.
    destruct (lookupProperty "longitude" properties) as [| | |lon| | |]; try discriminate.
    destruct (lookupProperty "capacity" properties) as [| | |cap| | |]; try discriminate.
    intros H. injection H as H. rewrite !andb_true_iff in H.
    destruct H as [[Hstatus Hcoords] Hcap].
    apply includes_In in Hstatus as (status & -> & Hstatus).
    cbv zeta. cbn [Acetic.id Acetic.name Acetic.latitude Acetic.longitude
                   Acetic.capacity Acetic.operationalStatus stringOf numberOf].
    rewrite (statusOf_name status Hstatus). repeat split; assumption.
  - unfold DataValidator.validateCO2Facility, asCO2Facility, property.
    destruct v as [| | | | | |properties]; cbn [getProperty mbind option_bind];
      try discriminate.
    destruct (lookupProperty "id" properties) as [| | | |id| |]; try discriminate.
    destruct (lookupProperty "name" properties) as [| | | |name| |]; try discriminate.
    destruct (lookupProperty "latitude" properties) as [| | |lat| | |]; try discriminate.
    destruct (lookupProperty "longitude" properties) as [| | |lon| | |]; try discriminate.
    destruct (lookupProperty "co2EmissionRate" properties) as [| | |rate| | |];
      try discriminate.
    intros H. injection H as H. rewrite !andb_true_iff in H.
    destruct H as [[[Htype Hstatus] Hcoords] Hrate].
    apply includes_In in Htype as (type & -> & Htype).
    apply includes_In in Hstatus as (status & -> & Hstatus).
    cbv zeta. cbn [CO2.id CO2.name CO2.latitude CO2.longitude CO2.co2EmissionRate
                   CO2.facilityType CO2.operationalStatus stringOf numberOf].
    rewrite (statusOf_name status Hstatus), (facilityTypeOf_name type Htype).
    repeat split; assumption.
  - intros properties x. split; reflexivity.
Qed.

(** *** The validation of the weights *)

Lemma float_is_nan_SF (x : float) :
  PrimFloat.is_nan x = true <-> Prim2SF x = S754_nan.
Proof.
  unfold PrimFloat.is_nan. rewrite FloatAxioms.eqb_spec, SFeqb_refl_leb.
  unfold SFleb, SFcompare.
  destruct (Prim2SF x) as [s|s| |s m e]; cbn [negb]; split; intros H;
    try discriminate; try reflexivity;
    destruct s; rewrite ?Z.compare_refl, ?Pos.compare_cont_refl in H; discriminate.
Qed.

Lemma float_add_nan_l (x y : float) :
  PrimFloat.is_nan x = true -> PrimFloat.is_nan (x + y) = true.
Proof.
  rewrite !float_is_nan_SF, FloatAxioms.add_spec. intros ->. reflexivity.
Qed.

Lemma float_add_nan_r (x y : float) :
  PrimFloat.is_nan y = true -> PrimFloat.is_nan (x + y) = true.
Proof.
  rewrite !float_is_nan_SF, FloatAxioms.add_spec. intros ->.
  destruct (Prim2SF x); reflexivity.
Qed.

Lemma float_sub_nan_l (x y : float) :
  PrimFloat.is_nan x = true -> PrimFloat.is_nan (x - y) = true.
Proof.
  rewrite !float_is_nan_SF, FloatAxioms.sub_spec. intros ->. reflexivity.
Qed.

Lemma float_abs_nan (x : float) :
  PrimFloat.is_nan x = true -> PrimFloat.is_nan (Math_abs x) = true.
Proof.
  unfold Math_abs. rewrite !float_is_nan_SF, FloatAxioms.abs_spec. intros ->. reflexivity.
Qed.

Lemma float_ltb_nan_r (x y : float) : PrimFloat.is_nan y = true -> (x <? y) = false.
Proof.
  rewrite float_is_nan_SF, FloatAxioms.ltb_spec. intros ->.
  unfold SFltb, SFcompare. destruct (Prim2SF x); reflexivity.
Qed.

(** X26.  The validation of the weights in the admin panel accepts the
    initial configuration, the weights of the engine in percent, whose sum
    is exactly 100; and it does not reject a weight that is NaN: whenever
    one of the four weights is NaN the configuration is saved. *)
Theorem weights_validation :
  AdminPanel.saveConfiguration AdminPanel.initialScoringWeights = AdminPanel.saved /\
  (forall w : AdminPanel.ScoringWeights.t,
     PrimFloat.is_nan (AdminPanel.ScoringWeights.governmental w) ||
     PrimFloat.is_nan (AdminPanel.ScoringWeights.logistics w) ||
     PrimFloat.is_nan (AdminPanel.ScoringWeights.policyIncentives w) ||
     PrimFloat.is_nan (AdminPanel.ScoringWeights.communityReadiness w) = true ->
     AdminPanel.saveConfiguration w = AdminPanel.saved).
Proof.
  split; [vm_compute; reflexivity|].
  intros [g l p c].
  cbn [AdminPanel.ScoringWeights.governmental AdminPanel.ScoringWeights.logistics
       AdminPanel.ScoringWeights.policyIncentives
       AdminPanel.ScoringWeights.communityReadiness].
  intros H. unfold AdminPanel.saveConfiguration.
  cbn [AdminPanel.ScoringWeights.governmental AdminPanel.ScoringWeights.logistics
       AdminPanel.ScoringWeights.policyIncentives
       AdminPanel.ScoringWeights.communityReadiness fold_left].
  cbv zeta.
  assert (Hnan : PrimFloat.is_nan (0 + g + l + p + c) = true).
  { rewrite !orb_true_iff in H. destruct H as [[[H|H]|H]|H].
    - do 3 apply float_add_nan_l. apply float_add_nan_r, H.
    - do 2 apply float_add_nan_l. apply float_add_nan_r, H.
    - apply float_add_nan_l. apply float_add_nan_r, H.
    - apply float_add_nan_r, H. }
  rewrite (float_ltb_nan_r _ _ (float_abs_nan _ (float_sub_nan_l _ 100 Hnan))).
  reflexivity.
Qed.

(** *** The acetic acid endpoint *)

(** X27.  The acetic acid endpoint ignores its [region] parameter: the
    answer is the same for every region.  It always succeeds, [count] is
    the number of facilities in [data], an empty or missing [status] keeps
    all mock facilities, and a status keeps the facilities of exactly that
    status, so that any other word than active, inactive or planned gives an
    empty list. *)
Theorem acetic_endpoint_filters (region region' status : option string)
    (clock : nat -> string) :
  AceticAcidRoute.GET region status clock = AceticAcidRoute.GET region' status clock /\
  AceticAcidRoute.Response.success (AceticAcidRoute.GET region status clock) = true /\
  AceticAcidRoute.Response.count (AceticAcidRoute.GET region status clock) =
    length (AceticAcidRoute.Response.data (AceticAcidRoute.GET region status clock)) /\
  (status = None \/ status = Some EmptyString ->
   AceticAcidRoute.Response.data (AceticAcidRoute.GET region status clock) =
   AceticAcidRoute.mockFacilities clock) /\
  (forall s, status = Some (statusName s) ->
   AceticAcidRoute.Response.data (AceticAcidRoute.GET region status clock) =
   List.filter (fun f => bool_decide (Acetic.operationalStatus f = s))
     (AceticAcidRoute.mockFacilities clock)) /\
  (forall word, status = Some word -> word <> EmptyString ->
   (forall s, word <> statusName s) ->
   AceticAcidRoute.Response.data (AceticAcidRoute.GET region status clock) = []).
Proof.
  assert (Hregion : forall r, AceticAcidRoute.GET r status clock =
                              AceticAcidRoute.GET None status clock).
  { intros [r|]; [|reflexivity]. unfold AceticAcidRoute.GET.
    destruct (negb (String.eqb r EmptyString)); reflexivity. }
  rewrite (Hregion region), (Hregion region'). clear Hregion.
  split; [reflexivity|]. split; [reflexivity|]. split; [reflexivity|].
  split; [|split].
  - intros [-> | ->]; reflexivity.
  - intros s ->. destruct s; reflexivity.
  - intros word -> Hne Hword. unfold AceticAcidRoute.GET.
    cbn [AceticAcidRoute.Response.data].
    apply String.eqb_neq in Hne. rewrite Hne. cbn [negb].
    assert (Hnone : forall f, String.eqb (statusName (Acetic.operationalStatus f)) word
                              = false).
    { intros f. apply String.eqb_neq. intros Heq. exact (Hword _ (eq_sym Heq)). }
    unfold AceticAcidRoute.mockFacilities. cbn [List.filter]. rewrite !Hnone. reflexivity.
Qed.

(** *** The GeoJSON export *)

(** X28.  The GeoJSON export loses nothing: it has one feature for each
    site, in the order of the sites, and two lists of sites with the same
    export are equal. *)
Theorem toGeoJSON_lossless (sites sites' : list OverlapSite) :
  length (DataExporter.FeatureCollection.features (DataExporter.toGeoJSON sites)) =
    length sites /\
  (DataExporter.toGeoJSON sites = DataExporter.toGeoJSON sites' -> sites = sites').
Proof.
  split; [apply length_map|].
  unfold DataExporter.toGeoJSON. intros H. injection H as H.
  revert sites' H. induction sites as [|s sites IH]; intros [|s' sites'] H;
    try discriminate; [reflexivity|].
  cbn [map] in H. injection H as H1 H2 H3 H4 H5 H6 H7 H8 H9 H10 H11 Hrest.
  destruct s, s'. cbn in *. subst. f_equal. apply IH, Hrest.
Qed.


(** ** The further properties of the engine at given inputs *)

Lemma returned_overall_range_witness :
  (49 <=? Site.overallScore Examples.scenario_site) = true /\
  (Site.overallScore Examples.scenario_site <=? 99) = true.
Proof.
  apply (returned_overall_range Series.sin Series.cos Series.atan2
           (Series.constant_tape 0.5)
           [Examples.scenario_acetic] [Examples.scenario_co2] 50 0).
  vm_compute. left. reflexivity.
Defined.

Lemma thresholds_that_return_nothing_witness :
  generateSiteRecommendations Series.sin Series.cos Series.atan2
    (Series.constant_tape 0.5)
    [Examples.scenario_acetic] [Examples.scenario_co2] 50 100 = [].
Proof.
  apply (thresholds_that_return_nothing Series.sin Series.cos Series.atan2
           (Series.constant_tape 0.5)
           [Examples.scenario_acetic] [Examples.scenario_co2] 50 100).
  left. reflexivity.
Defined.

Lemma low_minScore_keeps_every_pair_witness :
  Permutation
    (map contributors
       (generateSiteRecommendations Series.sin Series.cos Series.atan2
          (Series.constant_tape 0.5)
          [Examples.scenario_acetic; Examples.near_acetic]
          [Examples.scenario_co2; Examples.near_co2] 50 49))
    (map (fun p => ([Acetic.id p.1], [CO2.id p.2]))
       (List.filter (withinDistance Series.sin Series.cos Series.atan2 50)
          (pairsInOrder [Examples.scenario_acetic; Examples.near_acetic]
             [Examples.scenario_co2; Examples.near_co2]))) /\
  length
    (generateSiteRecommendations Series.sin Series.cos Series.atan2
       (Series.constant_tape 0.5)
       [Examples.scenario_acetic; Examples.near_acetic]
       [Examples.scenario_co2; Examples.near_co2] 50 49) =
  length
    (List.filter (withinDistance Series.sin Series.cos Series.atan2 50)
       (pairsInOrder [Examples.scenario_acetic; Examples.near_acetic]
          [Examples.scenario_co2; Examples.near_co2])).
Proof.
  apply (low_minScore_keeps_every_pair Series.sin Series.cos Series.atan2
           (Series.constant_tape 0.5)).
  reflexivity.
Defined.

Lemma raising_minScore_filters_witness :
  map (withId EmptyString)
    (generateSiteRecommendations Series.sin Series.cos Series.atan2
       (Series.list_tape (repeat 0.1 8) 0.9)
       [Examples.scenario_acetic; Examples.near_acetic]
       [Examples.scenario_co2; Examples.near_co2] 50 85) =
  List.filter (fun s => 85 <=? Site.overallScore s)
    (map (withId EmptyString)
       (generateSiteRecommendations Series.sin Series.cos Series.atan2
          (Series.list_tape (repeat 0.1 8) 0.9)
          [Examples.scenario_acetic; Examples.near_acetic]
          [Examples.scenario_co2; Examples.near_co2] 50 0)).
Proof.
  apply (raising_minScore_filters Series.sin Series.cos Series.atan2
           (Series.list_tape (repeat 0.1 8) 0.9)).
  reflexivity.
Defined.

Lemma distance_symmetric_in_binary64_witness :
  calculateDistance Series.sin Series.cos Series.atan2
    29.7604 (-95.3698) 30.2241 (-92.0198) =
  calculateDistance Series.sin Series.cos Series.atan2
    30.2241 (-92.0198) 29.7604 (-95.3698).
Proof.
  apply (distance_symmetric_in_binary64 Series.sin Series.cos Series.atan2).
  exact Series_sin_odd.
Defined.

Lemma boosted_scores_are_fractional_witness :
  (Site.governmentalScore Examples.scenario_site = 100 \/
   isInteger (Site.governmentalScore Examples.scenario_site) = false) /\
  (Site.logisticsScore Examples.scenario_site = 100 \/
   isInteger (Site.logisticsScore Examples.scenario_site) = false) /\
  isInteger (Site.policyIncentivesScore Examples.scenario_site) = true /\
  isInteger (Site.communityReadinessScore Examples.scenario_site) = true.
Proof.
  apply (boosted_scores_are_fractional Series.sin Series.cos Series.atan2
           (Series.constant_tape 0.5)
           [Examples.scenario_acetic] [Examples.scenario_co2] 50 0).
  vm_compute. left. reflexivity.
Defined.

Lemma engine_reads_only_its_inputs_witness :
  generateSiteRecommendations Series.sin Series.cos Series.atan2
    (Series.constant_tape 0.5)
    [Examples.scenario_acetic] [Examples.scenario_co2] 50 0 =
  generateSiteRecommendations Series.sin Series.cos Series.atan2
    (Series.constant_tape 0.5)
    [Acetic.mk "acetic-1" "Closed plant" 29.7604 (-95.3698) 500000 inactive "2020-01-01"]
    [CO2.mk "co2-1" "Closed works" 29.7604 (-95.3698) 2500000 steel planned "2020-01-01"]
    50 0.
Proof.
  apply (engine_reads_only_its_inputs Series.sin Series.cos Series.atan2
           (Series.constant_tape 0.5)).
  - constructor; [repeat split|constructor].
  - constructor; [repeat split|constructor].
Defined.

Lemma filterSitesByScore_after_engine_witness :
  DataFilter.filterSitesByScore
    (generateSiteRecommendations Series.sin Series.cos Series.atan2
       (Series.constant_tape 0.5)
       (AceticAcidRoute.mockFacilities Bodies.noon)
       (CO2EmittersRoute.mockFacilities Bodies.noon) 50 96)
    (DataFilter.Criteria.mk (Some 90) None None None None) =
  generateSiteRecommendations Series.sin Series.cos Series.atan2
    (Series.constant_tape 0.5)
    (AceticAcidRoute.mockFacilities Bodies.noon)
    (CO2EmittersRoute.mockFacilities Bodies.noon) 50 96.
Proof.
  apply (filterSitesByScore_after_engine Series.sin Series.cos Series.atan2
           (Series.constant_tape 0.5)).
  reflexivity.
Defined.

Lemma overlap_sites_come_from_valid_entries_witness :
  exists aceticEntries co2Entries a c,
    getProperty Bodies.aceticBody "data" = Some (JsArray aceticEntries) /\
    getProperty Bodies.co2Body "data" = Some (JsArray co2Entries) /\
    In a aceticEntries /\ In c co2Entries /\
    DataValidator.validateAceticFacility a = Some true /\
    DataValidator.validateCO2Facility c = Some true /\
    Site.aceticAcidFacilities Bodies.houston_site = [stringOf (property a "id")] /\
    Site.co2EmitterFacilities Bodies.houston_site = [stringOf (property c "id")] /\
    Site.latitude Bodies.houston_site =
      optimalLat (asAceticFacility a) (asCO2Facility c) /\
    Site.longitude Bodies.houston_site =
      optimalLon (asAceticFacility a) (asCO2Facility c).
Proof.
  eapply (overlap_sites_come_from_valid_entries Series.sin Series.cos Series.atan2
            (Series.constant_tape 0.5) 50 0 Bodies.aceticBody Bodies.co2Body).
  - vm_compute. reflexivity.
  - vm_compute. left. reflexivity.
Defined.

(** ** The properties of the dashboard and of the data processing at given inputs *)

Lemma bestSite_is_first_maximum_witness :
  match SiteComparison.bestSite [Examples.scenario_site; Bodies.houston_site] with
  | None => [Examples.scenario_site; Bodies.houston_site] = []
  | Some best =>
      exists before after,
        [Examples.scenario_site; Bodies.houston_site] = before ++ best :: after /\
        Forall (fun s => (Site.overallScore s <? Site.overallScore best) = true) before /\
        Forall (fun s => (Site.overallScore s <=? Site.overallScore best) = true) after
  end.
Proof.
  apply (bestSite_is_first_maximum [Examples.scenario_site; Bodies.houston_site]).
  repeat constructor.
Defined.

Lemma falsy_bounds_are_not_applied_witness :
  (forall facilities minCapacity,
     DataFilter.filterAceticByCapacity facilities minCapacity (Some 0) =
     DataFilter.filterAceticByCapacity facilities minCapacity None) /\
  (forall facilities minEmissions,
     DataFilter.filterCO2ByEmissions facilities minEmissions (Some 0) =
     DataFilter.filterCO2ByEmissions facilities minEmissions None) /\
  (forall sites,
     DataFilter.filterSitesByScore sites
       (DataFilter.Criteria.mk (Some 0) (Some 0) (Some 0) (Some 0) (Some 0)) = sites).
Proof.
  apply (falsy_bounds_are_not_applied 0). reflexivity.
Defined.

Lemma calculateStats_max_min_witness :
  let stats := DataAggregator.calculateStats [99; 97; 95] in
  In (DataAggregator.Stats.max stats) [99; 97; 95] /\
  Forall (fun v => (v <=? DataAggregator.Stats.max stats) = true) [99; 97; 95] /\
  In (DataAggregator.Stats.min stats) [99; 97; 95] /\
  Forall (fun v => (DataAggregator.Stats.min stats <=? v) = true) [99; 97; 95].
Proof.
  apply (calculateStats_max_min [99; 97; 95]).
  - discriminate.
  - repeat constructor.
Defined.
